(** * Incident-detection engine of the speed-alert app

    A shallow embedding of [src/index.tsx]: the sensor handlers
    [handleLocationChange], [handleAccelerometer], [handleDeviceMotion], the
    correlation check [checkCombinedConditions] and the alert gate
    [triggerAlert], with the properties of the specification proved about them.

    Numbers.  A JavaScript number is an IEEE-754 binary64 value, which is what
    Rocq's primitive [float] is, so speeds, g-forces and angles are [float]s
    and [*], [-], [Math.sqrt], [>=], [>] are the primitive operations.
    [Date.now()] returns an integral number of milliseconds; differences of
    such values are exact in binary64, so timestamps and durations are [Z].

    Effects.  The component keeps its state in [useRef] cells and [useState]
    values; a handler mutates them, reads the clock and talks to the console,
    the dialog box and the network.  All of that lives in a [World] threaded
    through a small state monad.  Every call of [Date.now()] is a reading of
    its own: a pass reads the clock once in the handler, once more in each
    correlation check and once more in [triggerAlert].

    Layout.  The data and the handlers come first, then the vocabulary of the
    statements, then the proofs: the handlers branch by branch, the claims of
    the specification (each marked with its number), and runs on concrete
    samples. *)

From Stdlib Require Import ZArith QArith List Bool String Floats Lia.
Import ListNotations.

Local Open Scope Z_scope.

(** ** Thresholds ([src/index.tsx], lines 21-32) *)

Definition SPEED_DROP_THRESHOLD_KMH : float := 40%float.
Definition ACCEL_MAGNITUDE_THRESHOLD_G : float := 3%float.
Definition ACCEL_DURATION_THRESHOLD_MS : Z := 60.
Definition TILT_DANGER_THRESHOLD_DEG : float := 30%float.
Definition COMBINED_ALERT_WINDOW_MS : Z := 2000.
Definition ALERT_COOLDOWN_MS : Z := 10000.

(** ** JavaScript primitives used by the handlers *)

(** [3.6] and [Math.PI] as the binary64 values the literals denote. *)
Definition KMH_PER_METRE_PER_SECOND : float := 0x1.ccccccccccccdp+1%float.
Definition Math_PI : float := 0x1.921fb54442d18p+1%float.

(** Truthiness of a number: everything but [0], [-0] and [NaN]. *)
Definition truthy (v : float) : bool := negb (is_zero v || is_nan v).

(** [v || 0] for [v : number | null]. *)
Definition or_zero (v : option float) : float :=
  match v with
  | Some x => if truthy x then x else 0%float
  | None => 0%float
  end.

(** [a >= b] and [a > b] on numbers; both are false when an operand is NaN. *)
Definition ge (a b : float) : bool := (b <=? a)%float.
Definition gt (a b : float) : bool := (b <? a)%float.

Definition Math_abs (a : float) : float := abs a.

(** [Math.max(a, b)]: NaN when an operand is NaN, and [+0] above [-0]. *)
Definition Math_max (a b : float) : float :=
  if is_nan a || is_nan b then nan
  else if (a <? b)%float then b
  else if (b <? a)%float then a
  else if get_sign a then b else a.

Definition Math_sqrt (a : float) : float := sqrt a.

(** [s || fallback] for [s : string | undefined]: the empty string is falsy. *)
Definition or_string (s : option string) (fallback : string) : string :=
  match s with
  | Some t => if String.eqb t EmptyString then fallback else t
  | None => fallback
  end.

(** ** Data *)

(** The objects stored in the three detection flags (lines 53-55). *)
Record SpeedDropFlag := mkSpeedDrop { sd_timestamp : Z; sd_value : float }.
Record HighAccelerationFlag := mkHighAcceleration
  { ha_timestamp : Z; ha_magnitude : float; ha_duration : Z }.
Record HighTiltFlag := mkHighTilt { ht_timestamp : Z; ht_tilt : float }.

Record Coordinates := mkCoordinates { latitude : float; longitude : float }.

(** The part of expo-location's [LocationObject] that exists for the handler.
    [loc_timestamp] is the sample's own time stamp; the handler never reads
    it. *)
Record LocationCoords := mkCoords
  { coords_latitude : float; coords_longitude : float; coords_speed : option float }.
Record LocationObject := mkLocation { coords : LocationCoords; loc_timestamp : Z }.

Record Vec3 := mkVec3 { vx : float; vy : float; vz : float }.

(** The two fields of [DeviceMotionMeasurement] that [handleDeviceMotion]
    reads; either may be missing. *)
Record DeviceMotionMeasurement := mkMotion
  { accelerationIncludingGravity : option Vec3; acceleration : option Vec3 }.

Inductive AlertType := SpeedDrop | HighAcceleration | HighTilt | Combined.

(** The optional [data] bag of [triggerAlert] (line 312). *)
Record AlertData := mkData
  { data_latitude : option float; data_longitude : option float;
    data_speedKmh : option float; data_speedDrop : option float;
    data_magnitudeG : option float; data_duration : option Z;
    data_tilt : option float }.

(** The alert text, kept as the values it embeds: [None] is the ['N/A'] that
    the template prints for a missing value, and [msg_location] is the
    map-link line, present when both coordinates are.  Rendering with
    [toFixed] is not modelled. *)
Inductive Message :=
| MsgSpeedDrop (speedKmh speedDrop : option float) (msg_location : option Coordinates)
| MsgHighAcceleration (magnitudeG : option float) (duration : option Z)
    (msg_location : option Coordinates)
| MsgHighTilt (tilt : option float) (msg_location : option Coordinates)
| MsgCombined (speedDrop magnitude tilt : option float) (msg_location : option Coordinates).

(** What a handler does to the outside world, in program order. *)
Inductive Effect :=
| ConsoleLogSuppressed (type : AlertType) (data : option AlertData) (* line 316 *)
| ConsoleLogSending (message : Message)                                (* line 348 *)
| AlertAccident (message : Message)                                    (* line 349 *)
| FetchSendAlert (message : Message) (lat lon : option float)          (* line 352 *)
| AlertSmsError (text : string).                                       (* line 364 *)

(** How the promise returned by [fetch] settles.  A response of any HTTP
    status resolves it; only a network failure rejects it. *)
Inductive FetchOutcome :=
| Resolved (status : Z)
| Rejected (err_message : option string).

(** ** The component's state *)

(** [useState] values written by the handlers (lines 36-44). *)
Record Display := mkDisplay
  { currentSpeed : float;
    currentAccelerationMagnitude : float;
    currentTiltDegrees : float;
    momentumChangeDetected : bool;
    currentLatitude : option float;
    currentLongitude : option float }.

(** The [useRef] cells (lines 47-59), the display, the number of clock
    readings taken so far and the effects performed so far (oldest first). *)
Record World := mkWorld
  { lastSpeed : option float;
    lastLocationTimestamp : option Z;
    accelPeakTimestamp : option Z;
    speedDropDetected : option SpeedDropFlag;
    highAccelerationDetected : option HighAccelerationFlag;
    highTiltDetected : option HighTiltFlag;
    lastAlertTimestamp : Z;
    lastKnownCoordinates : option Coordinates;
    display : Display;
    ticks : nat;
    effects : list Effect }.

Definition initialDisplay : Display :=
  mkDisplay 0%float 0%float 0%float false None None.

(** The state of a freshly mounted component. *)
Definition fresh : World :=
  mkWorld None None None None None None 0 None initialDisplay 0%nat [].

Definition set_lastSpeed v w :=
  mkWorld v (lastLocationTimestamp w) (accelPeakTimestamp w) (speedDropDetected w)
    (highAccelerationDetected w) (highTiltDetected w) (lastAlertTimestamp w)
    (lastKnownCoordinates w) (display w) (ticks w) (effects w).
Definition set_lastLocationTimestamp v w :=
  mkWorld (lastSpeed w) v (accelPeakTimestamp w) (speedDropDetected w)
    (highAccelerationDetected w) (highTiltDetected w) (lastAlertTimestamp w)
    (lastKnownCoordinates w) (display w) (ticks w) (effects w).
Definition set_accelPeakTimestamp v w :=
  mkWorld (lastSpeed w) (lastLocationTimestamp w) v (speedDropDetected w)
    (highAccelerationDetected w) (highTiltDetected w) (lastAlertTimestamp w)
    (lastKnownCoordinates w) (display w) (ticks w) (effects w).
Definition set_speedDropDetected v w :=
  mkWorld (lastSpeed w) (lastLocationTimestamp w) (accelPeakTimestamp w) v
    (highAccelerationDetected w) (highTiltDetected w) (lastAlertTimestamp w)
    (lastKnownCoordinates w) (display w) (ticks w) (effects w).
Definition set_highAccelerationDetected v w :=
  mkWorld (lastSpeed w) (lastLocationTimestamp w) (accelPeakTimestamp w)
    (speedDropDetected w) v (highTiltDetected w) (lastAlertTimestamp w)
    (lastKnownCoordinates w) (display w) (ticks w) (effects w).
Definition set_highTiltDetected v w :=
  mkWorld (lastSpeed w) (lastLocationTimestamp w) (accelPeakTimestamp w)
    (speedDropDetected w) (highAccelerationDetected w) v (lastAlertTimestamp w)
    (lastKnownCoordinates w) (display w) (ticks w) (effects w).
Definition set_lastAlertTimestamp v w :=
  mkWorld (lastSpeed w) (lastLocationTimestamp w) (accelPeakTimestamp w)
    (speedDropDetected w) (highAccelerationDetected w) (highTiltDetected w) v
    (lastKnownCoordinates w) (display w) (ticks w) (effects w).
Definition set_lastKnownCoordinates v w :=
  mkWorld (lastSpeed w) (lastLocationTimestamp w) (accelPeakTimestamp w)
    (speedDropDetected w) (highAccelerationDetected w) (highTiltDetected w)
    (lastAlertTimestamp w) v (display w) (ticks w) (effects w).
Definition set_display v w :=
  mkWorld (lastSpeed w) (lastLocationTimestamp w) (accelPeakTimestamp w)
    (speedDropDetected w) (highAccelerationDetected w) (highTiltDetected w)
    (lastAlertTimestamp w) (lastKnownCoordinates w) v (ticks w) (effects w).
Definition set_ticks v w :=
  mkWorld (lastSpeed w) (lastLocationTimestamp w) (accelPeakTimestamp w)
    (speedDropDetected w) (highAccelerationDetected w) (highTiltDetected w)
    (lastAlertTimestamp w) (lastKnownCoordinates w) (display w) v (effects w).
Definition set_effects v w :=
  mkWorld (lastSpeed w) (lastLocationTimestamp w) (accelPeakTimestamp w)
    (speedDropDetected w) (highAccelerationDetected w) (highTiltDetected w)
    (lastAlertTimestamp w) (lastKnownCoordinates w) (display w) (ticks w) v.

(** The [useState] setters. *)
Definition setCurrentSpeed v w :=
  let d := display w in
  set_display (mkDisplay v (currentAccelerationMagnitude d) (currentTiltDegrees d)
                 (momentumChangeDetected d) (currentLatitude d) (currentLongitude d)) w.
Definition setCurrentAccelerationMagnitude v w :=
  let d := display w in
  set_display (mkDisplay (currentSpeed d) v (currentTiltDegrees d)
                 (momentumChangeDetected d) (currentLatitude d) (currentLongitude d)) w.
Definition setCurrentTiltDegrees v w :=
  let d := display w in
  set_display (mkDisplay (currentSpeed d) (currentAccelerationMagnitude d) v
                 (momentumChangeDetected d) (currentLatitude d) (currentLongitude d)) w.
Definition setMomentumChangeDetected v w :=
  let d := display w in
  set_display (mkDisplay (currentSpeed d) (currentAccelerationMagnitude d)
                 (currentTiltDegrees d) v (currentLatitude d) (currentLongitude d)) w.
Definition setCurrentLatitude v w :=
  let d := display w in
  set_display (mkDisplay (currentSpeed d) (currentAccelerationMagnitude d)
                 (currentTiltDegrees d) (momentumChangeDetected d) v (currentLongitude d)) w.
Definition setCurrentLongitude v w :=
  let d := display w in
  set_display (mkDisplay (currentSpeed d) (currentAccelerationMagnitude d)
                 (currentTiltDegrees d) (momentumChangeDetected d) (currentLatitude d) v) w.

(** ** The monad of handlers *)

Definition M (A : Type) : Type := World -> A * World.

Definition ret {A} (a : A) : M A := fun w => (a, w).
Definition bind {A B} (m : M A) (k : A -> M B) : M B :=
  fun w => let (a, w') := m w in k a w'.
Definition gets {A} (f : World -> A) : M A := fun w => (f w, w).
Definition modify (f : World -> World) : M unit := fun w => (tt, f w).
Definition emit (e : Effect) : M unit :=
  modify (fun w => set_effects (effects w ++ [e]) w).
Definition exec {A} (m : M A) (w : World) : World := snd (m w).

Declare Scope engine_scope.
Delimit Scope engine_scope with engine.
Notation "x <- m ;; k" := (bind m (fun x => k))
  (at level 61, m at next level, right associativity) : engine_scope.
Notation "m ;; k" := (bind m (fun _ => k))
  (at level 61, right associativity) : engine_scope.
Local Open Scope engine_scope.

(** ** The derived metrics *)

(** Line 157: [(loc.coords.speed || 0) * 3.6]. *)
Definition speedKmhOf (loc : LocationObject) : float :=
  (or_zero (coords_speed (coords loc)) * KMH_PER_METRE_PER_SECOND)%float.

(** Lines 202 and 248. *)
Definition magnitudeOf (v : Vec3) : float :=
  Math_sqrt (vx v * vx v + vy v * vy v + vz v * vz v)%float.

(** Lines 290-292: is a detection present and younger than the window? *)
Definition isSpeedDropActive (now : Z) (w : World) : bool :=
  match speedDropDetected w with
  | Some d => now - sd_timestamp d <? COMBINED_ALERT_WINDOW_MS
  | None => false
  end.
Definition isHighAccelerationActive (now : Z) (w : World) : bool :=
  match highAccelerationDetected w with
  | Some d => now - ha_timestamp d <? COMBINED_ALERT_WINDOW_MS
  | None => false
  end.
Definition isHighTiltActive (now : Z) (w : World) : bool :=
  match highTiltDetected w with
  | Some d => now - ht_timestamp d <? COMBINED_ALERT_WINDOW_MS
  | None => false
  end.

(** Line 174: [(now - lastLocationTimestamp.current) / 1000], in seconds.
    The operands are integers, so the quotient is kept exact; the handler
    only compares it with [1], which binary64 rounding of the quotient does
    not change. *)
Definition timeDiff (now last : Z) : Q := (inject_Z (now - last) / 1000)%Q.

(** ** Reading the effect log *)

(** Every call of [triggerAlert] leaves exactly one of these two effects: the
    console line of a suppressed alert, or the request to the SMS backend. *)
Definition isCompoundAlert (e : Effect) : bool :=
  match e with
  | ConsoleLogSuppressed Combined _ => true
  | FetchSendAlert (MsgCombined _ _ _ _) _ _ => true
  | _ => false
  end.

(** The request to the SMS backend: the alert was dispatched. *)
Definition isDispatch (e : Effect) : bool :=
  match e with
  | FetchSendAlert _ _ _ => true
  | _ => false
  end.

(** The compound alerts raised so far, dispatched or suppressed. *)
Definition compoundAlerts (log : list Effect) : list Effect := filter isCompoundAlert log.

(** The alerts handed to the delivery channel so far. *)
Definition dispatched (log : list Effect) : list Effect := filter isDispatch log.

(** Does an effect show the speed drop [v], the g-force [g] and the tilt [t]
    of a combined alert?  A message shows the values its template prints
    (lines 340-342); the console line of a suppressed alert shows its [data]
    bag (line 316). *)
Definition showsValues (v g t : float) (e : Effect) : Prop :=
  match e with
  | ConsoleLogSending m | AlertAccident m | FetchSendAlert m _ _ =>
      exists link, m = MsgCombined (Some v) (Some g) (Some t) link
  | ConsoleLogSuppressed _ data =>
      exists d, data = Some d
                /\ data_speedDrop d = Some v
                /\ data_magnitudeG d = Some g
                /\ data_tilt d = Some t
  | AlertSmsError _ => False
  end.

(** What the host delivers to the component, one at a time (section 5 of
    the specification: passes never interleave). *)
Inductive Event :=
| LocationChange (loc : LocationObject)
| AccelerometerUpdate (v : Vec3)
| DeviceMotionUpdate (motion : DeviceMotionMeasurement)
| FetchSettled (outcome : FetchOutcome).

(** An event without the time stamp that a location sample carries. *)
Definition eraseTimestamp (e : Event) : Event :=
  match e with
  | LocationChange loc => LocationChange (mkLocation (coords loc) 0)
  | _ => e
  end.

(** Are the time stamps that the samples carry in order?  Only location
    samples carry one that the model keeps. *)
Fixpoint timeOrderedFrom (t : Z) (events : list Event) : bool :=
  match events with
  | [] => true
  | LocationChange loc :: rest =>
      (t <=? loc_timestamp loc) && timeOrderedFrom (loc_timestamp loc) rest
  | _ :: rest => timeOrderedFrom t rest
  end.

Definition timeOrdered (events : list Event) : bool := timeOrderedFrom 0 events.

(** ** The component and its switch *)

(** Line 50: [useState(true)]. *)
Definition alertsEnabled_initial : bool := true.

(** The mounted component between two events: the [alertsEnabled] state of
    its latest render, which is what the switch shows (lines 419-424), and
    the rest. *)
Record Component := mkComponent { alertsEnabled_state : bool; world : World }.

(** What happens to a mounted component: the user flips the switch
    (line 421), or the host delivers an event to a registered handler. *)
Inductive AppEvent :=
| SwitchToggled
| Delivered (e : Event).

Definition mount : Component := mkComponent alertsEnabled_initial fresh.

(** The events delivered to the handlers, in order. *)
Definition delivered (events : list AppEvent) : list Event :=
  flat_map (fun a => match a with Delivered e => [e] | SwitchToggled => [] end) events.

(** ** Clocks and inputs of the concrete runs *)

(** The two clocks give the same [n] readings from the [lo]-th on. *)
Definition agree (c1 c2 : nat -> Z) (lo n : nat) : Prop :=
  forall k, (lo <= k < lo + n)%nat -> c1 k = c2 k.

(** [Math.atan2] on the coordinate axes and at the origin, where the
    language standard fixes the result: a zero [y] gives [y] itself when
    [x] is positive or [+0] and plus or minus pi when [x] is negative or
    [-0]; a zero [x] gives plus or minus pi/2.  It serves the concrete runs
    only, whose vectors lie on the axes; off the axes it is not
    [Math.atan2], and [nan] marks the missing entry. *)
Definition atan2_axes (y x : float) : float :=
  if is_nan y || is_nan x then nan
  else if is_zero y then
    if get_sign x then (if get_sign y then - Math_PI else Math_PI)%float else y
  else if is_zero x then
    if gt y 0 then (Math_PI / 2)%float else (- (Math_PI / 2))%float
  else nan.

(** A clock that gives the listed readings and then stays at the last one. *)
Definition clockOf (readings : list Z) (n : nat) : Z := nth n readings (last readings 0).

(** A location sample with speed [speed] m/s and its own time stamp [t]. *)
Definition sampleAt (speed : float) (t : Z) : LocationObject :=
  mkLocation (mkCoords 28.5 77.25 (Some speed)) t.

(** 3.5 g along the y axis: pitch -90 degrees, no roll. *)
Definition jolt : Vec3 := mkVec3 0 3.5 0.

(** Two episodes: a drop from 72 to 18 km/h, then two jolts 100 ms apart;
    and the same again some three seconds later. *)
Definition T0 : Z := 1700000000000.

Definition episodeClock : nat -> Z :=
  clockOf [T0; T0 + 500; T0 + 500; T0 + 600; T0 + 600;
           T0 + 700; T0 + 700; T0 + 700; T0 + 700;
           T0 + 3000; T0 + 3500; T0 + 3500;
           T0 + 3700; T0 + 3700; T0 + 3700; T0 + 3700].

Definition firstEpisode : list Event :=
  [LocationChange (sampleAt 20 T0); LocationChange (sampleAt 5 (T0 + 500));
   AccelerometerUpdate jolt; AccelerometerUpdate jolt].

Definition secondEpisode : list Event :=
  [LocationChange (sampleAt 20 (T0 + 3000)); LocationChange (sampleAt 5 (T0 + 3500));
   AccelerometerUpdate jolt].

Definition combinedMessage54 : Message :=
  MsgCombined (Some 54%float) (Some 3.5%float) (Some 90%float)
    (Some (mkCoordinates 28.5 77.25)).

Definition coordinatesOnly : option AlertData :=
  Some (mkData (Some 28.5%float) (Some 77.25%float) None None None None None).

(** ** The momentum line of the screen *)

(** Line 28. *)
Definition VEHICLE_MASS_KG : float := 1500%float.

(** Lines 408-416: what a render of the component shows of the momentum
    change.  [None]: the line is not rendered; [Some None]: it is rendered
    with ['N/A']; [Some (Some p)]: it is rendered with [p] kg.m/s (the
    [toFixed] rendering is not modelled). *)
Definition momentumLine (w : World) : option (option float) :=
  if momentumChangeDetected (display w) then
    Some match speedDropDetected w with
         | Some d => Some (VEHICLE_MASS_KG * (sd_value d / KMH_PER_METRE_PER_SECOND))%float
         | None => None
         end
  else None.

(** ** Mounting the component: permissions and subscriptions *)

(** Lines 17-19. *)
Definition LOCATION_UPDATE_INTERVAL : Z := 1000.
Definition ACCELEROMETER_UPDATE_INTERVAL : Z := 100.
Definition DEVICEMOTION_UPDATE_INTERVAL : Z := 100.

(** The status of an expo permission response; the code only asks whether
    it is ["granted"]. *)
Inductive PermissionStatus := granted | denied | undetermined.

Inductive OS := ios | android | web.

(** What the device answers while the effect of lines 68-152 runs: the
    platform, whether device motion exists, and what the user replies to
    each permission request, should it be made. *)
Record Host := mkHost
  { Platform_OS : OS;
    DeviceMotion_isAvailable : bool;
    locationPermission : PermissionStatus;
    deviceMotionPermission : PermissionStatus;
    accelerometerPermission : PermissionStatus }.

Inductive Sensor := DeviceMotionSensor | AccelerometerSensor.

(** What the effect does, in program order.  [AddListener DeviceMotionSensor]
    registers [handleDeviceMotion], [AddListener AccelerometerSensor]
    registers [handleAccelerometer], and [WatchPosition] registers
    [handleLocationChange]. *)
Inductive SetupStep :=
| PermissionDialog (text : string)               (* Alert.alert("Permission Denied", text) *)
| SetUpdateInterval (sensor : Sensor) (ms : Z)
| AddListener (sensor : Sensor)
| WatchPosition (timeInterval distanceInterval : Z).

Definition isPermissionGranted (s : PermissionStatus) : bool :=
  match s with granted => true | _ => false end.

Definition isIos (os : OS) : bool := match os with ios => true | _ => false end.

(** Lines 100-113 and 117-130: ask for the accelerometer; [text] is what the
    dialog says on refusal. *)
Definition subscribeAccelerometer (h : Host) (text : string) : list SetupStep :=
  if isPermissionGranted (accelerometerPermission h) then
    [SetUpdateInterval AccelerometerSensor ACCELEROMETER_UPDATE_INTERVAL;
     AddListener AccelerometerSensor]
  else [PermissionDialog text].

(** Lines 69-143: the body of the effect run on mount. *)
Definition sensorSetup (h : Host) : list SetupStep :=
  if negb (isPermissionGranted (locationPermission h)) then
    [PermissionDialog
       "Location permission is required to monitor speed and get coordinates."]
  else
    (if isIos (Platform_OS h) && DeviceMotion_isAvailable h then
       if isPermissionGranted (deviceMotionPermission h) then
         [SetUpdateInterval DeviceMotionSensor DEVICEMOTION_UPDATE_INTERVAL;
          AddListener DeviceMotionSensor]
       else
         PermissionDialog
           "Device Motion permission denied. Falling back to Accelerometer for impact/tilt detection."
         :: subscribeAccelerometer h
              "Accelerometer permission also denied. Impact and tilt detection will be unavailable."
     else
       subscribeAccelerometer h
         "Accelerometer permission denied. Impact and tilt detection will be unavailable.")
    ++ [WatchPosition LOCATION_UPDATE_INTERVAL 0].

Definition isAddListener (sensor : Sensor) (step : SetupStep) : bool :=
  match step, sensor with
  | AddListener DeviceMotionSensor, DeviceMotionSensor => true
  | AddListener AccelerometerSensor, AccelerometerSensor => true
  | _, _ => false
  end.

Definition isWatchPosition (step : SetupStep) : bool :=
  match step with WatchPosition _ _ => true | _ => false end.

Definition isPermissionDialog (step : SetupStep) : bool :=
  match step with PermissionDialog _ => true | _ => false end.

(** The events that can reach the component after a setup: a sample kind is
    delivered only to a registered handler; a pending request may settle at
    any time. *)
Definition delivers (setup : list SetupStep) (e : Event) : bool :=
  match e with
  | LocationChange _ => existsb isWatchPosition setup
  | AccelerometerUpdate _ => existsb (isAddListener AccelerometerSensor) setup
  | DeviceMotionUpdate _ => existsb (isAddListener DeviceMotionSensor) setup
  | FetchSettled _ => true
  end.

(** ** Kinds of events *)

Definition isLocationChange (e : Event) : bool :=
  match e with LocationChange _ => true | _ => false end.

Definition isMotionSample (e : Event) : bool :=
  match e with AccelerometerUpdate _ | DeviceMotionUpdate _ => true | _ => false end.

(** ** The backend ([src/server.js]) *)

(** The JSON body of a request to [/send-alert]; every field may be missing.
    The app sends all four (lines 355-361). *)
Record AlertRequest := mkRequest
  { req_to : option string;
    req_message : option Message;
    req_latitude : option float;
    req_longitude : option float }.

(** What the backend answers: [res.json] with status 200, or status 500 and
    the error text. *)
Inductive AlertResponse :=
| ResponseSuccess (sid : string)
| ResponseFailure (error : string).

Definition responseStatus (r : AlertResponse) : Z :=
  match r with ResponseSuccess _ => 200 | ResponseFailure _ => 500 end.

(** Line 11 of [src/server.js]: the sender's number, empty in the source. *)
Definition twilioPhone : string := EmptyString.

(** Line 356: the recipient the app puts in the request. *)
Definition alertRecipient : string := "+91xxxxxxxx".

(** Lines 355-361: the body the app posts for a dispatched alert. *)
Definition requestOf (e : Effect) : option AlertRequest :=
  match e with
  | FetchSendAlert message lat lon =>
      Some (mkRequest (Some alertRecipient) (Some message) lat lon)
  | _ => None
  end.

(** [fetch] resolves with the response whatever its status. *)
Definition fetchOutcome (r : AlertResponse) : FetchOutcome := Resolved (responseStatus r).

Section Server.

(** [client.messages.create({body, from, to})] of the Twilio client: the
    message id, or the text of the error it throws. *)
Variable messages_create : option Message -> string -> option string -> string + string.

(** Lines 15-27 of [src/server.js]: the handler of [POST /send-alert]. *)
Definition send_alert (req : AlertRequest) : AlertResponse :=
  match messages_create (req_message req) twilioPhone (req_to req) with
  | inl sid => ResponseSuccess sid
  | inr error => ResponseFailure error
  end.

End Server.

(** * The engine *)

Section Engine.

Set Default Proof Using "Type".

(** [Math.atan2] is left to the platform. *)
Variable Math_atan2 : float -> float -> float.

(** [Date.now()]: the [n]-th reading of the clock since the component was
    mounted. *)
Variable clock : nat -> Z.

(** The value of the [alertsEnabled] state variable that the closure
    [triggerAlert] was created with (line 50). *)
Variable alertsEnabled : bool.

(** ** The handlers *)

Definition Date_now : M Z :=
  fun w => (clock (ticks w), set_ticks (S (ticks w)) w).

(** Lines 226-228 and 270-272. *)
Definition tiltOf (v : Vec3) : float :=
  let pitch := (- Math_atan2 (vy v) (Math_sqrt (vx v * vx v + vz v * vz v)))%float in
  let roll := Math_atan2 (vx v) (Math_sqrt (vy v * vy v + vz v * vz v))%float in
  (Math_max (Math_abs pitch) (Math_abs roll) * (180 / Math_PI))%float.

(** The map-link line of a message (lines 323-326). *)
Definition coordinatesString (data : option AlertData) : option Coordinates :=
  match data with
  | Some d =>
      match data_latitude d, data_longitude d with
      | Some la, Some lo => Some (mkCoordinates la lo)
      | _, _ => None
      end
  | None => None
  end.

(** Lines 322-346: the text of the alert.  For a combined alert the values
    come from the three flags, not from [data]. *)
Definition composeMessage (type : AlertType) (data : option AlertData)
    (w : World) : Message :=
  let link := coordinatesString data in
  match type with
  | SpeedDrop =>
      MsgSpeedDrop (match data with Some d => data_speedKmh d | None => None end)
        (match data with Some d => data_speedDrop d | None => None end) link
  | HighAcceleration =>
      MsgHighAcceleration
        (match data with Some d => data_magnitudeG d | None => None end)
        (match data with Some d => data_duration d | None => None end) link
  | HighTilt =>
      MsgHighTilt (match data with Some d => data_tilt d | None => None end) link
  | Combined =>
      MsgCombined (option_map sd_value (speedDropDetected w))
        (option_map ha_magnitude (highAccelerationDetected w))
        (option_map ht_tilt (highTiltDetected w)) link
  end.

(** Lines 310-362, up to the [await].  The flags are read while the message
    is composed, that is before the caller clears them. *)
Definition triggerAlert (type : AlertType) (data : option AlertData) : M unit :=
  now <- Date_now ;;
  last <- gets lastAlertTimestamp ;;
  if negb alertsEnabled || (now - last <? ALERT_COOLDOWN_MS) then
    emit (ConsoleLogSuppressed type data)
  else
    modify (set_lastAlertTimestamp now) ;;
    message <- gets (composeMessage type data) ;;
    emit (ConsoleLogSending message) ;;
    emit (AlertAccident message) ;;
    emit (FetchSendAlert message
            (match data with Some d => data_latitude d | None => None end)
            (match data with Some d => data_longitude d | None => None end)).

(** Lines 351-368, after the [await]: what runs when the request settles.
    It may run any number of handler passes later. *)
Definition triggerAlert_settled (outcome : FetchOutcome) : M unit :=
  match outcome with
  | Resolved _ => ret tt
  | Rejected msg =>
      emit (AlertSmsError (or_string msg "Failed to send SMS notification."))
  end.

(** Lines 287-307. *)
Definition checkCombinedConditions : M unit :=
  now <- Date_now ;;
  speedDropActive <- gets (isSpeedDropActive now) ;;
  highAccelerationActive <- gets (isHighAccelerationActive now) ;;
  highTiltActive <- gets (isHighTiltActive now) ;;
  if speedDropActive && highAccelerationActive && highTiltActive then
    known <- gets lastKnownCoordinates ;;
    triggerAlert Combined
      (Some (mkData (option_map latitude known) (option_map longitude known)
               None None None None None)) ;;
    modify (set_speedDropDetected None) ;;
    modify (set_highAccelerationDetected None) ;;
    modify (set_highTiltDetected None)
  else ret tt.

(** Lines 173-195: the speed-drop detector, given the handler's clock
    reading and the speed just computed. *)
Definition speedDropBlock (now : Z) (speedKmh : float) : M unit :=
  prevSpeed <- gets lastSpeed ;;
  prevT <- gets lastLocationTimestamp ;;
  match prevSpeed, prevT with
  | Some prev, Some last =>
      let speedDrop := (prev - speedKmh)%float in
      if Qle_bool (timeDiff now last) 1
         && ge speedDrop SPEED_DROP_THRESHOLD_KMH
         && gt prev 5%float
      then
        modify (set_speedDropDetected (Some (mkSpeedDrop now speedDrop))) ;;
        modify (setMomentumChangeDetected true) ;;
        checkCombinedConditions
      else
        detected <- gets speedDropDetected ;;
        match detected with
        | Some d =>
            if COMBINED_ALERT_WINDOW_MS <? now - sd_timestamp d then
              modify (set_speedDropDetected None) ;;
              modify (setMomentumChangeDetected false)
            else modify (setMomentumChangeDetected false)
        | None => modify (setMomentumChangeDetected false)
        end
  | _, _ => ret tt
  end.

(** Lines 158-199 for a speed already converted to km/h. *)
Definition locationPass (speedKmh : float) (loc : LocationObject) : M unit :=
  modify (setCurrentSpeed speedKmh) ;;
  modify (setCurrentLatitude (Some (coords_latitude (coords loc)))) ;;
  modify (setCurrentLongitude (Some (coords_longitude (coords loc)))) ;;
  (if truthy (coords_latitude (coords loc)) && truthy (coords_longitude (coords loc))
   then modify (set_lastKnownCoordinates
                  (Some (mkCoordinates (coords_latitude (coords loc))
                           (coords_longitude (coords loc)))))
   else ret tt) ;;
  now <- Date_now ;;
  speedDropBlock now speedKmh ;;
  modify (set_lastSpeed (Some speedKmh)) ;;
  modify (set_lastLocationTimestamp (Some now)).

(** Lines 156-199. *)
Definition handleLocationChange (loc : LocationObject) : M unit :=
  locationPass (speedKmhOf loc) loc.

(** Lines 207-223, and again 251-267: the high-acceleration detector. *)
Definition highAccelerationBlock (now : Z) (magnitudeG : float) : M unit :=
  if ge magnitudeG ACCEL_MAGNITUDE_THRESHOLD_G then
    peak <- gets accelPeakTimestamp ;;
    match peak with
    | None => modify (set_accelPeakTimestamp (Some now))
    | Some p =>
        if ACCEL_DURATION_THRESHOLD_MS <=? now - p then
          modify (set_highAccelerationDetected
                    (Some (mkHighAcceleration now magnitudeG (now - p)))) ;;
          checkCombinedConditions
        else ret tt
    end
  else
    modify (set_accelPeakTimestamp None) ;;
    detected <- gets highAccelerationDetected ;;
    match detected with
    | Some d =>
        if COMBINED_ALERT_WINDOW_MS <? now - ha_timestamp d
        then modify (set_highAccelerationDetected None)
        else ret tt
    | None => ret tt
    end.

(** Lines 231-236, and again 275-280: the tilt detector. *)
Definition highTiltBlock (now : Z) (tilt : float) : M unit :=
  if ge tilt TILT_DANGER_THRESHOLD_DEG then
    modify (set_highTiltDetected (Some (mkHighTilt now tilt))) ;;
    checkCombinedConditions
  else
    detected <- gets highTiltDetected ;;
    match detected with
    | Some d =>
        if COMBINED_ALERT_WINDOW_MS <? now - ht_timestamp d
        then modify (set_highTiltDetected None)
        else ret tt
    | None => ret tt
    end.

(** Lines 201-237. *)
Definition handleAccelerometer (v : Vec3) : M unit :=
  let magnitudeG := magnitudeOf v in
  modify (setCurrentAccelerationMagnitude magnitudeG) ;;
  now <- Date_now ;;
  highAccelerationBlock now magnitudeG ;;
  let tilt := tiltOf v in
  modify (setCurrentTiltDegrees tilt) ;;
  highTiltBlock now tilt.

(** Lines 239-284. *)
Definition handleDeviceMotion (motion : DeviceMotionMeasurement) : M unit :=
  now <- Date_now ;;
  match
    match accelerationIncludingGravity motion with
    | Some a => Some a
    | None => acceleration motion
    end
  with
  | Some v =>
      let magnitudeG := magnitudeOf v in
      modify (setCurrentAccelerationMagnitude magnitudeG) ;;
      highAccelerationBlock now magnitudeG ;;
      let tilt := tiltOf v in
      modify (setCurrentTiltDegrees tilt) ;;
      highTiltBlock now tilt
  | None => ret tt
  end.

Definition handle (e : Event) : M unit :=
  match e with
  | LocationChange loc => handleLocationChange loc
  | AccelerometerUpdate v => handleAccelerometer v
  | DeviceMotionUpdate motion => handleDeviceMotion motion
  | FetchSettled outcome => triggerAlert_settled outcome
  end.

Definition run (events : list Event) (w : World) : World :=
  fold_left (fun w e => exec (handle e) w) events w.

(** One step of the mounted component.  The switch runs
    [setAlertsEnabled(prev => !prev)], which re-renders the component with
    new handler closures; but the subscriptions were made by the effect of
    the first render, whose dependency list is empty (lines 68-152), and
    are never renewed.  A delivered event is therefore handled by the
    handlers of the first render, whose [alertsEnabled] is the one of this
    section, whatever the switch shows. *)
Definition appHandle (c : Component) (a : AppEvent) : Component :=
  match a with
  | SwitchToggled => mkComponent (negb (alertsEnabled_state c)) (world c)
  | Delivered e => mkComponent (alertsEnabled_state c) (exec (handle e) (world c))
  end.

Definition appRun (events : list AppEvent) (c : Component) : Component :=
  fold_left appHandle events c.

(** ** Vocabulary of the statements *)

(** The data handed to [triggerAlert] by the correlation check. *)
Definition combinedData (w : World) : option AlertData :=
  Some (mkData (option_map latitude (lastKnownCoordinates w))
          (option_map longitude (lastKnownCoordinates w)) None None None None None).

(** The gate of [triggerAlert] as seen from a world about to call it. *)
Definition gateClosed (w : World) : bool :=
  negb alertsEnabled || (clock (ticks w) - lastAlertTimestamp w <? ALERT_COOLDOWN_MS).

(** The condition of line 294. *)
Definition allActive (now : Z) (w : World) : bool :=
  isSpeedDropActive now w && isHighAccelerationActive now w && isHighTiltActive now w.

(** The world after one more reading of the clock. *)
Definition tick (w : World) : World := set_ticks (S (ticks w)) w.

(** [preserves R m]: running [m] takes a world to an [R]-related one. *)
Definition preserves {A} (R : World -> World -> Prop) (m : M A) : Prop :=
  forall w, R w (snd (m w)).

(** [spaced w w']: the log of [w'] extends that of [w], and the cooldown
    clock [lastAlertTimestamp] has advanced by at least [ALERT_COOLDOWN_MS]
    for each request dispatched in between. *)
Definition spaced (w w' : World) : Prop :=
  exists new,
    effects w' = effects w ++ new /\
    lastAlertTimestamp w + ALERT_COOLDOWN_MS * Z.of_nat (List.length (dispatched new))
    <= lastAlertTimestamp w'.

(** The condition of line 178 on the previous and the current sample. *)
Definition speedDropCondition (prev : float) (last : Z) (speedKmh : float) (now : Z) : bool :=
  Qle_bool (timeDiff now last) 1
  && ge (prev - speedKmh)%float SPEED_DROP_THRESHOLD_KMH
  && gt prev 5%float.

(** Lines 163-168: the last known coordinates follow a sample whose latitude
    and longitude are both truthy. *)
Definition afterCoordinates (loc : LocationObject) (w : World) : World :=
  if truthy (coords_latitude (coords loc)) && truthy (coords_longitude (coords loc))
  then set_lastKnownCoordinates
         (Some (mkCoordinates (coords_latitude (coords loc)) (coords_longitude (coords loc)))) w
  else w.

(** The world in which the speed-drop detector of a location pass runs. *)
Definition locationEntry (speedKmh : float) (loc : LocationObject) (w : World) : World :=
  tick (afterCoordinates loc
          (setCurrentLongitude (Some (coords_longitude (coords loc)))
             (setCurrentLatitude (Some (coords_latitude (coords loc)))
                (setCurrentSpeed speedKmh w)))).

(** The world in which the detectors of a motion pass run. *)
Definition motionEntry (v : Vec3) (w : World) : World :=
  tick (setCurrentAccelerationMagnitude (magnitudeOf v) w).

(** A motion pass on the vector [v]: lines 202-236, and lines 247-280 for a
    device-motion sample that carries [v]. *)
Definition motionPass (v : Vec3) (w : World) : World :=
  let now := clock (ticks w) in
  exec (highTiltBlock now (tiltOf v))
    (setCurrentTiltDegrees (tiltOf v)
       (exec (highAccelerationBlock now (magnitudeOf v)) (motionEntry v w))).

(** The acceleration vector a device-motion sample is read as (line 244). *)
Definition motionVector (motion : DeviceMotionMeasurement) : option Vec3 :=
  match accelerationIncludingGravity motion with
  | Some a => Some a
  | None => acceleration motion
  end.

(** [unchanged f w w']: the component [f] of the world is the same in [w']. *)
Definition unchanged {B} (f : World -> B) (w w' : World) : Prop := f w' = f w.

(** The vector a motion event carries, if any. *)
Definition eventVector (e : Event) : option Vec3 :=
  match e with
  | AccelerometerUpdate v => Some v
  | DeviceMotionUpdate motion => motionVector motion
  | _ => None
  end.

(** The test of lines 207 and 251. *)
Definition atLeast3g (v : Vec3) : bool := ge (magnitudeOf v) ACCEL_MAGNITUDE_THRESHOLD_G.

(** [heldSince p w0 events]: along [events], run from [w0], some motion
    sample of at least 3g was read at time [p], and every motion sample
    after it was of at least 3g as well. *)
Definition heldSince (p : Z) (w0 : World) (events : list Event) : Prop :=
  exists before e0 v0 after,
    events = before ++ e0 :: after
    /\ eventVector e0 = Some v0
    /\ atLeast3g v0 = true
    /\ clock (ticks (run before w0)) = p
    /\ Forall (fun e => forall v, eventVector e = Some v -> atLeast3g v = true) after.

(** Every time stamp held by a detection flag is one of the clock readings
    taken so far. *)
Definition stampedInPast (w : World) : Prop :=
  (forall d, speedDropDetected w = Some d ->
             exists k, (k < ticks w)%nat /\ sd_timestamp d = clock k)
  /\ (forall d, highAccelerationDetected w = Some d ->
                exists k, (k < ticks w)%nat /\ ha_timestamp d = clock k)
  /\ (forall d, highTiltDetected w = Some d ->
                exists k, (k < ticks w)%nat /\ ht_timestamp d = clock k).

(** The clock never runs backwards. *)
Definition monotone : Prop := forall i j, (i <= j)%nat -> clock i <= clock j.

(** [w'] holds the flags of [w], or has emptied some, and is not earlier. *)
Definition flagsKeptOrCleared (w w' : World) : Prop :=
  (ticks w <= ticks w')%nat
  /\ (speedDropDetected w' = speedDropDetected w \/ speedDropDetected w' = None)
  /\ (highAccelerationDetected w' = highAccelerationDetected w
      \/ highAccelerationDetected w' = None)
  /\ (highTiltDetected w' = highTiltDetected w \/ highTiltDetected w' = None).

(** The effects of one call of [triggerAlert] by the correlation check: the
    console line of a suppressed alert, or the three effects of a dispatched
    one, whose message shows a value for each of the three detections. *)
Definition alertEffects (new : list Effect) : Prop :=
  (exists data, new = [ConsoleLogSuppressed Combined data])
  \/ (exists v g t link lat lon,
         new = [ConsoleLogSending (MsgCombined (Some v) (Some g) (Some t) link);
                AlertAccident (MsgCombined (Some v) (Some g) (Some t) link);
                FetchSendAlert (MsgCombined (Some v) (Some g) (Some t) link) lat lon]).

(** [fired w w']: between [w] and [w'] one alert was raised and the three
    flags were emptied. *)
Definition fired (w w' : World) : Prop :=
  (exists new, effects w' = effects w ++ new /\ alertEffects new)
  /\ speedDropDetected w' = None
  /\ highAccelerationDetected w' = None
  /\ highTiltDetected w' = None.

(** How a flag changes when no alert is raised: it is kept, or its detection
    had expired at [now], or it holds a detection stamped [now]. *)
Definition flagStep {D} (stamp : D -> Z) (now : Z) (old new : option D) : Prop :=
  new = old
  \/ (new = None /\ exists d, old = Some d /\ COMBINED_ALERT_WINDOW_MS < now - stamp d)
  \/ (exists d, new = Some d /\ stamp d = now).

(** A message of a combined alert whose three values are over the
    thresholds. *)
Definition overThresholds (m : Message) : Prop :=
  match m with
  | MsgCombined (Some v) (Some g) (Some t) _ =>
      ge v SPEED_DROP_THRESHOLD_KMH = true
      /\ ge g ACCEL_MAGNITUDE_THRESHOLD_G = true
      /\ ge t TILT_DANGER_THRESHOLD_DEG = true
  | _ => False
  end.

Definition soundEffect (e : Effect) : Prop :=
  match e with
  | ConsoleLogSending m | AlertAccident m | FetchSendAlert m _ _ => overThresholds m
  | _ => True
  end.

(** Every detection held by a flag is over its threshold, and so is every
    message sent so far. *)
Definition thresholdsMet (w : World) : Prop :=
  (forall d, speedDropDetected w = Some d ->
             ge (sd_value d) SPEED_DROP_THRESHOLD_KMH = true)
  /\ (forall d, highAccelerationDetected w = Some d ->
                ge (ha_magnitude d) ACCEL_MAGNITUDE_THRESHOLD_G = true
                /\ ACCEL_DURATION_THRESHOLD_MS <= ha_duration d)
  /\ (forall d, highTiltDetected w = Some d ->
                ge (ht_tilt d) TILT_DANGER_THRESHOLD_DEG = true)
  /\ Forall soundEffect (effects w).

(** From the [from]-th reading on, the gate of [triggerAlert] stays closed
    for an engine whose last alert was at [last]: its closure has alerts
    disabled, or the cooldown lasts. *)
Definition gateStaysClosed (from : nat) (last : Z) : Prop :=
  alertsEnabled = false
  \/ forall k, (from <= k)%nat -> clock k - last < ALERT_COOLDOWN_MS.

(** [w'] is not earlier than [w] and, if [w] is past the [from]-th reading
    with its last alert at [last], so is [w'], with nothing dispatched in
    between. *)
Definition nothingDispatched (from : nat) (last : Z) (w w' : World) : Prop :=
  (from <= ticks w)%nat ->
  lastAlertTimestamp w = last ->
  (from <= ticks w')%nat
  /\ lastAlertTimestamp w' = last
  /\ dispatched (effects w') = dispatched (effects w).

(** ** Basic facts *)

Ltac run_engine :=
  unfold exec, bind, ret, gets, modify, emit, Date_now; cbn.

Lemma triggerAlert_closed type data w :
  gateClosed w = true ->
  exec (triggerAlert type data) w
  = set_effects (effects w ++ [ConsoleLogSuppressed type data]) (tick w).
Proof.
  unfold gateClosed, triggerAlert. run_engine. intros ->. reflexivity.
Qed.

Lemma triggerAlert_open type data w :
  gateClosed w = false ->
  exec (triggerAlert type data) w
  = let m := composeMessage type data w in
    set_effects
      (effects w ++ [ConsoleLogSending m; AlertAccident m;
                     FetchSendAlert m
                       (match data with Some d => data_latitude d | None => None end)
                       (match data with Some d => data_longitude d | None => None end)])
      (set_lastAlertTimestamp (clock (ticks w)) (tick w)).
Proof.
  unfold gateClosed, triggerAlert. run_engine. intros ->. cbn.
  unfold set_effects; cbn. rewrite <- !app_assoc. cbn.
  destruct type; reflexivity.
Qed.

Lemma checkCombinedConditions_idle w :
  allActive (clock (ticks w)) w = false ->
  exec checkCombinedConditions w = tick w.
Proof.
  unfold allActive, checkCombinedConditions. run_engine.
  unfold isSpeedDropActive, isHighAccelerationActive, isHighTiltActive; cbn.
  intros ->. reflexivity.
Qed.

Lemma checkCombinedConditions_fires w :
  allActive (clock (ticks w)) w = true ->
  exec checkCombinedConditions w
  = set_highTiltDetected None
      (set_highAccelerationDetected None
         (set_speedDropDetected None
            (exec (triggerAlert Combined (combinedData (tick w))) (tick w)))).
Proof.
  unfold allActive, checkCombinedConditions. run_engine.
  unfold isSpeedDropActive, isHighAccelerationActive, isHighTiltActive; cbn.
  intros ->. unfold combinedData; cbn.
  destruct (negb alertsEnabled || _); reflexivity.
Qed.

Lemma allActive_true now w :
  allActive now w = true <->
  exists sd ha ht,
    speedDropDetected w = Some sd /\ now - sd_timestamp sd < COMBINED_ALERT_WINDOW_MS /\
    highAccelerationDetected w = Some ha /\ now - ha_timestamp ha < COMBINED_ALERT_WINDOW_MS /\
    highTiltDetected w = Some ht /\ now - ht_timestamp ht < COMBINED_ALERT_WINDOW_MS.
Proof.
  unfold allActive, isSpeedDropActive, isHighAccelerationActive, isHighTiltActive.
  split.
  - destruct (speedDropDetected w) as [sd|]; [|discriminate].
    destruct (highAccelerationDetected w) as [ha|]; [|rewrite andb_false_r; discriminate].
    destruct (highTiltDetected w) as [ht|]; [|rewrite andb_false_r; discriminate].
    rewrite !andb_true_iff, !Z.ltb_lt. intros [[? ?] ?].
    exists sd, ha, ht. repeat split; assumption.
  - intros (sd & ha & ht & -> & ? & -> & ? & -> & ?).
    rewrite !andb_true_iff, !Z.ltb_lt. repeat split; assumption.
Qed.

Lemma allActive_without_speedDrop now w :
  speedDropDetected w = None -> allActive now w = false.
Proof. unfold allActive, isSpeedDropActive. intros ->. reflexivity. Qed.

(** ** The correlation check *)

(** C1: in a state where the three detections are all present and younger
    than 2000 ms at the reading [now] of the correlation check, the check
    calls [triggerAlert] once, which raises exactly one compound alert, and
    empties the three flags, so that none of the detectors is active at any
    later time.  Whether the alert shows the detectors' values depends on
    the gate of [triggerAlert].  When the gate is open the message is
    composed before the flags are emptied and shows the speed drop, the
    g-force and the tilt held by the three flags; it is logged, shown and
    sent.  When the gate is closed the alert is only the console line of
    line 316, which prints the coordinates handed over by the check and none
    of the three values. *)
Theorem correlation_fires_once_and_clears w sd ha ht :
  let now := clock (ticks w) in
  speedDropDetected w = Some sd ->
  now - sd_timestamp sd < COMBINED_ALERT_WINDOW_MS ->
  highAccelerationDetected w = Some ha ->
  now - ha_timestamp ha < COMBINED_ALERT_WINDOW_MS ->
  highTiltDetected w = Some ht ->
  now - ht_timestamp ht < COMBINED_ALERT_WINDOW_MS ->
  let w' := exec checkCombinedConditions w in
  let data := combinedData w in
  let message :=
    MsgCombined (Some (sd_value sd)) (Some (ha_magnitude ha)) (Some (ht_tilt ht))
      (coordinatesString data) in
  let request :=
    FetchSendAlert message (option_map latitude (lastKnownCoordinates w))
      (option_map longitude (lastKnownCoordinates w)) in
  let suppressed := ConsoleLogSuppressed Combined data in
  w' = set_highTiltDetected None
         (set_highAccelerationDetected None
            (set_speedDropDetected None
               (exec (triggerAlert Combined data) (tick w))))
  /\ List.length (compoundAlerts (effects w'))
     = S (List.length (compoundAlerts (effects w)))
  /\ (gateClosed (tick w) = false ->
      effects w' = effects w ++ [ConsoleLogSending message; AlertAccident message; request]
      /\ compoundAlerts (effects w') = compoundAlerts (effects w) ++ [request]
      /\ showsValues (sd_value sd) (ha_magnitude ha) (ht_tilt ht) request)
  /\ (gateClosed (tick w) = true ->
      effects w' = effects w ++ [suppressed]
      /\ compoundAlerts (effects w') = compoundAlerts (effects w) ++ [suppressed]
      /\ ~ showsValues (sd_value sd) (ha_magnitude ha) (ht_tilt ht) suppressed)
  /\ speedDropDetected w' = None
  /\ highAccelerationDetected w' = None
  /\ highTiltDetected w' = None
  /\ (forall t, isSpeedDropActive t w' = false
                /\ isHighAccelerationActive t w' = false
                /\ isHighTiltActive t w' = false).
Proof.
  intros now Hsd Tsd Hha Tha Hht Tht w' data message request suppressed.
  assert (Hall : allActive (clock (ticks w)) w = true).
  { apply allActive_true. exists sd, ha, ht. repeat split; assumption. }
  subst w'. rewrite (checkCombinedConditions_fires w Hall).
  assert (Hdata : combinedData (tick w) = data) by reflexivity.
  rewrite Hdata.
  split; [reflexivity|].
  destruct (gateClosed (tick w)) eqn:G.
  - rewrite (triggerAlert_closed Combined data (tick w) G). cbn.
    unfold compoundAlerts. rewrite filter_app, List.length_app. cbn.
    unfold isSpeedDropActive, isHighAccelerationActive, isHighTiltActive. cbn.
    split; [lia|]. split; [intros D; discriminate D|].
    split; [|repeat split; reflexivity].
    intros _. split; [reflexivity|]. split; [reflexivity|].
    intros (d & Hd & Hv & _). injection Hd as <-. discriminate Hv.
  - rewrite (triggerAlert_open Combined data (tick w) G). cbn.
    rewrite Hsd, Hha, Hht. cbn.
    unfold compoundAlerts. rewrite filter_app, List.length_app. cbn.
    unfold isSpeedDropActive, isHighAccelerationActive, isHighTiltActive. cbn.
    split; [lia|]. split; [|split; [intros D; discriminate D|repeat split; reflexivity]].
    intros _. split; [reflexivity|]. split; [reflexivity|].
    eexists. reflexivity.
Qed.

(** ** Relations kept by every step of a handler *)

Lemma preserves_ret (R : World -> World -> Prop) (Rrefl : forall w, R w w)
    {A} (a : A) : preserves R (ret a).
Proof. intros w. apply Rrefl. Qed.

Lemma preserves_gets (R : World -> World -> Prop) (Rrefl : forall w, R w w)
    {A} (f : World -> A) : preserves R (gets f).
Proof. intros w. apply Rrefl. Qed.

Lemma preserves_modify (R : World -> World -> Prop) f :
  (forall w, R w (f w)) -> preserves R (modify f).
Proof. intros H w. apply H. Qed.

Lemma preserves_bind (R : World -> World -> Prop)
    (Rtrans : forall a b c, R a b -> R b c -> R a c)
    {A B} (m : M A) (k : A -> M B) :
  preserves R m -> (forall a, preserves R (k a)) -> preserves R (bind m k).
Proof.
  intros Hm Hk w. unfold bind. specialize (Hm w).
  destruct (m w) as [a w1]. cbn in Hm.
  apply (Rtrans _ _ _ Hm). apply Hk.
Qed.

Lemma preserves_run (R : World -> World -> Prop) (Rrefl : forall w, R w w)
    (Rtrans : forall a b c, R a b -> R b c -> R a c)
    (step : Event -> M unit) events :
  (forall e, preserves R (step e)) ->
  forall w, R w (fold_left (fun w e => exec (step e) w) events w).
Proof.
  intros Hstep. induction events as [|e es IH]; intros w; cbn.
  - apply Rrefl.
  - apply (Rtrans _ _ _ (Hstep e w)). apply IH.
Qed.

(** Breaks a handler into its steps; what is left are the primitive steps
    that the relation at hand has to be checked on. *)
Ltac preserve_steps Rrefl Rtrans :=
  repeat
    match goal with
    | |- preserves _ (bind _ _) => apply (preserves_bind _ Rtrans); [|intro]
    | |- preserves _ (ret _) => apply (preserves_ret _ Rrefl)
    | |- preserves _ (gets _) => apply (preserves_gets _ Rrefl)
    | |- preserves _ (if ?b then _ else _) => destruct b
    | |- preserves _ (match ?o with Some _ => _ | None => _ end) => destruct o
    end.

Lemma spaced_refl w : spaced w w.
Proof. exists []. rewrite app_nil_r. cbn. split; [reflexivity | lia]. Qed.

Lemma spaced_trans a b c : spaced a b -> spaced b c -> spaced a c.
Proof.
  intros (n1 & E1 & L1) (n2 & E2 & L2). exists (n1 ++ n2). split.
  - rewrite E2, E1, app_assoc. reflexivity.
  - unfold dispatched in *. rewrite filter_app, List.length_app, Nat2Z.inj_add. lia.
Qed.

Lemma spaced_same f :
  (forall w, effects (f w) = effects w) ->
  (forall w, lastAlertTimestamp (f w) = lastAlertTimestamp w) ->
  preserves spaced (modify f).
Proof.
  intros He Hl w. exists []. cbn. rewrite He, Hl, app_nil_r. split; [reflexivity | lia].
Qed.

Lemma spaced_Date_now : preserves spaced Date_now.
Proof. intros w. exists []. cbn. rewrite app_nil_r. split; [reflexivity | lia]. Qed.

Lemma spaced_triggerAlert type data : preserves spaced (triggerAlert type data).
Proof.
  intros w. fold (exec (triggerAlert type data) w).
  destruct (gateClosed w) eqn:G.
  - rewrite triggerAlert_closed by assumption. eexists. cbn. split; [reflexivity|].
    cbn. lia.
  - rewrite triggerAlert_open by assumption. eexists. cbn. split; [reflexivity|].
    cbn. unfold gateClosed in G. apply orb_false_iff in G. destruct G as [_ G].
    apply Z.ltb_ge in G. unfold ALERT_COOLDOWN_MS in *. lia.
Qed.

Ltac spaced_steps :=
  preserve_steps spaced_refl spaced_trans;
  try apply spaced_Date_now;
  try apply spaced_triggerAlert;
  try (apply spaced_same; intro; reflexivity).

Lemma spaced_checkCombinedConditions : preserves spaced checkCombinedConditions.
Proof. unfold checkCombinedConditions. spaced_steps. Qed.

Lemma spaced_handle e : preserves spaced (handle e).
Proof.
  destruct e as [loc|v|motion|outcome]; cbn.
  - unfold handleLocationChange, locationPass, speedDropBlock.
    spaced_steps; apply spaced_checkCombinedConditions.
  - unfold handleAccelerometer, highAccelerationBlock, highTiltBlock.
    spaced_steps; apply spaced_checkCombinedConditions.
  - unfold handleDeviceMotion, highAccelerationBlock, highTiltBlock.
    spaced_steps; apply spaced_checkCombinedConditions.
  - unfold triggerAlert_settled. destruct outcome; [apply (preserves_ret _ spaced_refl)|].
    intros w. exists [AlertSmsError (or_string err_message "Failed to send SMS notification.")].
    cbn. split; [reflexivity | lia].
Qed.

Lemma spaced_run events w : spaced w (run events w).
Proof. apply (preserves_run _ spaced_refl spaced_trans). apply spaced_handle. Qed.

(** ** The alert gate *)

Lemma gateClosed_true w :
  gateClosed w = true <->
  alertsEnabled = false \/ clock (ticks w) - lastAlertTimestamp w < ALERT_COOLDOWN_MS.
Proof.
  unfold gateClosed. rewrite orb_true_iff, negb_true_iff, Z.ltb_lt. reflexivity.
Qed.

Lemma gateClosed_false w :
  gateClosed w = false <->
  alertsEnabled = true /\ ALERT_COOLDOWN_MS <= clock (ticks w) - lastAlertTimestamp w.
Proof.
  unfold gateClosed. rewrite orb_false_iff, negb_false_iff, Z.ltb_ge. reflexivity.
Qed.

Lemma lastAlertTimestamp_open type data w :
  gateClosed w = false ->
  lastAlertTimestamp (exec (triggerAlert type data) w) = clock (ticks w).
Proof. intros G. rewrite triggerAlert_open by assumption. reflexivity. Qed.

(** X15: the cooldown of [triggerAlert].  When fewer than 10000 ms have
    passed since [lastAlertTimestamp], [triggerAlert] does nothing but write
    a console line: no message is composed, nothing is sent and
    [lastAlertTimestamp] keeps its value.  When 10000 ms or more have
    passed, a handler whose closure has alerts enabled (as the closure of
    the first render has, line 50) sets [lastAlertTimestamp] to its clock
    reading and sends the message.  Hence, after a compound episode
    dispatched at [t1], a second episode for which the correlation check
    fires at a reading less than 10000 ms after [t1] (3000 ms, say) raises a
    compound alert that is suppressed ([spaced w1' w2] says that [w2] comes
    after the first dispatch; it holds of every state reached from [w1']);
    and any two dispatches are at least 10000 ms apart, along every sequence
    of events. *)
Theorem cooldown_gate :
  (forall type data w,
      clock (ticks w) - lastAlertTimestamp w < ALERT_COOLDOWN_MS ->
      let w' := exec (triggerAlert type data) w in
      w' = set_effects (effects w ++ [ConsoleLogSuppressed type data]) (tick w)
      /\ lastAlertTimestamp w' = lastAlertTimestamp w
      /\ dispatched (effects w') = dispatched (effects w))
  /\ (forall type data w,
        alertsEnabled = true ->
        ALERT_COOLDOWN_MS <= clock (ticks w) - lastAlertTimestamp w ->
        let w' := exec (triggerAlert type data) w in
        let m := composeMessage type data w in
        let request :=
          FetchSendAlert m
            (match data with Some d => data_latitude d | None => None end)
            (match data with Some d => data_longitude d | None => None end) in
        lastAlertTimestamp w' = clock (ticks w)
        /\ effects w' = effects w ++ [ConsoleLogSending m; AlertAccident m; request]
        /\ dispatched (effects w') = dispatched (effects w) ++ [request])
  /\ (forall w1 w2,
        allActive (clock (ticks w1)) w1 = true ->
        gateClosed (tick w1) = false ->
        let t1 := clock (S (ticks w1)) in
        let w1' := exec checkCombinedConditions w1 in
        spaced w1' w2 ->
        allActive (clock (ticks w2)) w2 = true ->
        let t2 := clock (S (ticks w2)) in
        t2 - t1 < ALERT_COOLDOWN_MS ->
        let w2' := exec checkCombinedConditions w2 in
        List.length (dispatched (effects w1')) = S (List.length (dispatched (effects w1)))
        /\ lastAlertTimestamp w1' = t1
        /\ effects w2' = effects w2 ++ [ConsoleLogSuppressed Combined (combinedData w2)]
        /\ compoundAlerts (effects w2')
           = compoundAlerts (effects w2) ++ [ConsoleLogSuppressed Combined (combinedData w2)]
        /\ dispatched (effects w2') = dispatched (effects w2))
  /\ (forall type1 data1 w1 events,
        gateClosed w1 = false ->
        let w2 := run events (exec (triggerAlert type1 data1) w1) in
        gateClosed w2 = false ->
        ALERT_COOLDOWN_MS <= clock (ticks w2) - clock (ticks w1))
  /\ (forall events w, spaced w (run events w)).
Proof.
  split; [|split; [|split; [|split]]].
  - intros type data w H w'.
    assert (G : gateClosed w = true) by (apply gateClosed_true; right; exact H).
    subst w'. rewrite triggerAlert_closed by assumption. cbn.
    unfold dispatched. rewrite filter_app. cbn. rewrite app_nil_r.
    repeat split; reflexivity.
  - intros type data w He Hc w' m request.
    assert (G : gateClosed w = false) by (apply gateClosed_false; split; assumption).
    subst w'. rewrite triggerAlert_open by assumption. cbn.
    unfold dispatched. rewrite filter_app. cbn.
    repeat split; reflexivity.
  - intros w1 w2 A1 G1 t1 w1' Hsp A2 t2 Ht w2'.
    assert (L1 : lastAlertTimestamp w1' = t1
                 /\ List.length (dispatched (effects w1'))
                    = S (List.length (dispatched (effects w1)))).
    { subst w1'. rewrite checkCombinedConditions_fires by assumption.
      rewrite triggerAlert_open by assumption. cbn.
      unfold dispatched. rewrite filter_app, List.length_app. cbn.
      split; [reflexivity | lia]. }
    destruct L1 as [L1 D1].
    assert (G2 : gateClosed (tick w2) = true).
    { apply gateClosed_true. right. cbn.
      destruct Hsp as (new & _ & Hle).
      unfold ALERT_COOLDOWN_MS in *. subst t1 t2. lia. }
    subst w2'. rewrite checkCombinedConditions_fires by assumption.
    rewrite triggerAlert_closed by assumption. cbn.
    unfold dispatched, compoundAlerts. rewrite !filter_app. cbn.
    rewrite app_nil_r.
    repeat split; try reflexivity; assumption.
  - intros type1 data1 w1 events G1 w2 G2.
    pose proof (spaced_run events (exec (triggerAlert type1 data1) w1)) as (new & _ & Hle).
    fold w2 in Hle. rewrite lastAlertTimestamp_open in Hle by assumption.
    apply gateClosed_false in G2. destruct G2 as [_ G2].
    unfold ALERT_COOLDOWN_MS in *. lia.
  - apply spaced_run.
Qed.

(** X16: when the request of a dispatched alert is rejected (the network
    fails, so that [fetch] throws), the continuation of [triggerAlert] shows
    the error dialog and changes nothing else: the value that
    [lastAlertTimestamp] took when the gate was passed stays, and so do the
    three detection flags and the debounce state, however many events were
    handled while the request was in flight. *)
Theorem delivery_failure_keeps_cooldown :
  (forall msg w,
      let w' := exec (triggerAlert_settled (Rejected msg)) w in
      w' = set_effects
             (effects w ++ [AlertSmsError (or_string msg "Failed to send SMS notification.")])
             w
      /\ lastAlertTimestamp w' = lastAlertTimestamp w
      /\ speedDropDetected w' = speedDropDetected w
      /\ highAccelerationDetected w' = highAccelerationDetected w
      /\ highTiltDetected w' = highTiltDetected w
      /\ accelPeakTimestamp w' = accelPeakTimestamp w)
  /\ (forall type data msg w,
        gateClosed w = false ->
        lastAlertTimestamp
          (exec (triggerAlert_settled (Rejected msg)) (exec (triggerAlert type data) w))
        = clock (ticks w))
  /\ (forall type data msg events w,
        gateClosed w = false ->
        let w1 := run events (exec (triggerAlert type data) w) in
        clock (ticks w) <= lastAlertTimestamp w1
        /\ lastAlertTimestamp (exec (triggerAlert_settled (Rejected msg)) w1)
           = lastAlertTimestamp w1).
Proof.
  split; [|split].
  - intros msg w. cbn. repeat split; reflexivity.
  - intros type data msg w G. rewrite triggerAlert_open by assumption. reflexivity.
  - intros type data msg events w G w1. split; [|reflexivity].
    pose proof (spaced_run events (exec (triggerAlert type data) w)) as (new & _ & Hle).
    fold w1 in Hle. rewrite lastAlertTimestamp_open in Hle by assumption.
    unfold ALERT_COOLDOWN_MS in Hle. lia.
Qed.

(** ** The detectors, branch by branch *)

Lemma exec_seq {A} (m : M unit) (k : M A) w :
  exec (m ;; k) w = exec k (exec m w).
Proof. unfold exec, bind. destruct (m w) as [[] w1]. reflexivity. Qed.

Lemma exec_seq_pair {A} (m : M unit) (k : M A) w :
  snd ((m ;; k) w) = exec k (exec m w).
Proof. apply exec_seq. Qed.

Lemma checkCombinedConditions_without_speedDrop w :
  speedDropDetected w = None -> exec checkCombinedConditions w = tick w.
Proof.
  intros H. apply checkCombinedConditions_idle.
  apply allActive_without_speedDrop. assumption.
Qed.

(** The four ways through the high-acceleration detector. *)
Lemma highAccelerationBlock_arms now g w :
  ge g ACCEL_MAGNITUDE_THRESHOLD_G = true ->
  accelPeakTimestamp w = None ->
  exec (highAccelerationBlock now g) w = set_accelPeakTimestamp (Some now) w.
Proof.
  intros Hg Hp. unfold highAccelerationBlock. rewrite Hg. run_engine.
  rewrite Hp. reflexivity.
Qed.

Lemma highAccelerationBlock_waits now g p w :
  ge g ACCEL_MAGNITUDE_THRESHOLD_G = true ->
  accelPeakTimestamp w = Some p ->
  now - p < ACCEL_DURATION_THRESHOLD_MS ->
  exec (highAccelerationBlock now g) w = w.
Proof.
  intros Hg Hp Hd. unfold highAccelerationBlock. rewrite Hg. run_engine.
  rewrite Hp. apply Z.leb_gt in Hd. rewrite Hd. reflexivity.
Qed.

Lemma highAccelerationBlock_creates now g p w :
  ge g ACCEL_MAGNITUDE_THRESHOLD_G = true ->
  accelPeakTimestamp w = Some p ->
  ACCEL_DURATION_THRESHOLD_MS <= now - p ->
  exec (highAccelerationBlock now g) w
  = exec checkCombinedConditions
      (set_highAccelerationDetected (Some (mkHighAcceleration now g (now - p))) w).
Proof.
  intros Hg Hp Hd. unfold highAccelerationBlock. rewrite Hg.
  unfold exec at 1, bind at 1, gets. cbn. rewrite Hp.
  apply Z.leb_le in Hd. rewrite Hd. rewrite exec_seq_pair. reflexivity.
Qed.

Lemma highAccelerationBlock_below now g w :
  ge g ACCEL_MAGNITUDE_THRESHOLD_G = false ->
  exec (highAccelerationBlock now g) w
  = let w1 := set_accelPeakTimestamp None w in
    match highAccelerationDetected w with
    | Some d =>
        if COMBINED_ALERT_WINDOW_MS <? now - ha_timestamp d
        then set_highAccelerationDetected None w1 else w1
    | None => w1
    end.
Proof.
  intros Hg. unfold highAccelerationBlock. rewrite Hg. run_engine.
  destruct (highAccelerationDetected w) as [d|]; [|reflexivity].
  destruct (_ <? _); reflexivity.
Qed.

(** The two ways through the tilt detector. *)
Lemma highTiltBlock_creates now tilt w :
  ge tilt TILT_DANGER_THRESHOLD_DEG = true ->
  exec (highTiltBlock now tilt) w
  = exec checkCombinedConditions (set_highTiltDetected (Some (mkHighTilt now tilt)) w).
Proof.
  intros Hg. unfold highTiltBlock. rewrite Hg. rewrite exec_seq. reflexivity.
Qed.

Lemma highTiltBlock_below now tilt w :
  ge tilt TILT_DANGER_THRESHOLD_DEG = false ->
  exec (highTiltBlock now tilt) w
  = match highTiltDetected w with
    | Some d =>
        if COMBINED_ALERT_WINDOW_MS <? now - ht_timestamp d
        then set_highTiltDetected None w else w
    | None => w
    end.
Proof.
  intros Hg. unfold highTiltBlock. rewrite Hg. run_engine.
  destruct (highTiltDetected w) as [d|]; [|reflexivity].
  destruct (_ <? _); reflexivity.
Qed.

Lemma timeDiff_le_1 now last : Qle_bool (timeDiff now last) 1 = true <-> now - last <= 1000.
Proof.
  rewrite Qle_bool_iff. unfold timeDiff, Qle, Qdiv, Qmult, Qinv, inject_Z. cbn. lia.
Qed.

Lemma speedDropCondition_true prev last speedKmh now :
  speedDropCondition prev last speedKmh now = true <->
  now - last <= 1000
  /\ ge (prev - speedKmh)%float SPEED_DROP_THRESHOLD_KMH = true
  /\ gt prev 5%float = true.
Proof.
  unfold speedDropCondition. rewrite !andb_true_iff, timeDiff_le_1.
  split; [intros [[? ?] ?] | intros (? & ? & ?)]; repeat split; assumption.
Qed.

(** The ways through the speed-drop detector. *)
Lemma speedDropBlock_first now speedKmh w :
  lastSpeed w = None \/ lastLocationTimestamp w = None ->
  exec (speedDropBlock now speedKmh) w = w.
Proof.
  intros H. unfold speedDropBlock. run_engine.
  destruct H as [-> | ->]; [reflexivity|]. destruct (lastSpeed w); reflexivity.
Qed.

Lemma speedDropBlock_creates now speedKmh prev last w :
  lastSpeed w = Some prev ->
  lastLocationTimestamp w = Some last ->
  speedDropCondition prev last speedKmh now = true ->
  exec (speedDropBlock now speedKmh) w
  = exec checkCombinedConditions
      (setMomentumChangeDetected true
         (set_speedDropDetected (Some (mkSpeedDrop now (prev - speedKmh)%float)) w)).
Proof.
  intros Hs Ht Hc. unfold speedDropBlock.
  unfold exec at 1, bind at 1 2, gets. cbn -[timeDiff Qle_bool ge gt]. rewrite Hs, Ht.
  unfold speedDropCondition in Hc. rewrite Hc.
  rewrite exec_seq_pair, exec_seq. reflexivity.
Qed.

Lemma speedDropBlock_otherwise now speedKmh prev last w :
  lastSpeed w = Some prev ->
  lastLocationTimestamp w = Some last ->
  speedDropCondition prev last speedKmh now = false ->
  exec (speedDropBlock now speedKmh) w
  = setMomentumChangeDetected false
      match speedDropDetected w with
      | Some d =>
          if COMBINED_ALERT_WINDOW_MS <? now - sd_timestamp d
          then set_speedDropDetected None w else w
      | None => w
      end.
Proof.
  intros Hs Ht Hc. unfold speedDropBlock.
  unfold exec, bind, gets, modify. cbn -[timeDiff Qle_bool ge gt]. rewrite Hs, Ht.
  unfold speedDropCondition in Hc. rewrite Hc. cbn.
  destruct (speedDropDetected w) as [d|]; [|reflexivity].
  destruct (_ <? _); reflexivity.
Qed.

Lemma locationPass_eq speedKmh loc w :
  exec (locationPass speedKmh loc) w
  = let now := clock (ticks w) in
    set_lastLocationTimestamp (Some now)
      (set_lastSpeed (Some speedKmh)
         (exec (speedDropBlock now speedKmh) (locationEntry speedKmh loc w))).
Proof.
  unfold locationPass, locationEntry, afterCoordinates.
  rewrite !exec_seq. cbn.
  destruct (truthy _ && truthy _); cbn;
    unfold exec at 1, bind at 1, Date_now; cbn;
    rewrite exec_seq_pair, exec_seq; reflexivity.
Qed.

Lemma handleAccelerometer_eq v w : exec (handleAccelerometer v) w = motionPass v w.
Proof.
  unfold handleAccelerometer, motionPass, motionEntry. cbn zeta.
  rewrite exec_seq. unfold exec at 1, bind at 1, Date_now. cbn.
  rewrite exec_seq_pair, exec_seq. reflexivity.
Qed.

Lemma handleDeviceMotion_eq motion w :
  exec (handleDeviceMotion motion) w
  = match motionVector motion with
    | Some v => motionPass v w
    | None => tick w
    end.
Proof.
  unfold handleDeviceMotion, motionVector, motionPass, motionEntry.
  unfold exec at 1, bind at 1, Date_now. cbn.
  destruct (match accelerationIncludingGravity motion with
            | Some a => Some a | None => acceleration motion end) as [v|];
    [|reflexivity].
  rewrite exec_seq_pair, !exec_seq. reflexivity.
Qed.

Lemma ticks_triggerAlert type data w :
  ticks (exec (triggerAlert type data) w) = S (ticks w).
Proof.
  destruct (gateClosed w) eqn:G.
  - rewrite triggerAlert_closed by assumption. reflexivity.
  - rewrite triggerAlert_open by assumption. reflexivity.
Qed.

Lemma ticks_checkCombinedConditions w :
  (ticks w < ticks (exec checkCombinedConditions w))%nat.
Proof.
  destruct (allActive (clock (ticks w)) w) eqn:A.
  - rewrite checkCombinedConditions_fires by assumption. cbn.
    rewrite ticks_triggerAlert. cbn. lia.
  - rewrite checkCombinedConditions_idle by assumption. cbn. lia.
Qed.

Lemma checkCombinedConditions_fired w :
  allActive (clock (ticks w)) w = true ->
  let w' := exec checkCombinedConditions w in
  speedDropDetected w' = None
  /\ highAccelerationDetected w' = None
  /\ highTiltDetected w' = None
  /\ List.length (compoundAlerts (effects w')) = S (List.length (compoundAlerts (effects w))).
Proof.
  intros A w'. subst w'. rewrite checkCombinedConditions_fires by assumption.
  destruct (gateClosed (tick w)) eqn:G.
  - rewrite triggerAlert_closed by assumption. cbn.
    unfold compoundAlerts. rewrite filter_app, List.length_app. cbn.
    repeat split; try reflexivity. lia.
  - rewrite triggerAlert_open by assumption. cbn.
    unfold compoundAlerts. rewrite filter_app, List.length_app. cbn.
    repeat split; try reflexivity. lia.
Qed.

(** What the correlation check leaves alone, whether it fires or not. *)
Lemma checkCombinedConditions_frame w :
  let w' := exec checkCombinedConditions w in
  accelPeakTimestamp w' = accelPeakTimestamp w
  /\ lastSpeed w' = lastSpeed w
  /\ lastLocationTimestamp w' = lastLocationTimestamp w
  /\ lastKnownCoordinates w' = lastKnownCoordinates w
  /\ display w' = display w.
Proof.
  cbn zeta. destruct (allActive (clock (ticks w)) w) eqn:A.
  - rewrite checkCombinedConditions_fires by assumption.
    destruct (gateClosed (tick w)) eqn:G.
    + rewrite triggerAlert_closed by assumption. cbn. repeat split; reflexivity.
    + rewrite triggerAlert_open by assumption. cbn. repeat split; reflexivity.
  - rewrite checkCombinedConditions_idle by assumption. cbn. repeat split; reflexivity.
Qed.

(** ** The detectors, claim by claim *)

(** C4: a motion sample whose tilt, the larger of |pitch| and |roll| in
    degrees, is at least 30 stores a HighTilt detection with that tilt and
    the time of the sample, with no duration gate, and goes on to the
    correlation check with it; the detection is active at that time.  When
    the check does not fire the detection is what the pass leaves in the
    flag; when it fires the detection is consumed by the compound alert. *)
Theorem highTilt_immediate v w :
  ge (tiltOf v) TILT_DANGER_THRESHOLD_DEG = true ->
  let now := clock (ticks w) in
  let before :=
    setCurrentTiltDegrees (tiltOf v)
      (exec (highAccelerationBlock now (magnitudeOf v)) (motionEntry v w)) in
  let stored := set_highTiltDetected (Some (mkHighTilt now (tiltOf v))) before in
  let w' := exec (handleAccelerometer v) w in
  w' = exec checkCombinedConditions stored
  /\ (forall motion, motionVector motion = Some v ->
                     exec (handleDeviceMotion motion) w = w')
  /\ isHighTiltActive now stored = true
  /\ (allActive (clock (ticks stored)) stored = false ->
      highTiltDetected w' = Some (mkHighTilt now (tiltOf v))
      /\ isHighTiltActive now w' = true)
  /\ (allActive (clock (ticks stored)) stored = true ->
      highTiltDetected w' = None
      /\ List.length (compoundAlerts (effects w'))
         = S (List.length (compoundAlerts (effects stored)))).
Proof.
  intros Hg now before stored w'.
  assert (E : w' = exec checkCombinedConditions stored).
  { subst w'. rewrite handleAccelerometer_eq. unfold motionPass.
    rewrite highTiltBlock_creates by assumption. reflexivity. }
  assert (A : isHighTiltActive now stored = true).
  { unfold isHighTiltActive. cbn. rewrite Z.sub_diag. reflexivity. }
  split; [exact E|]. split; [|split; [exact A|split]].
  - intros motion Hm. rewrite handleDeviceMotion_eq, Hm.
    subst w'. rewrite handleAccelerometer_eq. reflexivity.
  - intros Hidle. rewrite E, checkCombinedConditions_idle by assumption.
    split; [reflexivity | exact A].
  - intros Hfire. rewrite E.
    destruct (checkCombinedConditions_fired stored Hfire) as (_ & _ & H3 & H4).
    split; assumption.
Qed.

(** C10: when the correlation check fires it empties the three detection
    flags and leaves the arming time of the high-acceleration detector, the
    previous speed and location time and the last known coordinates as they
    were.  So a detector that was armed at [p] stores a new detection on the
    very next sample of at least 3g: the pass after the alert needs no new
    arming period. *)
Theorem correlation_clears_only_flags w :
  allActive (clock (ticks w)) w = true ->
  let w' := exec checkCombinedConditions w in
  (speedDropDetected w' = None
   /\ highAccelerationDetected w' = None
   /\ highTiltDetected w' = None)
  /\ (accelPeakTimestamp w' = accelPeakTimestamp w
      /\ lastSpeed w' = lastSpeed w
      /\ lastLocationTimestamp w' = lastLocationTimestamp w
      /\ lastKnownCoordinates w' = lastKnownCoordinates w
      /\ display w' = display w)
  /\ (forall p v,
        accelPeakTimestamp w = Some p ->
        ge (magnitudeOf v) ACCEL_MAGNITUDE_THRESHOLD_G = true ->
        let t := clock (ticks w') in
        ACCEL_DURATION_THRESHOLD_MS <= t - p ->
        highAccelerationDetected (exec (handleAccelerometer v) w')
        = Some (mkHighAcceleration t (magnitudeOf v) (t - p))).
Proof.
  intros A w'.
  destruct (checkCombinedConditions_fired w A) as (Hsd & Hha & Hht & _).
  fold w' in Hsd, Hha, Hht.
  pose proof (checkCombinedConditions_frame w) as F. cbn zeta in F. fold w' in F.
  split; [repeat split; assumption|]. split; [exact F|].
  destruct F as (Fp & _).
  intros p v Hp Hg t Ht.
  rewrite handleAccelerometer_eq. unfold motionPass. fold t.
  rewrite (highAccelerationBlock_creates t (magnitudeOf v) p)
    by (try assumption; cbn; rewrite Fp; assumption).
  rewrite checkCombinedConditions_without_speedDrop by (cbn; assumption).
  destruct (ge (tiltOf v) TILT_DANGER_THRESHOLD_DEG) eqn:Tg.
  - rewrite highTiltBlock_creates by assumption.
    rewrite checkCombinedConditions_without_speedDrop by (cbn; assumption).
    reflexivity.
  - rewrite highTiltBlock_below by assumption. cbn. rewrite Hht. reflexivity.
Qed.

Lemma locationEntry_refs speedKmh loc w :
  let entry := locationEntry speedKmh loc w in
  lastSpeed entry = lastSpeed w
  /\ lastLocationTimestamp entry = lastLocationTimestamp w
  /\ speedDropDetected entry = speedDropDetected w
  /\ accelPeakTimestamp entry = accelPeakTimestamp w
  /\ ticks entry = S (ticks w).
Proof.
  unfold locationEntry, afterCoordinates.
  destruct (truthy _ && truthy _); cbn; repeat split; reflexivity.
Qed.

(** The speed-drop detector on a pair of consecutive location samples.
    [prev] and [last] are the speed and time of the previous sample,
    [speedKmh] the speed of the current one, read at [now]. *)
Lemma speedDrop_stored_iff speedKmh loc w prev last :
  lastSpeed w = Some prev ->
  lastLocationTimestamp w = Some last ->
  let now := clock (ticks w) in
  let drop := (prev - speedKmh)%float in
  let stored :=
    setMomentumChangeDetected true
      (set_speedDropDetected (Some (mkSpeedDrop now drop))
         (locationEntry speedKmh loc w)) in
  let w' := exec (locationPass speedKmh loc) w in
  ((now - last <= 1000
    /\ ge drop SPEED_DROP_THRESHOLD_KMH = true
    /\ gt prev 5%float = true)
   <-> w' = set_lastLocationTimestamp (Some now)
              (set_lastSpeed (Some speedKmh) (exec checkCombinedConditions stored)))
  /\ (speedDropCondition prev last speedKmh now = true ->
      allActive (clock (ticks stored)) stored = false ->
      speedDropDetected w' = Some (mkSpeedDrop now drop)
      /\ isSpeedDropActive now w' = true)
  /\ (speedDropCondition prev last speedKmh now = false ->
      speedDropDetected w'
      = match speedDropDetected w with
        | Some d => if COMBINED_ALERT_WINDOW_MS <? now - sd_timestamp d then None else Some d
        | None => None
        end).
Proof.
  intros Hs Ht now drop stored w'.
  destruct (locationEntry_refs speedKmh loc w) as (Es & Et & Ed & _ & Ek).
  assert (Hyes : speedDropCondition prev last speedKmh now = true ->
                 w' = set_lastLocationTimestamp (Some now)
                        (set_lastSpeed (Some speedKmh)
                           (exec checkCombinedConditions stored))).
  { intros C. subst w'. rewrite locationPass_eq. cbn zeta.
    rewrite (speedDropBlock_creates _ _ prev last) by first [exact C | congruence].
    reflexivity. }
  pose (rest := match speedDropDetected (locationEntry speedKmh loc w) with
                | Some d =>
                    if COMBINED_ALERT_WINDOW_MS <? now - sd_timestamp d
                    then set_speedDropDetected None (locationEntry speedKmh loc w)
                    else locationEntry speedKmh loc w
                | None => locationEntry speedKmh loc w
                end).
  assert (Hno : speedDropCondition prev last speedKmh now = false ->
                w' = set_lastLocationTimestamp (Some now)
                       (set_lastSpeed (Some speedKmh)
                          (setMomentumChangeDetected false rest))).
  { intros C. subst w'. rewrite locationPass_eq. cbn zeta.
    rewrite (speedDropBlock_otherwise _ _ prev last) by first [exact C | congruence].
    reflexivity. }
  assert (Kr : ticks rest = S (ticks w)).
  { unfold rest. destruct (speedDropDetected _) as [d|]; [destruct (_ <? _)|]; exact Ek. }
  split; [|split].
  - split; [intros H; apply Hyes; apply speedDropCondition_true; exact H|].
    intros E. apply speedDropCondition_true.
    destruct (speedDropCondition prev last speedKmh now) eqn:C; [reflexivity|].
    exfalso. rewrite (Hno eq_refl) in E. apply (f_equal ticks) in E.
    change (ticks rest = ticks (exec checkCombinedConditions stored)) in E.
    pose proof (ticks_checkCombinedConditions stored) as T.
    assert (K : ticks stored = S (ticks w)) by exact Ek.
    lia.
  - intros C Hidle. rewrite (Hyes C).
    rewrite checkCombinedConditions_idle by assumption.
    unfold isSpeedDropActive. cbn. rewrite Z.sub_diag. split; reflexivity.
  - intros C. rewrite (Hno C).
    change (speedDropDetected rest = match speedDropDetected w with
                                     | Some d =>
                                         if COMBINED_ALERT_WINDOW_MS <? now - sd_timestamp d
                                         then None else Some d
                                     | None => None
                                     end).
    unfold rest. rewrite Ed.
    destruct (speedDropDetected w) as [d|] eqn:Hd;
      [destruct (_ <? _)|]; cbn; rewrite ?Ed; try reflexivity; assumption.
Qed.

(** C8, as the code has it: no sample is rejected for its order.  A location
    sample read at a time [now] that is not later than the previous location
    time stamp still overwrites the previous speed and time stamp, passes
    the 1000 ms gate (its time difference is zero or negative), and stores a
    SpeedDrop detection stamped [now] when the speed fell by at least
    40 km/h from a speed above 5 km/h. *)
Theorem out_of_order_location_sample_is_processed loc w prev last :
  lastSpeed w = Some prev ->
  lastLocationTimestamp w = Some last ->
  let now := clock (ticks w) in
  now <= last ->
  let speedKmh := speedKmhOf loc in
  let drop := (prev - speedKmh)%float in
  let stored :=
    setMomentumChangeDetected true
      (set_speedDropDetected (Some (mkSpeedDrop now drop))
         (locationEntry speedKmh loc w)) in
  let w' := exec (handleLocationChange loc) w in
  lastSpeed w' = Some speedKmh
  /\ lastLocationTimestamp w' = Some now
  /\ Qle_bool (timeDiff now last) 1 = true
  /\ (ge drop SPEED_DROP_THRESHOLD_KMH = true ->
      gt prev 5%float = true ->
      w' = set_lastLocationTimestamp (Some now)
             (set_lastSpeed (Some speedKmh) (exec checkCombinedConditions stored))).
Proof.
  intros Hs Ht now Hle speedKmh drop stored w'.
  assert (Hq : now - last <= 1000) by lia.
  split; [|split; [|split]].
  - subst w'. unfold handleLocationChange. rewrite locationPass_eq. reflexivity.
  - subst w'. unfold handleLocationChange. rewrite locationPass_eq. reflexivity.
  - apply timeDiff_le_1. exact Hq.
  - intros Hd Hp.
    apply (proj1 (speedDrop_stored_iff speedKmh loc w prev last Hs Ht)).
    repeat split; assumption.
Qed.

(** ** The arming time of the high-acceleration detector along a run *)

Lemma unchanged_refl {B} (f : World -> B) w : unchanged f w w.
Proof. reflexivity. Qed.

Lemma unchanged_trans {B} (f : World -> B) a b c :
  unchanged f a b -> unchanged f b c -> unchanged f a c.
Proof. unfold unchanged. congruence. Qed.

Lemma accelPeak_checkCombinedConditions :
  preserves (unchanged accelPeakTimestamp) checkCombinedConditions.
Proof. intros w. apply (checkCombinedConditions_frame w). Qed.

Ltac accelPeak_steps :=
  preserve_steps (@unchanged_refl _ accelPeakTimestamp) (@unchanged_trans _ accelPeakTimestamp);
  try apply accelPeak_checkCombinedConditions;
  try (intros ?; reflexivity).

Lemma accelPeak_handleLocationChange loc :
  preserves (unchanged accelPeakTimestamp) (handleLocationChange loc).
Proof. unfold handleLocationChange, locationPass, speedDropBlock. accelPeak_steps. Qed.

Lemma accelPeak_highTiltBlock now tilt :
  preserves (unchanged accelPeakTimestamp) (highTiltBlock now tilt).
Proof. unfold highTiltBlock. accelPeak_steps. Qed.

Lemma accelPeak_highTiltBlock_eq now tilt w :
  accelPeakTimestamp (exec (highTiltBlock now tilt) w) = accelPeakTimestamp w.
Proof. apply accelPeak_highTiltBlock. Qed.

Lemma accelPeak_checkCombinedConditions_eq w :
  accelPeakTimestamp (exec checkCombinedConditions w) = accelPeakTimestamp w.
Proof. apply accelPeak_checkCombinedConditions. Qed.

Lemma accelPeak_motionPass v w :
  accelPeakTimestamp (motionPass v w)
  = if atLeast3g v then
      match accelPeakTimestamp w with
      | None => Some (clock (ticks w))
      | Some p => Some p
      end
    else None.
Proof.
  unfold motionPass, atLeast3g. cbn zeta.
  rewrite accelPeak_highTiltBlock_eq.
  change (accelPeakTimestamp (setCurrentTiltDegrees ?t ?x)) with (accelPeakTimestamp x).
  destruct (ge (magnitudeOf v) ACCEL_MAGNITUDE_THRESHOLD_G) eqn:G.
  - destruct (accelPeakTimestamp w) as [p|] eqn:P.
    + destruct (ACCEL_DURATION_THRESHOLD_MS <=? clock (ticks w) - p) eqn:D.
      * rewrite (highAccelerationBlock_creates _ _ p) by (try assumption; apply Z.leb_le, D).
        rewrite accelPeak_checkCombinedConditions_eq. exact P.
      * rewrite (highAccelerationBlock_waits _ _ p) by (try assumption; apply Z.leb_gt, D).
        exact P.
    + rewrite highAccelerationBlock_arms by assumption. reflexivity.
  - rewrite highAccelerationBlock_below by assumption. cbn zeta.
    destruct (highAccelerationDetected _) as [d|]; [destruct (_ <? _)|]; reflexivity.
Qed.

Lemma accelPeak_handle e w :
  accelPeakTimestamp (exec (handle e) w)
  = match eventVector e with
    | Some v =>
        if atLeast3g v then
          match accelPeakTimestamp w with
          | None => Some (clock (ticks w))
          | Some p => Some p
          end
        else None
    | None => accelPeakTimestamp w
    end.
Proof.
  destruct e as [loc|v|motion|outcome]; cbn [handle eventVector].
  - apply (accelPeak_handleLocationChange loc w).
  - rewrite handleAccelerometer_eq. apply accelPeak_motionPass.
  - rewrite handleDeviceMotion_eq. destruct (motionVector motion) as [v|].
    + apply accelPeak_motionPass.
    + reflexivity.
  - destruct outcome; reflexivity.
Qed.

Lemma run_snoc events e w : run (events ++ [e]) w = exec (handle e) (run events w).
Proof. unfold run. rewrite fold_left_app. reflexivity. Qed.

Lemma heldSince_snoc p w0 events e :
  heldSince p w0 events ->
  (forall v, eventVector e = Some v -> atLeast3g v = true) ->
  heldSince p w0 (events ++ [e]).
Proof.
  intros (before & e0 & v0 & after & -> & Hv & Hg & Hp & Hall) He.
  exists before, e0, v0, (after ++ [e]). repeat split; try assumption.
  - rewrite <- app_assoc. reflexivity.
  - apply Forall_app. split; [assumption|]. constructor; [assumption | constructor].
Qed.

(** Whenever the detector is armed, the samples since the arming time have
    all been of at least 3g. *)
Lemma armed_heldSince w0 events p :
  accelPeakTimestamp w0 = None ->
  accelPeakTimestamp (run events w0) = Some p ->
  heldSince p w0 events.
Proof.
  intros H0. revert p. induction events as [|e events IH] using rev_ind; intros p Hp.
  - cbn in Hp. congruence.
  - rewrite run_snoc, accelPeak_handle in Hp.
    destruct (eventVector e) as [v|] eqn:Ev.
    + destruct (atLeast3g v) eqn:G; [|discriminate].
      destruct (accelPeakTimestamp (run events w0)) as [q|] eqn:Q.
      * injection Hp as <-. apply heldSince_snoc; [apply IH; reflexivity|].
        intros v' Hv'. congruence.
      * injection Hp as <-. exists events, e, v, []. repeat split; try assumption.
        constructor.
    + apply heldSince_snoc; [apply IH; assumption|]. intros v' Hv'. congruence.
Qed.

(** C3: the high-acceleration detector along any sequence of events, started
    with the detector unarmed.  A motion sample below 3g clears the arming
    time and stores nothing.  A sample of at least 3g on an unarmed detector
    arms it at the time of the sample and stores nothing.  On an armed
    detector, every motion sample since the arming time [p] has been of at
    least 3g; the sample stores nothing while [now - p < 60], and otherwise
    stores the detection (magnitude, duration [now - p], time [now]) and
    goes on to the correlation check. *)
Theorem highAcceleration_needs_sustained_peak w0 events e v :
  accelPeakTimestamp w0 = None ->
  eventVector e = Some v ->
  let w := run events w0 in
  let now := clock (ticks w) in
  let g := magnitudeOf v in
  let entry := motionEntry v w in
  let block := exec (highAccelerationBlock now g) entry in
  exec (handle e) w
  = exec (highTiltBlock now (tiltOf v)) (setCurrentTiltDegrees (tiltOf v) block)
  /\ (ge g ACCEL_MAGNITUDE_THRESHOLD_G = false ->
      accelPeakTimestamp block = None
      /\ accelPeakTimestamp (exec (handle e) w) = None
      /\ ticks block = ticks entry
      /\ (highAccelerationDetected block = highAccelerationDetected w
          \/ highAccelerationDetected block = None))
  /\ (ge g ACCEL_MAGNITUDE_THRESHOLD_G = true ->
      match accelPeakTimestamp w with
      | None => block = set_accelPeakTimestamp (Some now) entry
      | Some p =>
          heldSince p w0 events
          /\ (now - p < ACCEL_DURATION_THRESHOLD_MS -> block = entry)
          /\ (ACCEL_DURATION_THRESHOLD_MS <= now - p ->
              block = exec checkCombinedConditions
                        (set_highAccelerationDetected
                           (Some (mkHighAcceleration now g (now - p))) entry))
      end).
Proof.
  intros H0 Ev w now g entry block.
  assert (Eh : exec (handle e) w
               = exec (highTiltBlock now (tiltOf v)) (setCurrentTiltDegrees (tiltOf v) block)).
  { destruct e as [loc|v'|motion|outcome]; cbn in Ev; try discriminate.
    - injection Ev as ->. cbn [handle]. rewrite handleAccelerometer_eq. reflexivity.
    - cbn [handle]. rewrite handleDeviceMotion_eq, Ev. reflexivity. }
  split; [exact Eh|]. split.
  - intros G.
    assert (Hb : accelPeakTimestamp block = None
                 /\ ticks block = ticks entry
                 /\ (highAccelerationDetected block = highAccelerationDetected w
                     \/ highAccelerationDetected block = None)).
    { unfold block. rewrite highAccelerationBlock_below by assumption. cbn zeta.
      change (highAccelerationDetected entry) with (highAccelerationDetected w).
      destruct (highAccelerationDetected w) as [d|] eqn:Hd; [destruct (_ <? _)|]; cbn;
        rewrite ?Hd; repeat split; auto. }
    destruct Hb as (B1 & B2 & B3). repeat split; try assumption.
    rewrite accelPeak_handle, Ev. unfold atLeast3g. fold g. rewrite G. reflexivity.
  - intros G. destruct (accelPeakTimestamp w) as [p|] eqn:P.
    + split; [apply armed_heldSince; assumption|]. split.
      * intros D. unfold block. apply (highAccelerationBlock_waits _ _ p); assumption.
      * intros D. unfold block. apply (highAccelerationBlock_creates _ _ p); assumption.
    + unfold block. apply highAccelerationBlock_arms; assumption.
Qed.

(** ** How many clock readings a pass takes *)

Lemma ticks_checkCombinedConditions_le w :
  (ticks (exec checkCombinedConditions w) <= ticks w + 2)%nat.
Proof.
  destruct (allActive (clock (ticks w)) w) eqn:A.
  - rewrite checkCombinedConditions_fires by assumption. cbn.
    rewrite ticks_triggerAlert. cbn. lia.
  - rewrite checkCombinedConditions_idle by assumption. cbn. lia.
Qed.

Lemma ticks_highAccelerationBlock now g w :
  (ticks w <= ticks (exec (highAccelerationBlock now g) w) <= ticks w + 2)%nat.
Proof.
  destruct (ge g ACCEL_MAGNITUDE_THRESHOLD_G) eqn:G.
  - destruct (accelPeakTimestamp w) as [p|] eqn:P.
    + destruct (ACCEL_DURATION_THRESHOLD_MS <=? now - p) eqn:D.
      * rewrite (highAccelerationBlock_creates _ _ p) by (try assumption; apply Z.leb_le, D).
        pose proof (ticks_checkCombinedConditions
                      (set_highAccelerationDetected
                         (Some (mkHighAcceleration now g (now - p))) w)).
        pose proof (ticks_checkCombinedConditions_le
                      (set_highAccelerationDetected
                         (Some (mkHighAcceleration now g (now - p))) w)).
        cbn in *. lia.
      * rewrite (highAccelerationBlock_waits _ _ p) by (try assumption; apply Z.leb_gt, D).
        lia.
    + rewrite highAccelerationBlock_arms by assumption. cbn. lia.
  - rewrite highAccelerationBlock_below by assumption. cbn zeta.
    destruct (highAccelerationDetected w) as [d|]; [destruct (_ <? _)|]; cbn; lia.
Qed.

Lemma ticks_highTiltBlock now tilt w :
  (ticks w <= ticks (exec (highTiltBlock now tilt) w) <= ticks w + 2)%nat.
Proof.
  destruct (ge tilt TILT_DANGER_THRESHOLD_DEG) eqn:G.
  - rewrite highTiltBlock_creates by assumption.
    pose proof (ticks_checkCombinedConditions
                  (set_highTiltDetected (Some (mkHighTilt now tilt)) w)).
    pose proof (ticks_checkCombinedConditions_le
                  (set_highTiltDetected (Some (mkHighTilt now tilt)) w)).
    cbn in *. lia.
  - rewrite highTiltBlock_below by assumption.
    destruct (highTiltDetected w) as [d|]; [destruct (_ <? _)|]; cbn; lia.
Qed.

Lemma ticks_speedDropBlock now speedKmh w :
  (ticks w <= ticks (exec (speedDropBlock now speedKmh) w) <= ticks w + 2)%nat.
Proof.
  destruct (lastSpeed w) as [prev|] eqn:Hs;
    [|rewrite speedDropBlock_first by (left; assumption); lia].
  destruct (lastLocationTimestamp w) as [last|] eqn:Ht;
    [|rewrite speedDropBlock_first by (right; assumption); lia].
  destruct (speedDropCondition prev last speedKmh now) eqn:C.
  - rewrite (speedDropBlock_creates _ _ prev last) by assumption.
    match goal with
    | |- context [exec checkCombinedConditions ?x] =>
        pose proof (ticks_checkCombinedConditions x);
        pose proof (ticks_checkCombinedConditions_le x)
    end.
    cbn in *. lia.
  - rewrite (speedDropBlock_otherwise _ _ prev last) by assumption.
    destruct (speedDropDetected w) as [d|]; [destruct (_ <? _)|]; cbn; lia.
Qed.

Lemma ticks_motionPass v w :
  (ticks w <= ticks (motionPass v w) <= ticks w + 5)%nat.
Proof.
  unfold motionPass. cbn zeta.
  match goal with
  | |- context [exec (highTiltBlock ?n ?t) ?x] => pose proof (ticks_highTiltBlock n t x) as T
  end.
  change (ticks (setCurrentTiltDegrees ?t ?x)) with (ticks x) in T.
  pose proof (ticks_highAccelerationBlock (clock (ticks w)) (magnitudeOf v) (motionEntry v w))
    as A.
  change (ticks (motionEntry v w)) with (S (ticks w)) in A. lia.
Qed.

Lemma ticks_handle e w :
  (ticks w <= ticks (exec (handle e) w) <= ticks w + 5)%nat.
Proof.
  destruct e as [loc|v|motion|outcome]; cbn [handle].
  - unfold handleLocationChange. rewrite locationPass_eq. cbn zeta.
    change (ticks (set_lastLocationTimestamp ?a (set_lastSpeed ?b ?x))) with (ticks x).
    pose proof (ticks_speedDropBlock (clock (ticks w)) (speedKmhOf loc)
                  (locationEntry (speedKmhOf loc) loc w)) as B.
    destruct (locationEntry_refs (speedKmhOf loc) loc w) as (_ & _ & _ & _ & Ek).
    rewrite Ek in B. lia.
  - rewrite handleAccelerometer_eq. apply ticks_motionPass.
  - rewrite handleDeviceMotion_eq. destruct (motionVector motion).
    + apply ticks_motionPass.
    + cbn. lia.
  - destruct outcome; cbn; lia.
Qed.

(** ** Time stamps in reachable states *)

Lemma stampedInPast_kept w w' :
  flagsKeptOrCleared w w' -> stampedInPast w -> stampedInPast w'.
Proof.
  intros (Ht & [Es|Es] & [Ea|Ea] & [Et|Et]) (Is & Ia & It);
    rewrite ?Es, ?Ea, ?Et in *; unfold stampedInPast;
    rewrite ?Es, ?Ea, ?Et; repeat split; intros d Hd; try discriminate;
    [> first [destruct (Is d Hd) as (k & ? & ?) | destruct (Ia d Hd) as (k & ? & ?)
             | destruct (It d Hd) as (k & ? & ?)]; exists k; split; [lia | assumption] ..].
Qed.

Lemma flagsKeptOrCleared_checkCombinedConditions w :
  flagsKeptOrCleared w (exec checkCombinedConditions w).
Proof.
  destruct (allActive (clock (ticks w)) w) eqn:A.
  - destruct (checkCombinedConditions_fired w A) as (H1 & H2 & H3 & _).
    pose proof (ticks_checkCombinedConditions w).
    unfold flagsKeptOrCleared. rewrite H1, H2, H3. repeat split; auto. lia.
  - rewrite checkCombinedConditions_idle by assumption.
    unfold flagsKeptOrCleared. cbn. repeat split; auto.
Qed.

Lemma stampedInPast_checkCombinedConditions w :
  stampedInPast w -> stampedInPast (exec checkCombinedConditions w).
Proof. apply stampedInPast_kept, flagsKeptOrCleared_checkCombinedConditions. Qed.

Lemma stampedInPast_highAccelerationBlock k g w :
  (k < ticks w)%nat -> stampedInPast w ->
  stampedInPast (exec (highAccelerationBlock (clock k) g) w).
Proof.
  intros Hk I. destruct (ge g ACCEL_MAGNITUDE_THRESHOLD_G) eqn:G.
  - destruct (accelPeakTimestamp w) as [p|] eqn:P.
    + destruct (ACCEL_DURATION_THRESHOLD_MS <=? clock k - p) eqn:D.
      * rewrite (highAccelerationBlock_creates _ _ p) by (try assumption; apply Z.leb_le, D).
        apply stampedInPast_checkCombinedConditions.
        destruct I as (Is & Ia & It). repeat split; cbn; try assumption.
        intros d [= <-]. exists k. split; [assumption | reflexivity].
      * rewrite (highAccelerationBlock_waits _ _ p) by (try assumption; apply Z.leb_gt, D).
        exact I.
    + rewrite highAccelerationBlock_arms by assumption. exact I.
  - rewrite highAccelerationBlock_below by assumption. cbn zeta.
    apply (stampedInPast_kept w); [|exact I].
    destruct (highAccelerationDetected w) as [d|]; [destruct (_ <? _)|];
      unfold flagsKeptOrCleared; cbn; repeat split; auto.
Qed.

Lemma stampedInPast_highTiltBlock k tilt w :
  (k < ticks w)%nat -> stampedInPast w ->
  stampedInPast (exec (highTiltBlock (clock k) tilt) w).
Proof.
  intros Hk I. destruct (ge tilt TILT_DANGER_THRESHOLD_DEG) eqn:G.
  - rewrite highTiltBlock_creates by assumption.
    apply stampedInPast_checkCombinedConditions.
    destruct I as (Is & Ia & It). repeat split; cbn; try assumption.
    intros d [= <-]. exists k. split; [assumption | reflexivity].
  - rewrite highTiltBlock_below by assumption.
    apply (stampedInPast_kept w); [|exact I].
    destruct (highTiltDetected w) as [d|]; [destruct (_ <? _)|];
      unfold flagsKeptOrCleared; cbn; repeat split; auto.
Qed.

Lemma stampedInPast_speedDropBlock k speedKmh w :
  (k < ticks w)%nat -> stampedInPast w ->
  stampedInPast (exec (speedDropBlock (clock k) speedKmh) w).
Proof.
  intros Hk I.
  destruct (lastSpeed w) as [prev|] eqn:Hs;
    [|rewrite speedDropBlock_first by (left; assumption); exact I].
  destruct (lastLocationTimestamp w) as [last|] eqn:Ht;
    [|rewrite speedDropBlock_first by (right; assumption); exact I].
  destruct (speedDropCondition prev last speedKmh (clock k)) eqn:C.
  - rewrite (speedDropBlock_creates _ _ prev last) by assumption.
    apply stampedInPast_checkCombinedConditions.
    destruct I as (Is & Ia & It). repeat split; cbn; try assumption.
    intros d [= <-]. exists k. split; [assumption | reflexivity].
  - rewrite (speedDropBlock_otherwise _ _ prev last) by assumption.
    apply (stampedInPast_kept w); [|exact I].
    destruct (speedDropDetected w) as [d|]; [destruct (_ <? _)|];
      unfold flagsKeptOrCleared; cbn; repeat split; auto.
Qed.

Lemma stampedInPast_motionPass v w : stampedInPast w -> stampedInPast (motionPass v w).
Proof.
  intros I. unfold motionPass. cbn zeta.
  pose proof (ticks_highAccelerationBlock (clock (ticks w)) (magnitudeOf v) (motionEntry v w))
    as T.
  change (ticks (motionEntry v w)) with (S (ticks w)) in T.
  apply stampedInPast_highTiltBlock.
  - change (ticks (setCurrentTiltDegrees ?t ?x)) with (ticks x). lia.
  - apply (stampedInPast_kept (exec (highAccelerationBlock (clock (ticks w)) (magnitudeOf v))
                                 (motionEntry v w))).
    + unfold flagsKeptOrCleared. cbn. repeat split; auto.
    + apply stampedInPast_highAccelerationBlock.
      * cbn. lia.
      * apply (stampedInPast_kept w); [|exact I].
        unfold flagsKeptOrCleared. cbn. repeat split; auto.
Qed.

Lemma stampedInPast_handle e w : stampedInPast w -> stampedInPast (exec (handle e) w).
Proof.
  intros I. destruct e as [loc|v|motion|outcome]; cbn [handle].
  - unfold handleLocationChange. rewrite locationPass_eq. cbn zeta.
    destruct (locationEntry_refs (speedKmhOf loc) loc w) as (_ & _ & Ed & _ & Ek).
    match goal with
    | |- stampedInPast (set_lastLocationTimestamp ?a (set_lastSpeed ?b ?x)) =>
        apply (stampedInPast_kept x);
        [unfold flagsKeptOrCleared; cbn; repeat split; auto|]
    end.
    apply stampedInPast_speedDropBlock; [rewrite Ek; lia|].
    apply (stampedInPast_kept w); [|exact I].
    unfold flagsKeptOrCleared, locationEntry, afterCoordinates.
    destruct (truthy _ && truthy _); cbn; repeat split; auto.
  - rewrite handleAccelerometer_eq. apply stampedInPast_motionPass, I.
  - rewrite handleDeviceMotion_eq. destruct (motionVector motion).
    + apply stampedInPast_motionPass, I.
    + apply (stampedInPast_kept w); [|exact I].
      unfold flagsKeptOrCleared. cbn. repeat split; auto.
  - apply (stampedInPast_kept w); [|exact I].
    destruct outcome; unfold flagsKeptOrCleared; cbn; repeat split; auto.
Qed.

Lemma stampedInPast_run events w : stampedInPast w -> stampedInPast (run events w).
Proof.
  apply (preserves_run (fun a b => stampedInPast a -> stampedInPast b)).
  - auto.
  - auto.
  - intros e w1. apply stampedInPast_handle.
Qed.

Lemma stampedInPast_fresh : stampedInPast fresh.
Proof. repeat split; intros d Hd; discriminate. Qed.

Lemma isActive_spec now w :
  (isSpeedDropActive now w = true <->
     exists d, speedDropDetected w = Some d /\ now - sd_timestamp d < 2000)
  /\ (isHighAccelerationActive now w = true <->
        exists d, highAccelerationDetected w = Some d /\ now - ha_timestamp d < 2000)
  /\ (isHighTiltActive now w = true <->
        exists d, highTiltDetected w = Some d /\ now - ht_timestamp d < 2000)
  /\ (forall d, speedDropDetected w = Some d -> 2000 <= now - sd_timestamp d ->
                isSpeedDropActive now w = false)
  /\ (forall d, highAccelerationDetected w = Some d -> 2000 <= now - ha_timestamp d ->
                isHighAccelerationActive now w = false)
  /\ (forall d, highTiltDetected w = Some d -> 2000 <= now - ht_timestamp d ->
                isHighTiltActive now w = false).
Proof.
  unfold isSpeedDropActive, isHighAccelerationActive, isHighTiltActive,
    COMBINED_ALERT_WINDOW_MS.
  repeat split.
  all: try (intros d -> ?; apply Z.ltb_ge; assumption).
  all: try (intros [d [-> ?]]; apply Z.ltb_lt; assumption).
  - destruct (speedDropDetected w) as [d|]; [|discriminate].
    intros H. exists d. split; [reflexivity | apply Z.ltb_lt; assumption].
  - destruct (highAccelerationDetected w) as [d|]; [|discriminate].
    intros H. exists d. split; [reflexivity | apply Z.ltb_lt; assumption].
  - destruct (highTiltDetected w) as [d|]; [|discriminate].
    intros H. exists d. split; [reflexivity | apply Z.ltb_lt; assumption].
Qed.

(** C5: each of the three activity tests of the correlation check is true
    exactly when the flag holds a detection whose age [now - timestamp] is
    below [COMBINED_ALERT_WINDOW_MS] = 2000, and is false for a detection of
    age 2000 or more.  In a state reached from a fresh engine the time
    stamps are past clock readings, so with a clock that never runs
    backwards a detection found active at a reading [now] was stamped
    within the 2000 ms before [now]. *)
Theorem isActive_iff_present_and_recent :
  (forall now w,
      (isSpeedDropActive now w = true <->
         exists d, speedDropDetected w = Some d /\ now - sd_timestamp d < 2000)
      /\ (isHighAccelerationActive now w = true <->
            exists d, highAccelerationDetected w = Some d /\ now - ha_timestamp d < 2000)
      /\ (isHighTiltActive now w = true <->
            exists d, highTiltDetected w = Some d /\ now - ht_timestamp d < 2000)
      /\ (forall d, speedDropDetected w = Some d -> 2000 <= now - sd_timestamp d ->
                    isSpeedDropActive now w = false)
      /\ (forall d, highAccelerationDetected w = Some d -> 2000 <= now - ha_timestamp d ->
                    isHighAccelerationActive now w = false)
      /\ (forall d, highTiltDetected w = Some d -> 2000 <= now - ht_timestamp d ->
                    isHighTiltActive now w = false))
  /\ (monotone ->
      forall events n,
        let w := run events fresh in
        (ticks w <= n)%nat ->
        let now := clock n in
        (isSpeedDropActive now w = true ->
           exists d, speedDropDetected w = Some d /\ 0 <= now - sd_timestamp d < 2000)
        /\ (isHighAccelerationActive now w = true ->
              exists d, highAccelerationDetected w = Some d
                        /\ 0 <= now - ha_timestamp d < 2000)
        /\ (isHighTiltActive now w = true ->
              exists d, highTiltDetected w = Some d /\ 0 <= now - ht_timestamp d < 2000)).
Proof.
  split; [exact isActive_spec|].
  intros Hmono events n w Hn now.
  destruct (stampedInPast_run events fresh stampedInPast_fresh) as (Is & Ia & It).
  fold w in Is, Ia, It.
  destruct (isActive_spec now w) as (Ss & Sa & St & _).
  repeat split.
  - intros H. apply Ss in H. destruct H as (d & Hd & Hlt). exists d.
    destruct (Is d Hd) as (k & Hk & Hts). split; [assumption|].
    assert (Hkn : clock k <= clock n) by (apply Hmono; lia).
    rewrite Hts in *. subst now. lia.
  - intros H. apply Sa in H. destruct H as (d & Hd & Hlt). exists d.
    destruct (Ia d Hd) as (k & Hk & Hts). split; [assumption|].
    assert (Hkn : clock k <= clock n) by (apply Hmono; lia).
    rewrite Hts in *. subst now. lia.
  - intros H. apply St in H. destruct H as (d & Hd & Hlt). exists d.
    destruct (It d Hd) as (k & Hk & Hts). split; [assumption|].
    assert (Hkn : clock k <= clock n) by (apply Hmono; lia).
    rewrite Hts in *. subst now. lia.
Qed.


(** ** What a pass does to the flags and the log *)

Lemma alertEffects_of_check w :
  allActive (clock (ticks w)) w = true ->
  exists new,
    effects (exec (triggerAlert Combined (combinedData (tick w))) (tick w))
    = effects w ++ new
    /\ alertEffects new.
Proof.
  intros A. apply allActive_true in A.
  destruct A as (sd & ha & ht & Hsd & _ & Hha & _ & Hht & _).
  destruct (gateClosed (tick w)) eqn:G.
  - rewrite triggerAlert_closed by assumption. eexists. split; [reflexivity|].
    left. eexists. reflexivity.
  - rewrite triggerAlert_open by assumption. cbn. rewrite Hsd, Hha, Hht. cbn.
    eexists. split; [reflexivity|].
    right. do 6 eexists. reflexivity.
Qed.

Lemma checkCombinedConditions_outcome w :
  let w' := exec checkCombinedConditions w in
  (allActive (clock (ticks w)) w = false /\ w' = tick w)
  \/ (allActive (clock (ticks w)) w = true /\ fired w w').
Proof.
  cbn zeta. destruct (allActive (clock (ticks w)) w) eqn:A.
  - right. split; [reflexivity|].
    destruct (alertEffects_of_check w A) as (new & E & S).
    rewrite checkCombinedConditions_fires by assumption.
    unfold fired. cbn. repeat split; try reflexivity.
    exists new. split; assumption.
  - left. split; [reflexivity|]. apply checkCombinedConditions_idle. assumption.
Qed.

Lemma highAccelerationBlock_outcome now g w :
  let w' := exec (highAccelerationBlock now g) w in
  (effects w' = effects w
   /\ speedDropDetected w' = speedDropDetected w
   /\ highTiltDetected w' = highTiltDetected w
   /\ flagStep ha_timestamp now (highAccelerationDetected w) (highAccelerationDetected w'))
  \/ (fired w w' /\ speedDropDetected w <> None /\ highTiltDetected w <> None).
Proof.
  cbn zeta. destruct (ge g ACCEL_MAGNITUDE_THRESHOLD_G) eqn:G.
  - destruct (accelPeakTimestamp w) as [p|] eqn:P.
    + destruct (ACCEL_DURATION_THRESHOLD_MS <=? now - p) eqn:D.
      * rewrite (highAccelerationBlock_creates _ _ p) by (try assumption; apply Z.leb_le, D).
        match goal with
        | |- context [exec checkCombinedConditions ?x] =>
            destruct (checkCombinedConditions_outcome x) as [[A E]|[A F]]
        end.
        -- left. rewrite E. cbn. repeat split; try reflexivity.
           right. right. eexists. split; reflexivity.
        -- right. apply allActive_true in A.
           destruct A as (sd & ha & ht & Hsd & _ & _ & _ & Hht & _).
           cbn in Hsd, Hht. split; [exact F|]. split; congruence.
      * rewrite (highAccelerationBlock_waits _ _ p) by (try assumption; apply Z.leb_gt, D).
        left. repeat split; try reflexivity. left. reflexivity.
    + rewrite highAccelerationBlock_arms by assumption.
      left. cbn. repeat split; try reflexivity. left. reflexivity.
  - rewrite highAccelerationBlock_below by assumption. cbn zeta. left.
    destruct (highAccelerationDetected w) as [d|] eqn:Hd;
      [destruct (COMBINED_ALERT_WINDOW_MS <? now - ha_timestamp d) eqn:X|];
      cbn; rewrite ?Hd; repeat split; try reflexivity.
    + right. left. split; [reflexivity|]. exists d. split; [reflexivity|].
      apply Z.ltb_lt. exact X.
    + left. reflexivity.
    + left. reflexivity.
Qed.

Lemma highTiltBlock_outcome now tilt w :
  let w' := exec (highTiltBlock now tilt) w in
  (effects w' = effects w
   /\ speedDropDetected w' = speedDropDetected w
   /\ highAccelerationDetected w' = highAccelerationDetected w
   /\ flagStep ht_timestamp now (highTiltDetected w) (highTiltDetected w'))
  \/ (fired w w' /\ speedDropDetected w <> None /\ highAccelerationDetected w <> None).
Proof.
  cbn zeta. destruct (ge tilt TILT_DANGER_THRESHOLD_DEG) eqn:G.
  - rewrite highTiltBlock_creates by assumption.
    match goal with
    | |- context [exec checkCombinedConditions ?x] =>
        destruct (checkCombinedConditions_outcome x) as [[A E]|[A F]]
    end.
    + left. rewrite E. cbn. repeat split; try reflexivity.
      right. right. eexists. split; reflexivity.
    + right. apply allActive_true in A.
      destruct A as (sd & ha & ht & Hsd & _ & Hha & _ & _ & _).
      cbn in Hsd, Hha. split; [exact F|]. split; congruence.
  - rewrite highTiltBlock_below by assumption. left.
    destruct (highTiltDetected w) as [d|] eqn:Hd;
      [destruct (COMBINED_ALERT_WINDOW_MS <? now - ht_timestamp d) eqn:X|];
      cbn; rewrite ?Hd; repeat split; try reflexivity.
    + right. left. split; [reflexivity|]. exists d. split; [reflexivity|].
      apply Z.ltb_lt. exact X.
    + left. reflexivity.
    + left. reflexivity.
Qed.

Lemma speedDropBlock_outcome now speedKmh w :
  let w' := exec (speedDropBlock now speedKmh) w in
  (effects w' = effects w
   /\ highAccelerationDetected w' = highAccelerationDetected w
   /\ highTiltDetected w' = highTiltDetected w
   /\ flagStep sd_timestamp now (speedDropDetected w) (speedDropDetected w'))
  \/ (fired w w' /\ highAccelerationDetected w <> None /\ highTiltDetected w <> None).
Proof.
  cbn zeta.
  destruct (lastSpeed w) as [prev|] eqn:Hs;
    [|rewrite speedDropBlock_first by (left; assumption);
      left; repeat split; try reflexivity; left; reflexivity].
  destruct (lastLocationTimestamp w) as [last|] eqn:Ht;
    [|rewrite speedDropBlock_first by (right; assumption);
      left; repeat split; try reflexivity; left; reflexivity].
  destruct (speedDropCondition prev last speedKmh now) eqn:C.
  - rewrite (speedDropBlock_creates _ _ prev last) by assumption.
    match goal with
    | |- context [exec checkCombinedConditions ?x] =>
        destruct (checkCombinedConditions_outcome x) as [[A E]|[A F]]
    end.
    + left. rewrite E. cbn. repeat split; try reflexivity.
      right. right. eexists. split; reflexivity.
    + right. apply allActive_true in A.
      destruct A as (sd & ha & ht & _ & _ & Hha & _ & Hht & _).
      cbn in Hha, Hht. split; [exact F|]. split; congruence.
  - rewrite (speedDropBlock_otherwise _ _ prev last) by assumption. left.
    destruct (speedDropDetected w) as [d|] eqn:Hd;
      [destruct (COMBINED_ALERT_WINDOW_MS <? now - sd_timestamp d) eqn:X|];
      cbn; rewrite ?Hd; repeat split; try reflexivity.
    + right. left. split; [reflexivity|]. exists d. split; [reflexivity|].
      apply Z.ltb_lt. exact X.
    + left. reflexivity.
    + left. reflexivity.
Qed.

Lemma locationEntry_flags speedKmh loc w :
  let entry := locationEntry speedKmh loc w in
  effects entry = effects w
  /\ speedDropDetected entry = speedDropDetected w
  /\ highAccelerationDetected entry = highAccelerationDetected w
  /\ highTiltDetected entry = highTiltDetected w
  /\ lastAlertTimestamp entry = lastAlertTimestamp w.
Proof.
  unfold locationEntry, afterCoordinates.
  destruct (truthy _ && truthy _); cbn; repeat split; reflexivity.
Qed.

(** A location pass either raises no alert, touches no flag but that of the
    speed drop, and adds nothing to the log; or raises one alert, which takes
    the two motion detections with it. *)
Lemma locationPass_outcome speedKmh loc w :
  let now := clock (ticks w) in
  let w' := exec (locationPass speedKmh loc) w in
  (effects w' = effects w
   /\ highAccelerationDetected w' = highAccelerationDetected w
   /\ highTiltDetected w' = highTiltDetected w
   /\ flagStep sd_timestamp now (speedDropDetected w) (speedDropDetected w'))
  \/ (fired w w' /\ highAccelerationDetected w <> None /\ highTiltDetected w <> None).
Proof.
  cbn zeta. rewrite locationPass_eq. cbn zeta.
  destruct (locationEntry_flags speedKmh loc w) as (Ee & Es & Ea & Et & _).
  destruct (speedDropBlock_outcome (clock (ticks w)) speedKmh (locationEntry speedKmh loc w))
    as [(Q1 & Q2 & Q3 & Q4)|(F & N1 & N2)].
  - left. cbn. rewrite Q1, Q2, Q3, Ee, Ea, Et. repeat split; try reflexivity.
    rewrite <- Es. exact Q4.
  - right. rewrite Ea in N1. rewrite Et in N2. split; [|split; assumption].
    destruct F as ((new & E & S) & F1 & F2 & F3).
    unfold fired. cbn. rewrite F1, F2, F3. repeat split; try reflexivity.
    exists new. rewrite E, Ee. split; [reflexivity | assumption].
Qed.

(** A motion pass either raises no alert, keeps the speed-drop flag and adds
    nothing to the log; or raises exactly one alert, which takes the speed
    drop and the high acceleration with it, the tilt flag being empty or
    filled again by the very sample. *)
Lemma motionPass_outcome v w :
  let now := clock (ticks w) in
  let w' := motionPass v w in
  (effects w' = effects w
   /\ speedDropDetected w' = speedDropDetected w
   /\ flagStep ha_timestamp now (highAccelerationDetected w) (highAccelerationDetected w')
   /\ flagStep ht_timestamp now (highTiltDetected w) (highTiltDetected w'))
  \/ ((exists new, effects w' = effects w ++ new /\ alertEffects new)
      /\ speedDropDetected w <> None
      /\ speedDropDetected w' = None
      /\ highAccelerationDetected w' = None
      /\ (highTiltDetected w' = None
          \/ exists d, highTiltDetected w' = Some d /\ ht_timestamp d = now)).
Proof.
  cbn zeta. unfold motionPass. cbn zeta.
  set (now := clock (ticks w)).
  set (w1 := exec (highAccelerationBlock now (magnitudeOf v)) (motionEntry v w)).
  pose proof (highAccelerationBlock_outcome now (magnitudeOf v) (motionEntry v w)) as O1.
  cbn zeta in O1. fold w1 in O1. unfold fired in O1.
  change (effects (motionEntry v w)) with (effects w) in O1.
  change (speedDropDetected (motionEntry v w)) with (speedDropDetected w) in O1.
  change (highTiltDetected (motionEntry v w)) with (highTiltDetected w) in O1.
  change (highAccelerationDetected (motionEntry v w)) with (highAccelerationDetected w) in O1.
  set (w2 := setCurrentTiltDegrees (tiltOf v) w1).
  pose proof (highTiltBlock_outcome now (tiltOf v) w2) as O2. cbn zeta in O2.
  unfold fired in O2.
  change (effects w2) with (effects w1) in O2.
  change (speedDropDetected w2) with (speedDropDetected w1) in O2.
  change (highTiltDetected w2) with (highTiltDetected w1) in O2.
  change (highAccelerationDetected w2) with (highAccelerationDetected w1) in O2.
  set (w3 := exec (highTiltBlock now (tiltOf v)) w2) in *.
  destruct O1 as [(A1 & A2 & A3 & A4)|(((new & E & S) & F1 & F2 & F3) & N1 & N2)].
  - destruct O2 as [(B1 & B2 & B3 & B4)|(((new & E & S) & F1 & F2 & F3) & N1 & N2)].
    + left. rewrite B1, B2, B3, A1, A2. repeat split; try reflexivity.
      * exact A4.
      * rewrite <- A3. exact B4.
    + right. split; [exists new; rewrite E, A1; split; [reflexivity | assumption]|].
      rewrite A2 in N1. repeat split; try assumption. left. assumption.
  - destruct O2 as [(B1 & B2 & B3 & B4)|(_ & M1 & _)].
    + right. split; [exists new; rewrite B1, E; split; [reflexivity | assumption]|].
      rewrite B2, B3. repeat split; try assumption.
      rewrite F3 in B4. destruct B4 as [B4|[(_ & d & Hd & _)|(d & Hd & Hs)]].
      * left. assumption.
      * discriminate.
      * right. exists d. split; assumption.
    + rewrite F1 in M1. congruence.
Qed.

(** What one event does to the log and the flags. *)
Lemma handle_outcome e w :
  let now := clock (ticks w) in
  let w' := exec (handle e) w in
  (exists new,
      effects w' = effects w ++ new
      /\ (new = [] \/ exists text, new = [AlertSmsError text])
      /\ flagStep sd_timestamp now (speedDropDetected w) (speedDropDetected w')
      /\ flagStep ha_timestamp now (highAccelerationDetected w) (highAccelerationDetected w')
      /\ flagStep ht_timestamp now (highTiltDetected w) (highTiltDetected w'))
  \/ ((exists new, effects w' = effects w ++ new /\ alertEffects new)
      /\ speedDropDetected w' = None
      /\ highAccelerationDetected w' = None
      /\ (highTiltDetected w' = None
          \/ exists d, highTiltDetected w' = Some d /\ ht_timestamp d = now)).
Proof.
  cbn zeta. destruct e as [loc|v|motion|outcome]; cbn [handle].
  - unfold handleLocationChange.
    destruct (locationPass_outcome (speedKmhOf loc) loc w)
      as [(Q1 & Q2 & Q3 & Q4)|(((new & E & S) & F1 & F2 & F3) & _)].
    + left. exists []. rewrite app_nil_r, Q2, Q3. repeat split; try assumption.
      * left. reflexivity.
      * left. reflexivity.
      * left. reflexivity.
    + right. repeat split; try assumption.
      * exists new. split; assumption.
      * left. assumption.
  - rewrite handleAccelerometer_eq.
    destruct (motionPass_outcome v w) as [(Q1 & Q2 & Q3 & Q4)|(E & _ & F)].
    + left. exists []. rewrite app_nil_r, Q2. repeat split; try assumption.
      * left. reflexivity.
      * left. reflexivity.
    + right. split; assumption.
  - rewrite handleDeviceMotion_eq. destruct (motionVector motion) as [v|].
    + destruct (motionPass_outcome v w) as [(Q1 & Q2 & Q3 & Q4)|(E & _ & F)].
      * left. exists []. rewrite app_nil_r, Q2. repeat split; try assumption.
        -- left. reflexivity.
        -- left. reflexivity.
      * right. split; assumption.
    + left. exists []. cbn. rewrite app_nil_r.
      repeat split; try reflexivity; left; reflexivity.
  - left. destruct outcome as [status|msg]; cbn.
    + exists []. rewrite app_nil_r. repeat split; try reflexivity;
        left; reflexivity.
    + eexists. split; [reflexivity|]. repeat split.
      * right. eexists. reflexivity.
      * left. reflexivity.
      * left. reflexivity.
      * left. reflexivity.
Qed.

Lemma compoundAlerts_alertEffects new :
  alertEffects new -> List.length (compoundAlerts new) = 1%nat.
Proof.
  intros [(data & ->)|(v & g & t & link & lat & lon & ->)]; reflexivity.
Qed.

Lemma dispatched_alertEffects new :
  alertEffects new -> (List.length (dispatched new) <= 1)%nat.
Proof.
  intros [(data & ->)|(v & g & t & link & lat & lon & ->)]; cbn; lia.
Qed.

Lemma length_compoundAlerts_app a b :
  List.length (compoundAlerts (a ++ b))
  = (List.length (compoundAlerts a) + List.length (compoundAlerts b))%nat.
Proof. unfold compoundAlerts. rewrite filter_app, List.length_app. reflexivity. Qed.

Lemma length_dispatched_app a b :
  List.length (dispatched (a ++ b))
  = (List.length (dispatched a) + List.length (dispatched b))%nat.
Proof. unfold dispatched. rewrite filter_app, List.length_app. reflexivity. Qed.

(** X1: an event adds to the log nothing, or the effects of exactly one alert
    (a suppressed one, or a dispatched one whose message shows all three
    values), or the error dialog of a failed request: a motion sample, which
    runs the correlation check twice, never raises two alerts.  Hence a
    sequence of events raises at most as many alerts as it has events. *)
Theorem at_most_one_alert_per_event :
  (forall e w,
      exists new,
        effects (exec (handle e) w) = effects w ++ new
        /\ (new = [] \/ alertEffects new \/ exists text, new = [AlertSmsError text]))
  /\ (forall events w,
        let w' := run events w in
        (List.length (compoundAlerts (effects w'))
         <= List.length (compoundAlerts (effects w)) + List.length events)%nat
        /\ (List.length (dispatched (effects w'))
            <= List.length (dispatched (effects w)) + List.length events)%nat).
Proof.
  assert (Step : forall e w,
             exists new,
               effects (exec (handle e) w) = effects w ++ new
               /\ (new = [] \/ alertEffects new \/ exists text, new = [AlertSmsError text])).
  { intros e w.
    destruct (handle_outcome e w) as [(new & E & [N|N] & _)|((new & E & S) & _)];
      exists new; split; auto. }
  split; [exact Step|].
  intros events. induction events as [|e events IH]; intros w; cbn zeta.
  - cbn. lia.
  - unfold run in *. cbn [fold_left List.length].
    specialize (IH (exec (handle e) w)). cbn zeta in IH.
    destruct (Step e w) as (new & E & S). rewrite E in IH.
    rewrite length_compoundAlerts_app, length_dispatched_app in IH.
    assert (B : (List.length (compoundAlerts new) <= 1
                 /\ List.length (dispatched new) <= 1)%nat).
    { destruct S as [->|[S|(text & ->)]]; cbn; try lia.
      rewrite (compoundAlerts_alertEffects new S).
      pose proof (dispatched_alertEffects new S). lia. }
    lia.
Qed.

(** X2: a detection leaves its flag in two ways only: it had expired (it was
    more than 2000 ms old at the reading of the pass), or an alert was raised
    in the pass.  In particular a detection that is active at the reading of
    the pass is never dropped without an alert. *)
Theorem detection_leaves_by_expiry_or_alert e w :
  let now := clock (ticks w) in
  let w' := exec (handle e) w in
  let raised :=
    List.length (compoundAlerts (effects w'))
    = S (List.length (compoundAlerts (effects w))) in
  (forall d, speedDropDetected w = Some d -> speedDropDetected w' = None ->
             COMBINED_ALERT_WINDOW_MS < now - sd_timestamp d \/ raised)
  /\ (forall d, highAccelerationDetected w = Some d -> highAccelerationDetected w' = None ->
                COMBINED_ALERT_WINDOW_MS < now - ha_timestamp d \/ raised)
  /\ (forall d, highTiltDetected w = Some d -> highTiltDetected w' = None ->
                COMBINED_ALERT_WINDOW_MS < now - ht_timestamp d \/ raised)
  /\ (isSpeedDropActive now w = true -> speedDropDetected w' = None -> raised)
  /\ (isHighAccelerationActive now w = true -> highAccelerationDetected w' = None -> raised)
  /\ (isHighTiltActive now w = true -> highTiltDetected w' = None -> raised).
Proof.
  intros now w' raised.
  assert (K : forall D (stamp : D -> Z) (old new : option D) d,
             flagStep stamp now old new -> old = Some d -> new = None ->
             COMBINED_ALERT_WINDOW_MS < now - stamp d).
  { intros D stamp old new d [S|[(_ & d' & Hd' & Hx)|(d' & Hd' & _)]] Ho Hn.
    - congruence.
    - congruence.
    - congruence. }
  assert (Main :
            (forall d, speedDropDetected w = Some d -> speedDropDetected w' = None ->
                       COMBINED_ALERT_WINDOW_MS < now - sd_timestamp d \/ raised)
            /\ (forall d, highAccelerationDetected w = Some d ->
                          highAccelerationDetected w' = None ->
                          COMBINED_ALERT_WINDOW_MS < now - ha_timestamp d \/ raised)
            /\ (forall d, highTiltDetected w = Some d -> highTiltDetected w' = None ->
                          COMBINED_ALERT_WINDOW_MS < now - ht_timestamp d \/ raised)).
  { destruct (handle_outcome e w) as [(new & E & _ & S1 & S2 & S3)|((new & E & S) & _)];
      fold w' in E; fold now in S1, S2, S3 || idtac.
    - repeat split; intros d Hd Hn; left.
      + exact (K _ _ _ _ d S1 Hd Hn).
      + exact (K _ _ _ _ d S2 Hd Hn).
      + exact (K _ _ _ _ d S3 Hd Hn).
    - assert (R : raised).
      { unfold raised. rewrite E, length_compoundAlerts_app.
        rewrite (compoundAlerts_alertEffects new S). lia. }
      repeat split; intros d Hd Hn; right; exact R. }
  destruct Main as (M1 & M2 & M3).
  split; [exact M1|]. split; [exact M2|]. split; [exact M3|].
  unfold isSpeedDropActive, isHighAccelerationActive, isHighTiltActive.
  repeat split.
  - destruct (speedDropDetected w) as [d|] eqn:Hd; [|discriminate].
    intros A Hn. apply Z.ltb_lt in A.
    destruct (M1 d eq_refl Hn) as [X|X]; [lia | exact X].
  - destruct (highAccelerationDetected w) as [d|] eqn:Hd; [|discriminate].
    intros A Hn. apply Z.ltb_lt in A.
    destruct (M2 d eq_refl Hn) as [X|X]; [lia | exact X].
  - destruct (highTiltDetected w) as [d|] eqn:Hd; [|discriminate].
    intros A Hn. apply Z.ltb_lt in A.
    destruct (M3 d eq_refl Hn) as [X|X]; [lia | exact X].
Qed.

Lemma quiet_without_speedDrop e w :
  isLocationChange e = false ->
  speedDropDetected w = None ->
  let w' := exec (handle e) w in
  speedDropDetected w' = None
  /\ compoundAlerts (effects w') = compoundAlerts (effects w)
  /\ dispatched (effects w') = dispatched (effects w).
Proof.
  intros He Hs. cbn zeta.
  assert (M : forall v, speedDropDetected (motionPass v w) = None
                        /\ compoundAlerts (effects (motionPass v w)) = compoundAlerts (effects w)
                        /\ dispatched (effects (motionPass v w)) = dispatched (effects w)).
  { intros v. destruct (motionPass_outcome v w) as [(Q1 & Q2 & _)|(_ & N & _)].
    - rewrite Q1, Q2. repeat split; try reflexivity. assumption.
    - congruence. }
  destruct e as [loc|v|motion|outcome]; cbn [handle]; try discriminate.
  - rewrite handleAccelerometer_eq. apply M.
  - rewrite handleDeviceMotion_eq. destruct (motionVector motion) as [v|].
    + apply M.
    + cbn. repeat split; try reflexivity. assumption.
  - destruct outcome; cbn; repeat split; try assumption; try reflexivity.
    + unfold compoundAlerts. rewrite filter_app. cbn. apply app_nil_r.
    + unfold dispatched. rewrite filter_app. cbn. apply app_nil_r.
Qed.

Lemma quiet_without_motion e w :
  isMotionSample e = false ->
  highAccelerationDetected w = None ->
  highTiltDetected w = None ->
  let w' := exec (handle e) w in
  highAccelerationDetected w' = None
  /\ highTiltDetected w' = None
  /\ compoundAlerts (effects w') = compoundAlerts (effects w)
  /\ dispatched (effects w') = dispatched (effects w).
Proof.
  intros He Ha Ht. cbn zeta.
  destruct e as [loc|v|motion|outcome]; cbn [handle]; try discriminate.
  - unfold handleLocationChange.
    destruct (locationPass_outcome (speedKmhOf loc) loc w) as [(Q1 & Q2 & Q3 & _)|(_ & N & _)].
    + rewrite Q1, Q2, Q3. repeat split; try reflexivity; assumption.
    + congruence.
  - destruct outcome; cbn; repeat split; try assumption; try reflexivity.
    + unfold compoundAlerts. rewrite filter_app. cbn. apply app_nil_r.
    + unfold dispatched. rewrite filter_app. cbn. apply app_nil_r.
Qed.

Lemma run_without_location events w :
  Forall (fun e => isLocationChange e = false) events ->
  speedDropDetected w = None ->
  let w' := run events w in
  speedDropDetected w' = None
  /\ compoundAlerts (effects w') = compoundAlerts (effects w)
  /\ dispatched (effects w') = dispatched (effects w).
Proof.
  revert w. induction events as [|e events IH]; intros w F Hs; cbn zeta.
  - cbn. repeat split; try reflexivity. assumption.
  - inversion F as [|? ? He F']; subst.
    destruct (quiet_without_speedDrop e w He Hs) as (Q1 & Q2 & Q3).
    unfold run in *. cbn [fold_left].
    destruct (IH (exec (handle e) w) F' Q1) as (I1 & I2 & I3).
    rewrite I2, I3, Q2, Q3. repeat split; try reflexivity. assumption.
Qed.

Lemma run_without_motion events w :
  Forall (fun e => isMotionSample e = false) events ->
  highAccelerationDetected w = None ->
  highTiltDetected w = None ->
  let w' := run events w in
  highAccelerationDetected w' = None
  /\ highTiltDetected w' = None
  /\ compoundAlerts (effects w') = compoundAlerts (effects w)
  /\ dispatched (effects w') = dispatched (effects w).
Proof.
  revert w. induction events as [|e events IH]; intros w F Ha Ht; cbn zeta.
  - cbn. repeat split; try reflexivity; assumption.
  - inversion F as [|? ? He F']; subst.
    destruct (quiet_without_motion e w He Ha Ht) as (Q1 & Q2 & Q3 & Q4).
    unfold run in *. cbn [fold_left].
    destruct (IH (exec (handle e) w) F' Q1 Q2) as (I1 & I2 & I3 & I4).
    rewrite I3, I4, Q3, Q4. repeat split; try reflexivity; assumption.
Qed.

(** X3: no alert without all three detectors fed.  Along a sequence of
    events without location samples, started with the speed-drop flag empty,
    no alert is raised and the flag stays empty; likewise along a sequence
    without motion samples, started with the two motion flags empty. *)
Theorem no_alert_without_all_sensors :
  (forall events w,
      Forall (fun e => isLocationChange e = false) events ->
      speedDropDetected w = None ->
      let w' := run events w in
      speedDropDetected w' = None
      /\ compoundAlerts (effects w') = compoundAlerts (effects w)
      /\ dispatched (effects w') = dispatched (effects w))
  /\ (forall events w,
        Forall (fun e => isMotionSample e = false) events ->
        highAccelerationDetected w = None ->
        highTiltDetected w = None ->
        let w' := run events w in
        highAccelerationDetected w' = None
        /\ highTiltDetected w' = None
        /\ compoundAlerts (effects w') = compoundAlerts (effects w)
        /\ dispatched (effects w') = dispatched (effects w)).
Proof. split; [exact run_without_location | exact run_without_motion]. Qed.

(** ** The two streams keep to their own state *)

Lemma lastSpeed_checkCombinedConditions :
  preserves (unchanged lastSpeed) checkCombinedConditions.
Proof. intros w. apply (checkCombinedConditions_frame w). Qed.

Lemma lastLocationTimestamp_checkCombinedConditions :
  preserves (unchanged lastLocationTimestamp) checkCombinedConditions.
Proof. intros w. apply (checkCombinedConditions_frame w). Qed.

Lemma lastKnownCoordinates_checkCombinedConditions :
  preserves (unchanged lastKnownCoordinates) checkCombinedConditions.
Proof. intros w. apply (checkCombinedConditions_frame w). Qed.

Lemma location_state_kept_by_motion {B} (f : World -> B) e :
  preserves (unchanged f) checkCombinedConditions ->
  (forall v w, f (set_accelPeakTimestamp v w) = f w) ->
  (forall v w, f (set_highAccelerationDetected v w) = f w) ->
  (forall v w, f (set_highTiltDetected v w) = f w) ->
  (forall v w, f (set_display v w) = f w) ->
  (forall v w, f (set_ticks v w) = f w) ->
  (forall v w, f (set_effects v w) = f w) ->
  isLocationChange e = false ->
  preserves (unchanged f) (handle e).
Proof.
  intros Hc H1 H2 H3 H4 H5 H6 He.
  assert (Hblock1 : forall now g, preserves (unchanged f) (highAccelerationBlock now g)).
  { intros now g. unfold highAccelerationBlock.
    preserve_steps (@unchanged_refl _ f) (@unchanged_trans _ f);
      try exact Hc; intros w; unfold unchanged, modify; cbn [snd]; auto. }
  assert (Hblock2 : forall now t, preserves (unchanged f) (highTiltBlock now t)).
  { intros now t. unfold highTiltBlock.
    preserve_steps (@unchanged_refl _ f) (@unchanged_trans _ f);
      try exact Hc; intros w; unfold unchanged, modify; cbn [snd]; auto. }
  destruct e as [loc|v|motion|outcome]; cbn [handle]; try discriminate.
  - unfold handleAccelerometer.
    preserve_steps (@unchanged_refl _ f) (@unchanged_trans _ f);
      try apply Hblock1; try apply Hblock2;
      intros w; unfold unchanged, modify, Date_now,
        setCurrentAccelerationMagnitude, setCurrentTiltDegrees; cbn [snd]; auto.
  - unfold handleDeviceMotion.
    preserve_steps (@unchanged_refl _ f) (@unchanged_trans _ f);
      try apply Hblock1; try apply Hblock2;
      intros w; unfold unchanged, modify, Date_now,
        setCurrentAccelerationMagnitude, setCurrentTiltDegrees; cbn [snd]; auto.
  - destruct outcome; intros w; unfold unchanged; cbn; auto.
Qed.

(** X4: the two sample streams keep to their own state.  An event that is
    not a location sample leaves the previous speed, the previous location
    time and the last known coordinates as they are.  A location sample
    leaves the arming time of the high-acceleration detector as it is, and
    the two motion flags too unless it raises an alert, which empties them. *)
Theorem streams_keep_to_their_state e w :
  let w' := exec (handle e) w in
  (isLocationChange e = false ->
   lastSpeed w' = lastSpeed w
   /\ lastLocationTimestamp w' = lastLocationTimestamp w
   /\ lastKnownCoordinates w' = lastKnownCoordinates w)
  /\ (isLocationChange e = true ->
      accelPeakTimestamp w' = accelPeakTimestamp w
      /\ ((highAccelerationDetected w' = highAccelerationDetected w
           /\ highTiltDetected w' = highTiltDetected w
           /\ effects w' = effects w)
          \/ (highAccelerationDetected w' = None
              /\ highTiltDetected w' = None
              /\ List.length (compoundAlerts (effects w'))
                 = S (List.length (compoundAlerts (effects w)))))).
Proof.
  cbn zeta. split.
  - intros He. repeat split.
    + apply (location_state_kept_by_motion lastSpeed e
               lastSpeed_checkCombinedConditions); auto.
    + apply (location_state_kept_by_motion lastLocationTimestamp e
               lastLocationTimestamp_checkCombinedConditions); auto.
    + apply (location_state_kept_by_motion lastKnownCoordinates e
               lastKnownCoordinates_checkCombinedConditions); auto.
  - intros He. destruct e as [loc|v|motion|outcome]; try discriminate. cbn [handle].
    split; [apply (accelPeak_handleLocationChange loc w)|].
    unfold handleLocationChange.
    destruct (locationPass_outcome (speedKmhOf loc) loc w)
      as [(Q1 & Q2 & Q3 & _)|(((new & E & S) & _ & F2 & F3) & _)].
    + left. repeat split; assumption.
    + right. repeat split; try assumption.
      rewrite E, length_compoundAlerts_app, (compoundAlerts_alertEffects new S). lia.
Qed.

(** ** Detections and messages are over the thresholds *)

Lemma thresholdsMet_kept w w' :
  (speedDropDetected w' = speedDropDetected w \/ speedDropDetected w' = None) ->
  (highAccelerationDetected w' = highAccelerationDetected w
   \/ highAccelerationDetected w' = None) ->
  (highTiltDetected w' = highTiltDetected w \/ highTiltDetected w' = None) ->
  effects w' = effects w ->
  thresholdsMet w -> thresholdsMet w'.
Proof.
  intros [Es|Es] [Ea|Ea] [Et|Et] Ee (Is & Ia & It & Ie);
    unfold thresholdsMet; rewrite Es, Ea, Et, Ee;
    (split; [|split; [|split]]); try assumption;
    intros x Hx; try discriminate;
    first [apply (Is x Hx) | apply (Ia x Hx) | apply (It x Hx)].
Qed.

Lemma thresholdsMet_checkCombinedConditions w :
  thresholdsMet w -> thresholdsMet (exec checkCombinedConditions w).
Proof.
  intros I. destruct (allActive (clock (ticks w)) w) eqn:A.
  - rewrite checkCombinedConditions_fires by assumption.
    destruct I as (Is & Ia & It & Ie).
    apply allActive_true in A.
    destruct A as (sd & ha & ht & Hsd & _ & Hha & _ & Hht & _).
    destruct (gateClosed (tick w)) eqn:G.
    + rewrite triggerAlert_closed by assumption.
      unfold thresholdsMet. cbn.
      split; [intros d Hd; discriminate|].
      split; [intros d Hd; discriminate|].
      split; [intros d Hd; discriminate|].
      apply Forall_app. split; [assumption|]. constructor; [exact Logic.I | constructor].
    + rewrite triggerAlert_open by assumption.
      unfold thresholdsMet. cbn. rewrite Hsd, Hha, Hht. cbn.
      assert (O : ge (sd_value sd) SPEED_DROP_THRESHOLD_KMH = true
                  /\ ge (ha_magnitude ha) ACCEL_MAGNITUDE_THRESHOLD_G = true
                  /\ ge (ht_tilt ht) TILT_DANGER_THRESHOLD_DEG = true).
      { repeat split; [apply (Is sd Hsd) | apply (Ia ha Hha) | apply (It ht Hht)]. }
      split; [intros d Hd; discriminate|].
      split; [intros d Hd; discriminate|].
      split; [intros d Hd; discriminate|].
      apply Forall_app. split; [assumption|].
      constructor; [exact O|]. constructor; [exact O|]. constructor; [exact O|].
      constructor.
  - rewrite checkCombinedConditions_idle by assumption.
    apply (thresholdsMet_kept w); auto.
Qed.

Lemma thresholdsMet_highAccelerationBlock now g w :
  thresholdsMet w -> thresholdsMet (exec (highAccelerationBlock now g) w).
Proof.
  intros I. destruct (ge g ACCEL_MAGNITUDE_THRESHOLD_G) eqn:G.
  - destruct (accelPeakTimestamp w) as [p|] eqn:P.
    + destruct (ACCEL_DURATION_THRESHOLD_MS <=? now - p) eqn:D.
      * rewrite (highAccelerationBlock_creates _ _ p) by (try assumption; apply Z.leb_le, D).
        apply thresholdsMet_checkCombinedConditions.
        destruct I as (Is & Ia & It & Ie).
        split; [exact Is|]. split; [|split; [exact It | exact Ie]].
        cbn. intros d [= <-]. cbn. split; [exact G | apply Z.leb_le, D].
      * rewrite (highAccelerationBlock_waits _ _ p) by (try assumption; apply Z.leb_gt, D).
        exact I.
    + rewrite highAccelerationBlock_arms by assumption.
      apply (thresholdsMet_kept w); auto.
  - rewrite highAccelerationBlock_below by assumption. cbn zeta.
    destruct (highAccelerationDetected w) as [d|] eqn:Hd;
      [destruct (_ <? _)|]; apply (thresholdsMet_kept w); cbn; rewrite ?Hd; auto.
Qed.

Lemma thresholdsMet_highTiltBlock now tilt w :
  thresholdsMet w -> thresholdsMet (exec (highTiltBlock now tilt) w).
Proof.
  intros I. destruct (ge tilt TILT_DANGER_THRESHOLD_DEG) eqn:G.
  - rewrite highTiltBlock_creates by assumption.
    apply thresholdsMet_checkCombinedConditions.
    destruct I as (Is & Ia & It & Ie).
    split; [exact Is|]. split; [exact Ia|]. split; [|exact Ie].
    cbn. intros d [= <-]. exact G.
  - rewrite highTiltBlock_below by assumption.
    destruct (highTiltDetected w) as [d|] eqn:Hd;
      [destruct (_ <? _)|]; apply (thresholdsMet_kept w); cbn; rewrite ?Hd; auto.
Qed.

Lemma thresholdsMet_speedDropBlock now speedKmh w :
  thresholdsMet w -> thresholdsMet (exec (speedDropBlock now speedKmh) w).
Proof.
  intros I.
  destruct (lastSpeed w) as [prev|] eqn:Hs;
    [|rewrite speedDropBlock_first by (left; assumption); exact I].
  destruct (lastLocationTimestamp w) as [last|] eqn:Ht;
    [|rewrite speedDropBlock_first by (right; assumption); exact I].
  destruct (speedDropCondition prev last speedKmh now) eqn:C.
  - rewrite (speedDropBlock_creates _ _ prev last) by assumption.
    apply thresholdsMet_checkCombinedConditions.
    apply speedDropCondition_true in C. destruct C as (_ & C & _).
    destruct I as (Is & Ia & It & Ie).
    split; [|split; [exact Ia | split; [exact It | exact Ie]]].
    cbn. intros d [= <-]. exact C.
  - rewrite (speedDropBlock_otherwise _ _ prev last) by assumption.
    destruct (speedDropDetected w) as [d|] eqn:Hd;
      [destruct (_ <? _)|]; apply (thresholdsMet_kept w); cbn; rewrite ?Hd; auto.
Qed.

Lemma thresholdsMet_handle e w : thresholdsMet w -> thresholdsMet (exec (handle e) w).
Proof.
  intros I.
  assert (M : forall v, thresholdsMet (motionPass v w)).
  { intros v. unfold motionPass. cbn zeta.
    apply thresholdsMet_highTiltBlock.
    match goal with
    | |- thresholdsMet (setCurrentTiltDegrees ?t ?x) =>
        apply (thresholdsMet_kept x); auto
    end.
    apply thresholdsMet_highAccelerationBlock.
    apply (thresholdsMet_kept w); auto. }
  destruct e as [loc|v|motion|outcome]; cbn [handle].
  - unfold handleLocationChange. rewrite locationPass_eq. cbn zeta.
    destruct (locationEntry_flags (speedKmhOf loc) loc w) as (Ee & Es & Ea & Et & _).
    match goal with
    | |- thresholdsMet (set_lastLocationTimestamp ?a (set_lastSpeed ?b ?x)) =>
        apply (thresholdsMet_kept x); auto
    end.
    apply thresholdsMet_speedDropBlock.
    apply (thresholdsMet_kept w); auto.
  - rewrite handleAccelerometer_eq. apply M.
  - rewrite handleDeviceMotion_eq. destruct (motionVector motion).
    + apply M.
    + apply (thresholdsMet_kept w); auto.
  - destruct outcome; cbn.
    + exact I.
    + destruct I as (Is & Ia & It & Ie).
      split; [exact Is|]. split; [exact Ia|]. split; [exact It|].
      cbn. apply Forall_app. split; [assumption|]. constructor; [exact Logic.I | constructor].
Qed.

Lemma thresholdsMet_run events w : thresholdsMet w -> thresholdsMet (run events w).
Proof.
  apply (preserves_run (fun a b => thresholdsMet a -> thresholdsMet b)).
  - auto.
  - auto.
  - intros e w1. apply thresholdsMet_handle.
Qed.

(** X5: along every sequence of events from a fresh engine, a detection
    held by a flag is over its threshold (a speed drop of at least 40 km/h,
    at least 3g held for at least 60 ms, a tilt of at least 30 degrees), and
    whatever was sent to the backend is the message of a combined alert that
    shows a value for each of the three detections, each over its
    threshold. *)
Theorem alerts_sent_are_over_thresholds events :
  let w := run events fresh in
  thresholdsMet w
  /\ (forall m lat lon,
         In (FetchSendAlert m lat lon) (effects w) ->
         exists v g t link,
           m = MsgCombined (Some v) (Some g) (Some t) link
           /\ ge v SPEED_DROP_THRESHOLD_KMH = true
           /\ ge g ACCEL_MAGNITUDE_THRESHOLD_G = true
           /\ ge t TILT_DANGER_THRESHOLD_DEG = true).
Proof.
  intros w.
  assert (I : thresholdsMet w).
  { apply thresholdsMet_run.
    split; [intros d Hd; discriminate|].
    split; [intros d Hd; discriminate|].
    split; [intros d Hd; discriminate|]. constructor. }
  split; [exact I|].
  intros m lat lon Hin. destruct I as (_ & _ & _ & Ie).
  rewrite Forall_forall in Ie. specialize (Ie _ Hin). cbn in Ie.
  destruct m as [| | |[v|] [g|] [t|] link]; cbn in Ie; try contradiction.
  exists v, g, t, link. split; [reflexivity | exact Ie].
Qed.

(** ** While the gate stays closed *)

Lemma nothingDispatched_refl from last w : nothingDispatched from last w w.
Proof. intros Hk Hl. repeat split; assumption. Qed.

Lemma nothingDispatched_trans from last a b c :
  nothingDispatched from last a b -> nothingDispatched from last b c ->
  nothingDispatched from last a c.
Proof.
  intros Hab Hbc Hk Hl. destruct (Hab Hk Hl) as (K1 & L1 & D1).
  destruct (Hbc K1 L1) as (K2 & L2 & D2). repeat split; congruence.
Qed.

Lemma nothingDispatched_same from last f :
  (forall w, ticks (f w) = ticks w) ->
  (forall w, lastAlertTimestamp (f w) = lastAlertTimestamp w) ->
  (forall w, effects (f w) = effects w) ->
  preserves (nothingDispatched from last) (modify f).
Proof.
  intros Hk Hl He w Kw Lw. cbn. rewrite Hk, Hl, He. repeat split; assumption.
Qed.

Lemma nothingDispatched_Date_now from last : preserves (nothingDispatched from last) Date_now.
Proof. intros w Kw Lw. cbn. repeat split; try assumption. lia. Qed.

Lemma nothingDispatched_triggerAlert from last type data :
  gateStaysClosed from last ->
  preserves (nothingDispatched from last) (triggerAlert type data).
Proof.
  intros Hg w Kw Lw. fold (exec (triggerAlert type data) w).
  assert (G : gateClosed w = true).
  { apply gateClosed_true. destruct Hg as [Hg|Hg]; [left; exact Hg|].
    right. rewrite Lw. apply Hg. exact Kw. }
  rewrite triggerAlert_closed by assumption. cbn.
  unfold dispatched. rewrite filter_app. cbn. rewrite app_nil_r.
  repeat split; try assumption. lia.
Qed.

Ltac nothingDispatched_steps from last :=
  preserve_steps (nothingDispatched_refl from last) (nothingDispatched_trans from last);
  try apply nothingDispatched_Date_now;
  try (apply nothingDispatched_same; intro; reflexivity).

Lemma nothingDispatched_checkCombinedConditions from last :
  gateStaysClosed from last ->
  preserves (nothingDispatched from last) checkCombinedConditions.
Proof.
  intros Hg. unfold checkCombinedConditions. nothingDispatched_steps from last.
  apply nothingDispatched_triggerAlert. exact Hg.
Qed.

Lemma nothingDispatched_handle from last e :
  gateStaysClosed from last ->
  preserves (nothingDispatched from last) (handle e).
Proof.
  intros Hg. destruct e as [loc|v|motion|outcome]; cbn [handle].
  - unfold handleLocationChange, locationPass, speedDropBlock.
    nothingDispatched_steps from last;
      apply nothingDispatched_checkCombinedConditions; exact Hg.
  - unfold handleAccelerometer, highAccelerationBlock, highTiltBlock.
    nothingDispatched_steps from last;
      apply nothingDispatched_checkCombinedConditions; exact Hg.
  - unfold handleDeviceMotion, highAccelerationBlock, highTiltBlock.
    nothingDispatched_steps from last;
      apply nothingDispatched_checkCombinedConditions; exact Hg.
  - destruct outcome; intros w Kw Lw; cbn; repeat split; try assumption.
    unfold dispatched. rewrite filter_app. cbn. apply app_nil_r.
Qed.

(** X6: nothing is dispatched during the cooldown.  When all clock readings
    from the [from]-th on are less than 10000 ms after the last alert, every
    sequence of events handled from a state past that reading leaves
    [lastAlertTimestamp] where it was and hands nothing to the backend,
    whatever fires.  As [lastAlertTimestamp] starts at 0, this is so for a
    fresh engine as long as its clock reads less than 10000. *)
Theorem closed_gate_dispatches_nothing from last events w :
  (forall k, (from <= k)%nat -> clock k - last < ALERT_COOLDOWN_MS) ->
  (from <= ticks w)%nat ->
  lastAlertTimestamp w = last ->
  let w' := run events w in
  lastAlertTimestamp w' = last
  /\ dispatched (effects w') = dispatched (effects w).
Proof.
  intros Hk Kw Lw w'.
  assert (Hg : gateStaysClosed from last) by (right; exact Hk).
  pose proof (preserves_run (nothingDispatched from last)
                (nothingDispatched_refl from last) (nothingDispatched_trans from last)
                handle events (fun e => nothingDispatched_handle from last e Hg) w) as P.
  destruct (P Kw Lw) as (_ & L & D). split; assumption.
Qed.

(** ** Edge cases of the handlers *)

(** X7: [handleDeviceMotion] handles a measurement exactly as
    [handleAccelerometer] handles its vector, which is
    [accelerationIncludingGravity] when present and [acceleration]
    otherwise.  A measurement with neither only reads the clock: it does not
    disarm the detector and lets no detection expire. *)
Theorem device_motion_as_accelerometer motion w :
  (forall a, accelerationIncludingGravity motion = Some a ->
             exec (handleDeviceMotion motion) w = exec (handleAccelerometer a) w)
  /\ (forall a, accelerationIncludingGravity motion = None ->
                acceleration motion = Some a ->
                exec (handleDeviceMotion motion) w = exec (handleAccelerometer a) w)
  /\ (accelerationIncludingGravity motion = None ->
      acceleration motion = None ->
      exec (handleDeviceMotion motion) w = tick w).
Proof.
  repeat split.
  - intros a Ha. rewrite handleDeviceMotion_eq, handleAccelerometer_eq.
    unfold motionVector. rewrite Ha. reflexivity.
  - intros a Hg Ha. rewrite handleDeviceMotion_eq, handleAccelerometer_eq.
    unfold motionVector. rewrite Hg, Ha. reflexivity.
  - intros Hg Ha. rewrite handleDeviceMotion_eq.
    unfold motionVector. rewrite Hg, Ha. reflexivity.
Qed.

Lemma location_sets_previous loc w :
  let w' := exec (handleLocationChange loc) w in
  lastSpeed w' = Some (speedKmhOf loc)
  /\ lastLocationTimestamp w' = Some (clock (ticks w)).
Proof.
  cbn zeta. unfold handleLocationChange. rewrite locationPass_eq. split; reflexivity.
Qed.

Lemma previous_stays_known events w :
  (exists s t, lastSpeed w = Some s /\ lastLocationTimestamp w = Some t) ->
  exists s t, lastSpeed (run events w) = Some s
              /\ lastLocationTimestamp (run events w) = Some t.
Proof.
  revert w. induction events as [|e events IH]; intros w H; [exact H|].
  unfold run in *. cbn [fold_left]. apply IH.
  destruct (isLocationChange e) eqn:He.
  - destruct e as [loc| | |]; try discriminate. cbn [handle].
    destruct (location_sets_previous loc w) as (E1 & E2). eauto.
  - destruct H as (s & t & Hs & Ht). exists s, t. split.
    + rewrite <- Hs.
      apply (location_state_kept_by_motion lastSpeed e
               lastSpeed_checkCombinedConditions); auto.
    + rewrite <- Ht.
      apply (location_state_kept_by_motion lastLocationTimestamp e
               lastLocationTimestamp_checkCombinedConditions); auto.
Qed.

(** X8: the first location sample only records its speed and time.  With no
    previous speed or time the pass stores no detection, raises no alert,
    leaves the flags, the log and the momentum indicator as they are and
    reads the clock once.  Along a run from a fresh engine this is the case
    of the first location sample only: the previous speed and time are
    unknown exactly as long as no location sample has been handled. *)
Theorem first_location_sample_only_records :
  (forall loc w,
      lastSpeed w = None \/ lastLocationTimestamp w = None ->
      let w' := exec (handleLocationChange loc) w in
      speedDropDetected w' = speedDropDetected w
      /\ highAccelerationDetected w' = highAccelerationDetected w
      /\ highTiltDetected w' = highTiltDetected w
      /\ effects w' = effects w
      /\ momentumChangeDetected (display w') = momentumChangeDetected (display w)
      /\ lastSpeed w' = Some (speedKmhOf loc)
      /\ lastLocationTimestamp w' = Some (clock (ticks w))
      /\ ticks w' = S (ticks w))
  /\ (forall events,
        let w := run events fresh in
        (existsb isLocationChange events = false ->
         lastSpeed w = None /\ lastLocationTimestamp w = None)
        /\ (existsb isLocationChange events = true ->
            exists s t, lastSpeed w = Some s /\ lastLocationTimestamp w = Some t)).
Proof.
  split.
  - intros loc w H. cbn zeta. unfold handleLocationChange. rewrite locationPass_eq. cbn zeta.
    destruct (locationEntry_refs (speedKmhOf loc) loc w) as (Es & Et & _ & _ & Ek).
    destruct (locationEntry_flags (speedKmhOf loc) loc w) as (Ee & Ed & Ea & Eh & _).
    rewrite speedDropBlock_first by (rewrite Es, Et; exact H).
    cbn -[locationEntry speedKmhOf]. rewrite Ed, Ea, Eh, Ee, Ek.
    repeat split; try reflexivity.
    unfold locationEntry, afterCoordinates. destruct (truthy _ && truthy _); reflexivity.
  - intros events. cbn zeta. split.
    + assert (G : forall w, existsb isLocationChange events = false ->
                            lastSpeed (run events w) = lastSpeed w
                            /\ lastLocationTimestamp (run events w)
                               = lastLocationTimestamp w).
      { induction events as [|e events IH]; intros w H; [split; reflexivity|].
        cbn in H. apply orb_false_iff in H. destruct H as [He H].
        unfold run in *. cbn [fold_left].
        destruct (IH (exec (handle e) w) H) as (I1 & I2). rewrite I1, I2. split.
        - apply (location_state_kept_by_motion lastSpeed e
                   lastSpeed_checkCombinedConditions); auto.
        - apply (location_state_kept_by_motion lastLocationTimestamp e
                   lastLocationTimestamp_checkCombinedConditions); auto. }
      intros H. destruct (G fresh H) as (G1 & G2). rewrite G1, G2. split; reflexivity.
    + generalize fresh. induction events as [|e events IH]; intros w H; [discriminate|].
      cbn in H. unfold run in *. cbn [fold_left].
      destruct (isLocationChange e) eqn:He.
      * destruct e as [loc| | |]; try discriminate. cbn [handle].
        apply (previous_stays_known events).
        destruct (location_sets_previous loc w) as (E1 & E2). eauto.
      * apply IH. exact H.
Qed.

Lemma speedKmhOf_falsy loc :
  coords_speed (coords loc) = None
  \/ (exists x, coords_speed (coords loc) = Some x /\ truthy x = false) ->
  speedKmhOf loc = 0%float.
Proof.
  unfold speedKmhOf, or_zero. intros [->|(x & -> & ->)]; reflexivity.
Qed.

(** X9: a location sample without a speed, or with a speed of zero or NaN,
    counts as 0 km/h.  After a previous sample of speed [prev] it therefore
    stores a SpeedDrop detection whenever the 1000 ms gate is passed,
    [prev - 0 >= 40] and [prev > 5]: losing the speed reading at speed looks
    like a sudden stop. *)
Theorem missing_speed_is_standstill loc w prev last :
  coords_speed (coords loc) = None
  \/ (exists x, coords_speed (coords loc) = Some x /\ truthy x = false) ->
  lastSpeed w = Some prev ->
  lastLocationTimestamp w = Some last ->
  let now := clock (ticks w) in
  now - last <= 1000 ->
  ge (prev - 0)%float SPEED_DROP_THRESHOLD_KMH = true ->
  gt prev 5%float = true ->
  let stored :=
    setMomentumChangeDetected true
      (set_speedDropDetected (Some (mkSpeedDrop now (prev - 0)%float))
         (locationEntry 0%float loc w)) in
  speedKmhOf loc = 0%float
  /\ exec (handleLocationChange loc) w
     = set_lastLocationTimestamp (Some now)
         (set_lastSpeed (Some 0%float) (exec checkCombinedConditions stored)).
Proof.
  intros Hf Hs Ht now Hn Hd Hp stored.
  pose proof (speedKmhOf_falsy loc Hf) as Z. split; [exact Z|].
  unfold handleLocationChange. rewrite Z.
  apply (proj1 (speedDrop_stored_iff 0%float loc w prev last Hs Ht)).
  repeat split; assumption.
Qed.

Lemma frame_speedDropBlock {B} (f : World -> B) now speedKmh :
  preserves (unchanged f) checkCombinedConditions ->
  (forall v w, f (set_speedDropDetected v w) = f w) ->
  (forall v w, f (setMomentumChangeDetected v w) = f w) ->
  preserves (unchanged f) (speedDropBlock now speedKmh).
Proof.
  intros Hc H1 H2. unfold speedDropBlock.
  preserve_steps (@unchanged_refl _ f) (@unchanged_trans _ f);
    try exact Hc; intros w; unfold unchanged, modify; cbn [snd]; auto.
Qed.

Lemma display_checkCombinedConditions {B} (f : Display -> B) :
  preserves (unchanged (fun w => f (display w))) checkCombinedConditions.
Proof.
  intros w. unfold unchanged. fold (exec checkCombinedConditions w).
  destruct (checkCombinedConditions_frame w) as (_ & _ & _ & _ & ->). reflexivity.
Qed.

(** X10: a location sample always reaches the screen, but it reaches the
    coordinates kept for the alert only when its latitude and its longitude
    are both truthy: with a latitude or a longitude of 0 (or NaN) the screen
    shows the new position while an alert would still carry the previous
    one. *)
Theorem coordinates_need_truthy_fix loc w :
  let lat := coords_latitude (coords loc) in
  let lon := coords_longitude (coords loc) in
  let w' := exec (handleLocationChange loc) w in
  currentLatitude (display w') = Some lat
  /\ currentLongitude (display w') = Some lon
  /\ currentSpeed (display w') = speedKmhOf loc
  /\ lastKnownCoordinates w'
     = if truthy lat && truthy lon then Some (mkCoordinates lat lon)
       else lastKnownCoordinates w.
Proof.
  cbn zeta. unfold handleLocationChange. rewrite locationPass_eq. cbn zeta.
  set (entry := locationEntry (speedKmhOf loc) loc w).
  set (now := clock (ticks w)).
  change (currentLatitude (display (set_lastLocationTimestamp ?a (set_lastSpeed ?b ?x))))
    with (currentLatitude (display x)).
  change (currentLongitude (display (set_lastLocationTimestamp ?a (set_lastSpeed ?b ?x))))
    with (currentLongitude (display x)).
  change (currentSpeed (display (set_lastLocationTimestamp ?a (set_lastSpeed ?b ?x))))
    with (currentSpeed (display x)).
  change (lastKnownCoordinates (set_lastLocationTimestamp ?a (set_lastSpeed ?b ?x)))
    with (lastKnownCoordinates x).
  pose proof (frame_speedDropBlock (fun w => currentLatitude (display w)) now (speedKmhOf loc)
                (display_checkCombinedConditions currentLatitude)
                (fun _ _ => eq_refl) (fun _ _ => eq_refl) entry) as F1.
  pose proof (frame_speedDropBlock (fun w => currentLongitude (display w)) now (speedKmhOf loc)
                (display_checkCombinedConditions currentLongitude)
                (fun _ _ => eq_refl) (fun _ _ => eq_refl) entry) as F2.
  pose proof (frame_speedDropBlock (fun w => currentSpeed (display w)) now (speedKmhOf loc)
                (display_checkCombinedConditions currentSpeed)
                (fun _ _ => eq_refl) (fun _ _ => eq_refl) entry) as F3.
  pose proof (frame_speedDropBlock lastKnownCoordinates now (speedKmhOf loc)
                lastKnownCoordinates_checkCombinedConditions
                (fun _ _ => eq_refl) (fun _ _ => eq_refl) entry) as F4.
  unfold unchanged in F1, F2, F3, F4. unfold exec.
  rewrite F1, F2, F3, F4.
  unfold entry, locationEntry, afterCoordinates.
  destruct (truthy _ && truthy _); cbn; repeat split; reflexivity.
Qed.

(** X11: the momentum line follows the latest location sample only.  After
    a location sample that has a predecessor, the indicator is on exactly
    when this very sample is a speed drop, so that the next sample turns it
    off again.  When it is on, the line shows the momentum of the detection
    just stored, except when the sample raised the alert: the flag is then
    empty and the line shows 'N/A'. *)
Theorem momentum_line_follows_latest_sample loc w prev last :
  lastSpeed w = Some prev ->
  lastLocationTimestamp w = Some last ->
  let now := clock (ticks w) in
  let speedKmh := speedKmhOf loc in
  let isDrop := speedDropCondition prev last speedKmh now in
  let stored :=
    setMomentumChangeDetected true
      (set_speedDropDetected (Some (mkSpeedDrop now (prev - speedKmh)%float))
         (locationEntry speedKmh loc w)) in
  let w' := exec (handleLocationChange loc) w in
  momentumChangeDetected (display w') = isDrop
  /\ (isDrop = false -> momentumLine w' = None)
  /\ (isDrop = true ->
      momentumLine w'
      = Some (if allActive (clock (ticks stored)) stored then None
              else Some (VEHICLE_MASS_KG
                         * ((prev - speedKmh) / KMH_PER_METRE_PER_SECOND))%float)).
Proof.
  intros Hs Ht now speedKmh isDrop stored w'.
  destruct (locationEntry_refs speedKmh loc w) as (Es & Et & _ & _ & _).
  assert (D : momentumChangeDetected (display w') = isDrop
              /\ (isDrop = true ->
                  speedDropDetected w'
                  = if allActive (clock (ticks stored)) stored then None
                    else Some (mkSpeedDrop now (prev - speedKmh)%float))).
  { unfold w', handleLocationChange. rewrite locationPass_eq. cbn zeta.
    fold speedKmh now. destruct isDrop eqn:C.
    - rewrite (speedDropBlock_creates _ _ prev last) by first [exact C | congruence].
      fold stored.
      destruct (allActive (clock (ticks stored)) stored) eqn:A.
      + destruct (checkCombinedConditions_fired stored A) as (F1 & _).
        destruct (checkCombinedConditions_frame stored) as (_ & _ & _ & _ & Fd).
        cbn. rewrite Fd, F1. split; [reflexivity | intros _; reflexivity].
      + rewrite checkCombinedConditions_idle by assumption.
        split; [reflexivity | intros _; reflexivity].
    - rewrite (speedDropBlock_otherwise _ _ prev last) by first [exact C | congruence].
      split; [reflexivity | discriminate]. }
  destruct D as (D1 & D2). split; [exact D1|]. unfold momentumLine. rewrite D1. split.
  - intros ->. reflexivity.
  - intros E. rewrite E. rewrite (D2 E).
    destruct (allActive (clock (ticks stored)) stored); reflexivity.
Qed.

End Engine.

(** * Two engines fed the same samples *)

Lemma agree_shrink c1 c2 lo n lo' n' :
  agree c1 c2 lo n -> (lo <= lo')%nat -> (lo' + n' <= lo + n)%nat -> agree c1 c2 lo' n'.
Proof. intros H ? ? k Hk. apply H. lia. Qed.

Section Replay.

Variable Math_atan2 : float -> float -> float.
Variables c1 c2 : nat -> Z.
Variable alertsEnabled : bool.

Lemma triggerAlert_agree type data w :
  agree c1 c2 (ticks w) 1 ->
  exec (triggerAlert c1 alertsEnabled type data) w
  = exec (triggerAlert c2 alertsEnabled type data) w.
Proof.
  intros H. assert (E : c1 (ticks w) = c2 (ticks w)) by (apply H; lia).
  unfold triggerAlert, exec, bind, Date_now, gets. cbn. rewrite E. reflexivity.
Qed.

Lemma checkCombinedConditions_agree w :
  agree c1 c2 (ticks w) 2 ->
  exec (checkCombinedConditions c1 alertsEnabled) w
  = exec (checkCombinedConditions c2 alertsEnabled) w.
Proof.
  intros H. assert (E : c1 (ticks w) = c2 (ticks w)) by (apply H; lia).
  destruct (allActive (c1 (ticks w)) w) eqn:A.
  - rewrite (checkCombinedConditions_fires c1) by assumption.
    rewrite (checkCombinedConditions_fires c2) by (rewrite <- E; assumption).
    rewrite triggerAlert_agree; [reflexivity|].
    apply (agree_shrink _ _ _ _ _ _ H); cbn; lia.
  - rewrite (checkCombinedConditions_idle c1) by assumption.
    rewrite (checkCombinedConditions_idle c2) by (rewrite <- E; assumption).
    reflexivity.
Qed.

Lemma highAccelerationBlock_agree now g w :
  agree c1 c2 (ticks w) 2 ->
  exec (highAccelerationBlock c1 alertsEnabled now g) w
  = exec (highAccelerationBlock c2 alertsEnabled now g) w.
Proof.
  intros H. destruct (ge g ACCEL_MAGNITUDE_THRESHOLD_G) eqn:G.
  - destruct (accelPeakTimestamp w) as [p|] eqn:P.
    + destruct (ACCEL_DURATION_THRESHOLD_MS <=? now - p) eqn:D.
      * rewrite !(highAccelerationBlock_creates _ _ _ _ p)
          by (try assumption; apply Z.leb_le, D).
        apply checkCombinedConditions_agree. exact H.
      * rewrite !(highAccelerationBlock_waits _ _ _ _ p)
          by (try assumption; apply Z.leb_gt, D).
        reflexivity.
    + rewrite !highAccelerationBlock_arms by assumption. reflexivity.
  - rewrite !highAccelerationBlock_below by assumption. reflexivity.
Qed.

Lemma highTiltBlock_agree now tilt w :
  agree c1 c2 (ticks w) 2 ->
  exec (highTiltBlock c1 alertsEnabled now tilt) w
  = exec (highTiltBlock c2 alertsEnabled now tilt) w.
Proof.
  intros H. destruct (ge tilt TILT_DANGER_THRESHOLD_DEG) eqn:G.
  - rewrite !highTiltBlock_creates by assumption.
    apply checkCombinedConditions_agree. exact H.
  - rewrite !highTiltBlock_below by assumption. reflexivity.
Qed.

Lemma speedDropBlock_agree now speedKmh w :
  agree c1 c2 (ticks w) 2 ->
  exec (speedDropBlock c1 alertsEnabled now speedKmh) w
  = exec (speedDropBlock c2 alertsEnabled now speedKmh) w.
Proof.
  intros H.
  destruct (lastSpeed w) as [prev|] eqn:Hs;
    [|rewrite !speedDropBlock_first by (left; assumption); reflexivity].
  destruct (lastLocationTimestamp w) as [last|] eqn:Ht;
    [|rewrite !speedDropBlock_first by (right; assumption); reflexivity].
  destruct (speedDropCondition prev last speedKmh now) eqn:C.
  - rewrite !(speedDropBlock_creates _ _ _ _ prev last) by assumption.
    apply checkCombinedConditions_agree. exact H.
  - rewrite !(speedDropBlock_otherwise _ _ _ _ prev last) by assumption. reflexivity.
Qed.

Lemma motionPass_agree v w :
  agree c1 c2 (ticks w) 5 ->
  motionPass Math_atan2 c1 alertsEnabled v w = motionPass Math_atan2 c2 alertsEnabled v w.
Proof.
  intros H. assert (E : c1 (ticks w) = c2 (ticks w)) by (apply H; lia).
  unfold motionPass. cbn zeta. rewrite <- E.
  rewrite <- (highAccelerationBlock_agree (c1 (ticks w)) (magnitudeOf v) (motionEntry v w))
    by (apply (agree_shrink _ _ _ _ _ _ H); cbn; lia).
  apply highTiltBlock_agree.
  pose proof (ticks_highAccelerationBlock c1 alertsEnabled (c1 (ticks w)) (magnitudeOf v)
                (motionEntry v w)) as T.
  change (ticks (motionEntry v w)) with (S (ticks w)) in T.
  apply (agree_shrink _ _ _ _ _ _ H);
    change (ticks (setCurrentTiltDegrees ?t ?x)) with (ticks x); lia.
Qed.

Lemma handle_agree e w :
  agree c1 c2 (ticks w) 5 ->
  exec (handle Math_atan2 c1 alertsEnabled e) w
  = exec (handle Math_atan2 c2 alertsEnabled e) w.
Proof.
  intros H. assert (E : c1 (ticks w) = c2 (ticks w)) by (apply H; lia).
  destruct e as [loc|v|motion|outcome]; cbn [handle].
  - unfold handleLocationChange. rewrite !locationPass_eq. cbn zeta. rewrite <- E.
    rewrite (speedDropBlock_agree (c1 (ticks w)) (speedKmhOf loc)
               (locationEntry (speedKmhOf loc) loc w)); [reflexivity|].
    destruct (locationEntry_refs (speedKmhOf loc) loc w) as (_ & _ & _ & _ & Ek).
    apply (agree_shrink _ _ _ _ _ _ H); rewrite Ek; lia.
  - rewrite !handleAccelerometer_eq. apply motionPass_agree. exact H.
  - rewrite !handleDeviceMotion_eq. destruct (motionVector motion).
    + apply motionPass_agree. exact H.
    + reflexivity.
  - reflexivity.
Qed.

Lemma run_agree events w :
  agree c1 c2 (ticks w) (5 * List.length events) ->
  run Math_atan2 c1 alertsEnabled events w = run Math_atan2 c2 alertsEnabled events w.
Proof.
  revert w. induction events as [|e events IH]; intros w H; [reflexivity|].
  unfold run in *. cbn [fold_left].
  rewrite <- (handle_agree e w) by (apply (agree_shrink _ _ _ _ _ _ H); cbn [List.length]; lia).
  apply IH.
  pose proof (ticks_handle Math_atan2 c1 alertsEnabled e w) as T.
  apply (agree_shrink _ _ _ _ _ _ H); cbn [List.length]; lia.
Qed.

(** The handlers do not read the time stamp of a location sample. *)
Lemma handle_eraseTimestamp e w :
  exec (handle Math_atan2 c1 alertsEnabled (eraseTimestamp e)) w
  = exec (handle Math_atan2 c1 alertsEnabled e) w.
Proof. destruct e as [[c t]| | |]; reflexivity. Qed.

Lemma run_eraseTimestamp events events' w :
  map eraseTimestamp events = map eraseTimestamp events' ->
  run Math_atan2 c1 alertsEnabled events w = run Math_atan2 c1 alertsEnabled events' w.
Proof.
  revert events' w. induction events as [|e events IH]; intros [|e' events'] w H;
    try discriminate H; [reflexivity|].
  cbn [map] in H. injection H as He Ht.
  unfold run in *. cbn [fold_left].
  rewrite <- (handle_eraseTimestamp e), He, handle_eraseTimestamp.
  apply IH. exact Ht.
Qed.

End Replay.

(** C9: the alerts follow the samples and the times at which they arrive.
    Two freshly mounted engines that are fed the same sequence of samples
    and read the same times from their clocks while handling them raise the
    same compound alerts, in the same order; indeed they perform the same
    effects and end in the same state.  A pass reads the clock at most five
    times, so the readings that matter are the first [5 * length events].
    The time stamps that the samples carry play no part: the two sequences
    may differ in them. *)
Theorem replay_follows_arrival_times Math_atan2 alertsEnabled (c1 c2 : nat -> Z)
    events1 events2 :
  map eraseTimestamp events1 = map eraseTimestamp events2 ->
  (forall k, (k < 5 * List.length events1)%nat -> c1 k = c2 k) ->
  let w1 := run Math_atan2 c1 alertsEnabled events1 fresh in
  let w2 := run Math_atan2 c2 alertsEnabled events2 fresh in
  compoundAlerts (effects w1) = compoundAlerts (effects w2)
  /\ effects w1 = effects w2
  /\ w1 = w2.
Proof.
  intros He H w1 w2.
  assert (E : w1 = w2).
  { unfold w1, w2.
    rewrite <- (run_eraseTimestamp Math_atan2 c2 alertsEnabled events1 events2 fresh He).
    apply run_agree. intros k Hk. apply H. cbn in Hk. lia. }
  rewrite E. repeat split; reflexivity.
Qed.

(** * Concrete runs *)

(** The whole pipeline on the two episodes: the first is dispatched, the
    second, 3000 ms later, fires and is suppressed. *)
Example two_episodes_run :
  effects (run atan2_axes episodeClock true (firstEpisode ++ secondEpisode) fresh)
  = [ConsoleLogSending combinedMessage54; AlertAccident combinedMessage54;
     FetchSendAlert combinedMessage54 (Some 28.5%float) (Some 77.25%float);
     ConsoleLogSuppressed Combined coordinatesOnly].
Proof. vm_compute. reflexivity. Qed.

(** The handler on the m/s values nearest to 60 and 15 km/h: the products by
    3.6 are rounded, and so is the drop. *)
Example handleLocationChange_60_to_15 :
  let clock := clockOf [0; 500; 500] in
  let w := exec (handleLocationChange clock true (sampleAt 0x1.0aaaaaaaaaaabp+4 0)) fresh in
  let w' := exec (handleLocationChange clock true (sampleAt 0x1.0aaaaaaaaaaabp+2 500)) w in
  lastSpeed w = Some 0x1.e000000000001p+5%float
  /\ speedDropDetected w' = Some (mkSpeedDrop 500 0x1.6800000000001p+5).
Proof. vm_compute. split; reflexivity. Qed.

(** C2: for a location sample handled at [now] after a previous one of speed
    [prev] km/h handled at [last], the pass stores the SpeedDrop detection
    (value [prev - speedKmh], time [now]) and goes on to the correlation
    check exactly when [now - last <= 1000], [prev - speedKmh >= 40] and
    [prev > 5]; unless the check fires, that detection is what the pass
    leaves, and it is active.  Otherwise the flag keeps its detection, or
    loses it when it has expired.  In particular 60 km/h at 0 ms followed by
    15 km/h at 500 ms leaves an active detection of value 45, and the same
    speeds 1500 ms apart leave none. *)
Theorem speedDrop_created_iff :
  (forall clock alertsEnabled speedKmh loc w prev last,
      lastSpeed w = Some prev ->
      lastLocationTimestamp w = Some last ->
      let now := clock (ticks w) in
      let drop := (prev - speedKmh)%float in
      let stored :=
        setMomentumChangeDetected true
          (set_speedDropDetected (Some (mkSpeedDrop now drop))
             (locationEntry speedKmh loc w)) in
      let w' := exec (locationPass clock alertsEnabled speedKmh loc) w in
      ((now - last <= 1000
        /\ ge drop SPEED_DROP_THRESHOLD_KMH = true
        /\ gt prev 5%float = true)
       <-> w' = set_lastLocationTimestamp (Some now)
                  (set_lastSpeed (Some speedKmh)
                     (exec (checkCombinedConditions clock alertsEnabled) stored)))
      /\ (speedDropCondition prev last speedKmh now = true ->
          allActive (clock (ticks stored)) stored = false ->
          speedDropDetected w' = Some (mkSpeedDrop now drop)
          /\ isSpeedDropActive now w' = true)
      /\ (speedDropCondition prev last speedKmh now = false ->
          speedDropDetected w'
          = match speedDropDetected w with
            | Some d =>
                if COMBINED_ALERT_WINDOW_MS <? now - sd_timestamp d then None else Some d
            | None => None
            end))
  /\ (let clock := clockOf [0; 500; 500] in
      let w := exec (locationPass clock true 15 (sampleAt 0x1.0aaaaaaaaaaabp+2 500))
                 (exec (locationPass clock true 60 (sampleAt 0x1.0aaaaaaaaaaabp+4 0)) fresh) in
      speedDropDetected w = Some (mkSpeedDrop 500 45)
      /\ isSpeedDropActive 500 w = true)
  /\ (let clock := clockOf [0; 1500; 1500] in
      let w := exec (locationPass clock true 15 (sampleAt 0x1.0aaaaaaaaaaabp+2 1500))
                 (exec (locationPass clock true 60 (sampleAt 0x1.0aaaaaaaaaaabp+4 0)) fresh) in
      speedDropDetected w = None
      /\ isSpeedDropActive 1500 w = false).
Proof.
  split; [exact speedDrop_stored_iff|].
  split; vm_compute; split; reflexivity.
Qed.

(** ** The theorems at concrete inputs *)

Ltac by_evaluation := vm_compute; first [reflexivity | discriminate | (intros ?; discriminate)].

(** The state in which the correlation check of the first episode runs: the
    second jolt has just stored its detection. *)
Lemma correlation_fires_once_and_clears_witness :
  let w := set_highAccelerationDetected (Some (mkHighAcceleration (T0 + 700) 3.5 100))
             (motionEntry jolt
                (run atan2_axes episodeClock true (firstn 3 firstEpisode) fresh)) in
  let sd := mkSpeedDrop (T0 + 500) 54 in
  let ha := mkHighAcceleration (T0 + 700) 3.5 100 in
  let ht := mkHighTilt (T0 + 600) 90 in
  let w' := exec (checkCombinedConditions episodeClock true) w in
  (speedDropDetected w = Some sd
   /\ highAccelerationDetected w = Some ha
   /\ highTiltDetected w = Some ht
   /\ gateClosed episodeClock true (tick w) = false)
  /\ effects w' = [ConsoleLogSending combinedMessage54; AlertAccident combinedMessage54;
                   FetchSendAlert combinedMessage54 (Some 28.5%float) (Some 77.25%float)]
  /\ showsValues 54 3.5 90
       (FetchSendAlert combinedMessage54 (Some 28.5%float) (Some 77.25%float))
  /\ highTiltDetected w' = None.
Proof.
  intros w sd ha ht w'.
  assert (H1 : speedDropDetected w = Some sd) by by_evaluation.
  assert (H2 : episodeClock (ticks w) - sd_timestamp sd < COMBINED_ALERT_WINDOW_MS)
    by by_evaluation.
  assert (H3 : highAccelerationDetected w = Some ha) by by_evaluation.
  assert (H4 : episodeClock (ticks w) - ha_timestamp ha < COMBINED_ALERT_WINDOW_MS)
    by by_evaluation.
  assert (H5 : highTiltDetected w = Some ht) by by_evaluation.
  assert (H6 : episodeClock (ticks w) - ht_timestamp ht < COMBINED_ALERT_WINDOW_MS)
    by by_evaluation.
  assert (G : gateClosed episodeClock true (tick w) = false) by by_evaluation.
  pose proof (correlation_fires_once_and_clears episodeClock true w sd ha ht
                H1 H2 H3 H4 H5 H6) as C.
  cbv zeta in C. destruct C as (_ & _ & Copen & _ & _ & _ & C7 & _).
  destruct (Copen G) as (C4 & _ & C6).
  split; [repeat split; assumption|]. split; [|split; [exact C6 | exact C7]].
  unfold w'. rewrite C4. by_evaluation.
Defined.

(** C1, as stated, fails in a state whose alert is suppressed.  This is the
    state in which the last correlation check of the second episode runs,
    3000 ms after the alert of the first: the three detections are active,
    the check raises its one alert, and that alert is the console line with
    the coordinates, which shows none of the three values. *)
Lemma suppressed_alert_counterexample :
  let before := run atan2_axes episodeClock true (firstEpisode ++ firstn 2 secondEpisode) fresh in
  let w := set_highTiltDetected (Some (mkHighTilt (T0 + 3700) 90))
             (setCurrentTiltDegrees 90
                (exec (highAccelerationBlock episodeClock true (T0 + 3700) 3.5)
                   (motionEntry jolt before))) in
  let sd := mkSpeedDrop (T0 + 3500) 54 in
  let ha := mkHighAcceleration (T0 + 3700) 3.5 3100 in
  let ht := mkHighTilt (T0 + 3700) 90 in
  let w' := exec (checkCombinedConditions episodeClock true) w in
  (speedDropDetected w = Some sd
   /\ highAccelerationDetected w = Some ha
   /\ highTiltDetected w = Some ht
   /\ episodeClock (ticks w) = T0 + 3700
   /\ lastAlertTimestamp w = T0 + 700
   /\ exec (handle atan2_axes episodeClock true (AccelerometerUpdate jolt)) before = w'
   /\ effects w' = effects w ++ [ConsoleLogSuppressed Combined coordinatesOnly]
   /\ compoundAlerts (effects w')
      = compoundAlerts (effects w) ++ [ConsoleLogSuppressed Combined coordinatesOnly])
  /\ ~ showsValues 54 3.5 90 (ConsoleLogSuppressed Combined coordinatesOnly)
  /\ ~ (forall clock alertsEnabled w sd ha ht,
          speedDropDetected w = Some sd ->
          clock (ticks w) - sd_timestamp sd < COMBINED_ALERT_WINDOW_MS ->
          highAccelerationDetected w = Some ha ->
          clock (ticks w) - ha_timestamp ha < COMBINED_ALERT_WINDOW_MS ->
          highTiltDetected w = Some ht ->
          clock (ticks w) - ht_timestamp ht < COMBINED_ALERT_WINDOW_MS ->
          exists alert,
            compoundAlerts (effects (exec (checkCombinedConditions clock alertsEnabled) w))
            = compoundAlerts (effects w) ++ [alert]
            /\ showsValues (sd_value sd) (ha_magnitude ha) (ht_tilt ht) alert).
Proof.
  intros before w sd ha ht w'.
  assert (F : speedDropDetected w = Some sd
              /\ highAccelerationDetected w = Some ha
              /\ highTiltDetected w = Some ht
              /\ episodeClock (ticks w) = T0 + 3700
              /\ lastAlertTimestamp w = T0 + 700
              /\ exec (handle atan2_axes episodeClock true (AccelerometerUpdate jolt)) before
                 = w'
              /\ effects w' = effects w ++ [ConsoleLogSuppressed Combined coordinatesOnly]
              /\ compoundAlerts (effects w')
                 = compoundAlerts (effects w)
                     ++ [ConsoleLogSuppressed Combined coordinatesOnly]).
  { do 7 (split; [by_evaluation|]). by_evaluation. }
  assert (N : ~ showsValues 54 3.5 90 (ConsoleLogSuppressed Combined coordinatesOnly)).
  { intros (d & Hd & Hv & _). injection Hd as <-. discriminate Hv. }
  split; [exact F|]. split; [exact N|].
  intros H.
  destruct F as (F1 & F2 & F3 & F4 & _ & _ & _ & F8).
  destruct (H episodeClock true w sd ha ht) as (alert & Ha & Hs);
    try assumption; try (rewrite F4; by_evaluation).
  fold w' in Ha. rewrite F8 in Ha. apply app_inv_head in Ha.
  injection Ha as <-. exact (N Hs).
Qed.

Lemma speedDrop_created_iff_witness :
  let clock := clockOf [0; 500; 500] in
  let w := exec (locationPass clock true 60 (sampleAt 0x1.0aaaaaaaaaaabp+4 0)) fresh in
  (lastSpeed w = Some 60%float /\ lastLocationTimestamp w = Some 0)
  /\ (500 - 0 <= 1000
      /\ ge (60 - 15)%float SPEED_DROP_THRESHOLD_KMH = true
      /\ gt 60%float 5%float = true)
  /\ speedDropDetected
       (exec (locationPass clock true 15 (sampleAt 0x1.0aaaaaaaaaaabp+2 500)) w)
     = Some (mkSpeedDrop 500 45).
Proof.
  intros clock w.
  assert (H1 : lastSpeed w = Some 60%float) by by_evaluation.
  assert (H2 : lastLocationTimestamp w = Some 0) by by_evaluation.
  pose proof (proj1 speedDrop_created_iff clock true 15%float
                (sampleAt 0x1.0aaaaaaaaaaabp+2 500) w 60%float 0 H1 H2) as C.
  cbv zeta in C. destruct C as (C1 & _ & _).
  assert (H3 : 500 - 0 <= 1000
               /\ ge (60 - 15)%float SPEED_DROP_THRESHOLD_KMH = true
               /\ gt 60%float 5%float = true)
    by (repeat split; by_evaluation).
  split; [split; assumption|]. split; [exact H3|].
  rewrite (proj1 C1 H3). by_evaluation.
Defined.

(** The second jolt of the first episode: the detector was armed 100 ms
    earlier, by the first jolt. *)
Lemma highAcceleration_needs_sustained_peak_witness :
  let events := firstn 3 firstEpisode in
  let e := AccelerometerUpdate jolt in
  let w := run atan2_axes episodeClock true events fresh in
  (accelPeakTimestamp fresh = None /\ eventVector e = Some jolt)
  /\ accelPeakTimestamp w = Some (T0 + 600)
  /\ heldSince atan2_axes episodeClock true (T0 + 600) fresh events
  /\ exec (highAccelerationBlock episodeClock true (T0 + 700) 3.5) (motionEntry jolt w)
     = exec (checkCombinedConditions episodeClock true)
         (set_highAccelerationDetected (Some (mkHighAcceleration (T0 + 700) 3.5 100))
            (motionEntry jolt w)).
Proof.
  intros events e w.
  assert (H1 : accelPeakTimestamp fresh = None) by reflexivity.
  assert (H2 : eventVector e = Some jolt) by reflexivity.
  pose proof (highAcceleration_needs_sustained_peak atan2_axes episodeClock true
                fresh events e jolt H1 H2) as C.
  cbv zeta in C. destruct C as (_ & _ & C3).
  assert (G : ge (magnitudeOf jolt) ACCEL_MAGNITUDE_THRESHOLD_G = true) by by_evaluation.
  specialize (C3 G).
  assert (P : accelPeakTimestamp w = Some (T0 + 600)) by by_evaluation.
  fold w in C3. rewrite P in C3. destruct C3 as (C31 & _ & C33).
  split; [split; assumption|]. split; [exact P|]. split; [exact C31|].
  assert (D : ACCEL_DURATION_THRESHOLD_MS <= episodeClock (ticks w) - (T0 + 600))
    by by_evaluation.
  exact (C33 D).
Defined.

Lemma highTilt_immediate_witness :
  let clock := clockOf [T0] in
  let w' := exec (handleAccelerometer atan2_axes clock true jolt) fresh in
  ge (tiltOf atan2_axes jolt) TILT_DANGER_THRESHOLD_DEG = true
  /\ highTiltDetected w' = Some (mkHighTilt T0 90)
  /\ isHighTiltActive T0 w' = true.
Proof.
  intros clock w'.
  assert (H1 : ge (tiltOf atan2_axes jolt) TILT_DANGER_THRESHOLD_DEG = true) by by_evaluation.
  pose proof (highTilt_immediate atan2_axes clock true jolt fresh H1) as C.
  cbv zeta in C. destruct C as (_ & _ & _ & C4 & _).
  split; [exact H1|].
  match type of C4 with ?A -> _ => assert (HA : A) by by_evaluation end.
  exact (C4 HA).
Defined.

Lemma isActive_iff_present_and_recent_witness :
  let w := run atan2_axes episodeClock true (firstn 2 firstEpisode) fresh in
  let d := mkSpeedDrop (T0 + 500) 54 in
  (speedDropDetected w = Some d
   /\ 2000 <= (T0 + 2500) - sd_timestamp d
   /\ isSpeedDropActive (T0 + 2500) w = false)
  /\ (isSpeedDropActive (T0 + 600) w = true ->
      exists d', speedDropDetected w = Some d' /\ 0 <= T0 + 600 - sd_timestamp d' < 2000).
Proof.
  intros w d.
  pose proof (isActive_iff_present_and_recent atan2_axes episodeClock true) as [C1 C2].
  assert (H1 : speedDropDetected w = Some d) by by_evaluation.
  assert (H2 : 2000 <= (T0 + 2500) - sd_timestamp d) by by_evaluation.
  destruct (C1 (T0 + 2500) w) as (_ & _ & _ & C14 & _).
  split; [repeat split; try assumption; exact (C14 d H1 H2)|].
  assert (Hm : monotone episodeClock).
  { intros i j Hij.
    assert (Hi : (i < 16)%nat \/ (16 <= i)%nat) by lia.
    assert (Hj : (j < 16)%nat \/ (16 <= j)%nat) by lia.
    unfold episodeClock, clockOf.
    destruct Hi as [Hi|Hi]; destruct Hj as [Hj|Hj].
    - do 16 (destruct i as [|i]; [do 16 (destruct j as [|j]; [by_evaluation || lia|]); lia|]).
      lia.
    - rewrite (nth_overflow _ _ (n:=j)) by (cbn; lia).
      do 16 (destruct i as [|i]; [by_evaluation|]). lia.
    - lia.
    - rewrite !nth_overflow by (cbn; lia). lia. }
  assert (Hn : (ticks w <= 3)%nat) by by_evaluation.
  exact (proj1 (C2 Hm (firstn 2 firstEpisode) 3%nat Hn)).
Defined.

(** The two correlation checks of the two episodes, 3000 ms apart. *)
Lemma cooldown_gate_witness :
  let w1 := set_highAccelerationDetected (Some (mkHighAcceleration (T0 + 700) 3.5 100))
              (motionEntry jolt
                 (run atan2_axes episodeClock true (firstn 3 firstEpisode) fresh)) in
  let before := run atan2_axes episodeClock true (firstEpisode ++ firstn 2 secondEpisode) fresh in
  let w2 := set_highTiltDetected (Some (mkHighTilt (T0 + 3700) 90))
              (setCurrentTiltDegrees 90
                 (exec (highAccelerationBlock episodeClock true (T0 + 3700) 3.5)
                    (motionEntry jolt before))) in
  let w1' := exec (checkCombinedConditions episodeClock true) w1 in
  let w2' := exec (checkCombinedConditions episodeClock true) w2 in
  (allActive (episodeClock (ticks w1)) w1 = true
   /\ gateClosed episodeClock true (tick w1) = false
   /\ allActive (episodeClock (ticks w2)) w2 = true
   /\ episodeClock (S (ticks w2)) - episodeClock (S (ticks w1)) = 3000)
  /\ lastAlertTimestamp w1' = T0 + 700
  /\ effects w2' = effects w2 ++ [ConsoleLogSuppressed Combined coordinatesOnly]
  /\ dispatched (effects w2') = dispatched (effects w2).
Proof.
  intros w1 before w2 w1' w2'.
  assert (H1 : allActive (episodeClock (ticks w1)) w1 = true) by by_evaluation.
  assert (H2 : gateClosed episodeClock true (tick w1) = false) by by_evaluation.
  assert (H3 : spaced w1' w2).
  { exists []. split; by_evaluation. }
  assert (H4 : allActive (episodeClock (ticks w2)) w2 = true) by by_evaluation.
  assert (H5 : episodeClock (S (ticks w2)) - episodeClock (S (ticks w1)) = 3000)
    by by_evaluation.
  assert (H6 : episodeClock (S (ticks w2)) - episodeClock (S (ticks w1)) < ALERT_COOLDOWN_MS)
    by by_evaluation.
  destruct (cooldown_gate atan2_axes episodeClock true) as (_ & _ & C & _ & _).
  specialize (C w1 w2 H1 H2 H3 H4 H6). cbv zeta in C.
  destruct C as (_ & C2 & C3 & _ & C5).
  split; [repeat split; assumption|]. split; [|split].
  - rewrite <- (Z.add_0_r (T0 + 700)). exact C2.
  - exact C3.
  - exact C5.
Defined.

(** The request of the first episode is rejected by the network. *)
Lemma delivery_failure_keeps_cooldown_witness :
  let w := tick (set_highAccelerationDetected (Some (mkHighAcceleration (T0 + 700) 3.5 100))
                   (motionEntry jolt
                      (run atan2_axes episodeClock true (firstn 3 firstEpisode) fresh))) in
  gateClosed episodeClock true w = false
  /\ lastAlertTimestamp
       (exec (triggerAlert_settled (Rejected (Some "Network request failed"%string)))
          (exec (triggerAlert episodeClock true Combined coordinatesOnly) w))
     = T0 + 700.
Proof.
  intros w.
  assert (H1 : gateClosed episodeClock true w = false) by by_evaluation.
  destruct (delivery_failure_keeps_cooldown atan2_axes episodeClock true) as (_ & C & _).
  split; [exact H1|].
  rewrite (C Combined coordinatesOnly (Some "Network request failed"%string) w H1).
  by_evaluation.
Defined.

(** A location sample handled at a reading 100 ms before that of the previous
    sample. *)
Lemma out_of_order_location_sample_is_processed_witness :
  let clock := clockOf [1000; 900; 900] in
  let w := exec (handleLocationChange clock true (sampleAt 20 1000)) fresh in
  let w' := exec (handleLocationChange clock true (sampleAt 5 900)) w in
  (lastSpeed w = Some 72%float
   /\ lastLocationTimestamp w = Some 1000
   /\ clock (ticks w) <= 1000)
  /\ lastSpeed w' = Some 18%float
  /\ lastLocationTimestamp w' = Some 900
  /\ speedDropDetected w' = Some (mkSpeedDrop 900 54).
Proof.
  intros clock w w'.
  assert (H1 : lastSpeed w = Some 72%float) by by_evaluation.
  assert (H2 : lastLocationTimestamp w = Some 1000) by by_evaluation.
  assert (H3 : clock (ticks w) <= 1000) by by_evaluation.
  pose proof (out_of_order_location_sample_is_processed clock true (sampleAt 5 900) w
                72%float 1000 H1 H2 H3) as C.
  cbv zeta in C. destruct C as (C1 & C2 & _ & C4).
  split; [repeat split; assumption|]. split; [|split].
  - unfold w'. rewrite C1. by_evaluation.
  - unfold w'. rewrite C2. by_evaluation.
  - unfold w'. rewrite C4 by by_evaluation. by_evaluation.
Defined.

(** C8, as stated, fails: the second of these two location samples is handled
    at a clock reading (900) earlier than that of the first (1000), and
    carries an earlier time stamp of its own, yet it overwrites the previous
    speed and time and stores a SpeedDrop detection stamped 900. *)
Lemma out_of_order_sample_counterexample :
  let clock := clockOf [1000; 900; 900] in
  let w := exec (handleLocationChange clock true (sampleAt 20 1000)) fresh in
  let w' := exec (handleLocationChange clock true (sampleAt 5 900)) w in
  (lastLocationTimestamp w = Some 1000
   /\ clock (ticks w) = 900
   /\ speedDropDetected w = None
   /\ speedDropDetected w' = Some (mkSpeedDrop 900 54)
   /\ lastSpeed w' = Some 18%float
   /\ lastLocationTimestamp w' = Some 900
   /\ Qeq (timeDiff 900 1000) (- (1 # 10)))
  /\ ~ (forall clock alertsEnabled loc w last,
          lastLocationTimestamp w = Some last ->
          clock (ticks w) <= last ->
          let w' := exec (handleLocationChange clock alertsEnabled loc) w in
          speedDropDetected w' = speedDropDetected w
          /\ lastSpeed w' = lastSpeed w
          /\ lastLocationTimestamp w' = lastLocationTimestamp w).
Proof.
  intros clock w w'.
  assert (F : lastLocationTimestamp w = Some 1000
              /\ clock (ticks w) = 900
              /\ speedDropDetected w = None
              /\ speedDropDetected w' = Some (mkSpeedDrop 900 54)
              /\ lastSpeed w' = Some 18%float
              /\ lastLocationTimestamp w' = Some 900
              /\ Qeq (timeDiff 900 1000) (- (1 # 10))).
  { repeat split; by_evaluation. }
  split; [exact F|].
  intros H.
  destruct F as (F1 & F2 & F3 & F4 & _).
  assert (L : clock (ticks w) <= 1000) by (rewrite F2; discriminate).
  destruct (H clock true (sampleAt 5 900) w 1000 F1 L) as (H1 & _).
  fold w' in H1. rewrite F3, F4 in H1. discriminate H1.
Qed.

(** Two clocks that agree while the first episode is handled and differ
    afterwards, and two sequences of samples that differ in the time stamps
    the samples carry. *)
Lemma replay_follows_arrival_times_witness :
  let c2 := clockOf [T0; T0 + 500; T0 + 500; T0 + 600; T0 + 600;
                     T0 + 700; T0 + 700; T0 + 700; T0 + 700;
                     T0 + 3000; T0 + 3500; T0 + 3500;
                     T0 + 3700; T0 + 3700; T0 + 3700; T0 + 3700;
                     T0 + 3700; T0 + 3700; T0 + 3700; T0 + 3700; T0 + 86400000] in
  let events2 := [LocationChange (sampleAt 20 (T0 - 40)); LocationChange (sampleAt 5 (T0 + 470));
                  AccelerometerUpdate jolt; AccelerometerUpdate jolt] in
  (map eraseTimestamp firstEpisode = map eraseTimestamp events2
   /\ forall k, (k < 5 * List.length firstEpisode)%nat -> episodeClock k = c2 k)
  /\ episodeClock 20%nat <> c2 20%nat
  /\ compoundAlerts (effects (run atan2_axes episodeClock true firstEpisode fresh))
     = compoundAlerts (effects (run atan2_axes c2 true events2 fresh)).
Proof.
  intros c2 events2.
  assert (He : map eraseTimestamp firstEpisode = map eraseTimestamp events2) by reflexivity.
  assert (H : forall k, (k < 5 * List.length firstEpisode)%nat -> episodeClock k = c2 k).
  { intros k Hk. cbn in Hk.
    do 20 (destruct k as [|k]; [by_evaluation|]). lia. }
  split; [split; [exact He | exact H]|]. split; [by_evaluation|].
  exact (proj1 (replay_follows_arrival_times atan2_axes true episodeClock c2
                  firstEpisode events2 He H)).
Defined.

(** C9, as stated, fails: the samples of the first episode, which carry
    their time stamps in order, raise an alert when the jolts arrive 100 and
    200 ms after the speed drop, and none when they arrive 2500 and 2600 ms
    after it.  Neither clock runs backwards. *)
Lemma same_samples_other_times_counterexample :
  let prompt := clockOf [T0; T0 + 500; T0 + 500; T0 + 600; T0 + 600;
                         T0 + 700; T0 + 700; T0 + 700; T0 + 700] in
  let late := clockOf [T0; T0 + 500; T0 + 500; T0 + 3000; T0 + 3000;
                       T0 + 3100; T0 + 3100; T0 + 3100] in
  (timeOrdered firstEpisode = true
   /\ monotone prompt
   /\ monotone late
   /\ compoundAlerts (effects (run atan2_axes prompt true firstEpisode fresh))
      = [FetchSendAlert combinedMessage54 (Some 28.5%float) (Some 77.25%float)]
   /\ compoundAlerts (effects (run atan2_axes late true firstEpisode fresh)) = [])
  /\ ~ (forall Math_atan2 alertsEnabled c1 c2 events,
          timeOrdered events = true ->
          monotone c1 ->
          monotone c2 ->
          compoundAlerts (effects (run Math_atan2 c1 alertsEnabled events fresh))
          = compoundAlerts (effects (run Math_atan2 c2 alertsEnabled events fresh))).
Proof.
  intros prompt late.
  assert (Mp : monotone prompt).
  { intros i j Hij.
    assert (Hi : (i < 9)%nat \/ (9 <= i)%nat) by lia.
    assert (Hj : (j < 9)%nat \/ (9 <= j)%nat) by lia.
    unfold prompt, clockOf.
    destruct Hi as [Hi|Hi]; destruct Hj as [Hj|Hj].
    - do 9 (destruct i as [|i]; [do 9 (destruct j as [|j]; [by_evaluation || lia|]); lia|]).
      lia.
    - rewrite (nth_overflow _ _ (n:=j)) by (cbn; lia).
      do 9 (destruct i as [|i]; [by_evaluation|]). lia.
    - lia.
    - rewrite !nth_overflow by (cbn; lia). lia. }
  assert (Ml : monotone late).
  { intros i j Hij.
    assert (Hi : (i < 8)%nat \/ (8 <= i)%nat) by lia.
    assert (Hj : (j < 8)%nat \/ (8 <= j)%nat) by lia.
    unfold late, clockOf.
    destruct Hi as [Hi|Hi]; destruct Hj as [Hj|Hj].
    - do 8 (destruct i as [|i]; [do 8 (destruct j as [|j]; [by_evaluation || lia|]); lia|]).
      lia.
    - rewrite (nth_overflow _ _ (n:=j)) by (cbn; lia).
      do 8 (destruct i as [|i]; [by_evaluation|]). lia.
    - lia.
    - rewrite !nth_overflow by (cbn; lia). lia. }
  assert (O : timeOrdered firstEpisode = true) by by_evaluation.
  assert (Fp : compoundAlerts (effects (run atan2_axes prompt true firstEpisode fresh))
               = [FetchSendAlert combinedMessage54 (Some 28.5%float) (Some 77.25%float)])
    by by_evaluation.
  assert (Fl : compoundAlerts (effects (run atan2_axes late true firstEpisode fresh)) = [])
    by by_evaluation.
  split; [repeat split; assumption|].
  intros H. specialize (H atan2_axes true prompt late firstEpisode O Mp Ml).
  rewrite Fp, Fl in H. discriminate H.
Qed.

(** After the alert of the first episode the detector is still armed from the
    first jolt: a third jolt stores a detection at once. *)
Lemma correlation_clears_only_flags_witness :
  let w := set_highAccelerationDetected (Some (mkHighAcceleration (T0 + 700) 3.5 100))
             (motionEntry jolt
                (run atan2_axes episodeClock true (firstn 3 firstEpisode) fresh)) in
  let w' := exec (checkCombinedConditions episodeClock true) w in
  allActive (episodeClock (ticks w)) w = true
  /\ accelPeakTimestamp w' = Some (T0 + 600)
  /\ highAccelerationDetected w' = None
  /\ highAccelerationDetected (exec (handleAccelerometer atan2_axes episodeClock true jolt) w')
     = Some (mkHighAcceleration (T0 + 700) 3.5 100).
Proof.
  intros w w'.
  assert (H1 : allActive (episodeClock (ticks w)) w = true) by by_evaluation.
  pose proof (correlation_clears_only_flags atan2_axes episodeClock true w H1) as C.
  cbv zeta in C. destruct C as ((_ & C1 & _) & (C2 & _) & C3).
  assert (P : accelPeakTimestamp w = Some (T0 + 600)) by by_evaluation.
  assert (G : ge (magnitudeOf jolt) ACCEL_MAGNITUDE_THRESHOLD_G = true) by by_evaluation.
  split; [exact H1|]. split; [unfold w'; rewrite C2; exact P|]. split; [exact C1|].
  unfold w'. rewrite (C3 (T0 + 600) jolt P G) by by_evaluation. by_evaluation.
Defined.

(** * Mounting: which sensors feed the engine *)

(** X12: what the effect run on mount subscribes to.  The location watcher
    is registered exactly when the location permission is granted, and
    without it nothing at all is registered, the motion sensors included.
    Device motion is listened to only on iOS, when it is available and
    granted; the accelerometer otherwise, when it is granted.  The two
    motion listeners are never both registered, and the user sees at most
    two refusal dialogs. *)
Theorem sensorSetup_subscriptions h :
  let setup := sensorSetup h in
  let location := isPermissionGranted (locationPermission h) in
  let deviceMotion :=
    isIos (Platform_OS h) && DeviceMotion_isAvailable h
    && isPermissionGranted (deviceMotionPermission h) in
  existsb isWatchPosition setup = location
  /\ existsb (isAddListener DeviceMotionSensor) setup = location && deviceMotion
  /\ existsb (isAddListener AccelerometerSensor) setup
     = location && negb deviceMotion && isPermissionGranted (accelerometerPermission h)
  /\ existsb (isAddListener DeviceMotionSensor) setup
     && existsb (isAddListener AccelerometerSensor) setup = false
  /\ (location = false ->
      setup = [PermissionDialog
                 "Location permission is required to monitor speed and get coordinates."])
  /\ (List.length (filter isPermissionDialog setup) <= 2)%nat.
Proof.
  destruct h as [os avail [] [] []]; destruct os, avail; cbn;
    repeat split; try reflexivity; try discriminate; lia.
Qed.

Lemma delivered_without_location h events :
  isPermissionGranted (locationPermission h) = false ->
  Forall (fun e => delivers (sensorSetup h) e = true) events ->
  Forall (fun e => isLocationChange e = false) events.
Proof.
  intros Hl F. eapply Forall_impl; [|exact F].
  intros e He. destruct e as [loc| | |]; try reflexivity.
  cbn in He. unfold sensorSetup in He. rewrite Hl in He. discriminate.
Qed.

Lemma delivered_without_motion h events :
  isPermissionGranted (accelerometerPermission h) = false ->
  isIos (Platform_OS h) && DeviceMotion_isAvailable h
  && isPermissionGranted (deviceMotionPermission h) = false ->
  Forall (fun e => delivers (sensorSetup h) e = true) events ->
  Forall (fun e => isMotionSample e = false) events.
Proof.
  intros Ha Hd F. eapply Forall_impl; [|exact F].
  intros e He. destruct e as [|v|motion|]; try reflexivity; exfalso;
    destruct h as [os avail [] [] []]; destruct os, avail;
    cbn in *; discriminate.
Qed.

(** X13: an engine that lacks a sensor never raises an alert.  When the
    location permission is refused, or when neither motion sensor could be
    subscribed, no sequence of events that the registered handlers can
    receive raises an alert on a freshly mounted component. *)
Theorem no_alert_when_a_sensor_is_missing Math_atan2 clock alertsEnabled h events :
  Forall (fun e => delivers (sensorSetup h) e = true) events ->
  isPermissionGranted (locationPermission h) = false
  \/ (isPermissionGranted (accelerometerPermission h) = false
      /\ isIos (Platform_OS h) && DeviceMotion_isAvailable h
         && isPermissionGranted (deviceMotionPermission h) = false) ->
  let w := run Math_atan2 clock alertsEnabled events fresh in
  compoundAlerts (effects w) = [] /\ dispatched (effects w) = [].
Proof.
  intros F [Hl|(Ha & Hd)] w.
  - destruct (run_without_location Math_atan2 clock alertsEnabled events fresh
                (delivered_without_location h events Hl F) eq_refl) as (_ & C & D).
    split; assumption.
  - destruct (run_without_motion Math_atan2 clock alertsEnabled events fresh
                (delivered_without_motion h events Ha Hd F) eq_refl eq_refl)
      as (_ & _ & C & D).
    split; assumption.
Qed.

(** * The backend and the app *)

(** X14: a failure of the SMS provider is silent in the app.  The backend
    answers 200 exactly when the provider accepts the message, and 500
    otherwise; it hands the provider the message and the recipient of the
    request and ignores the coordinates sent along.  Either answer resolves
    the request of the app, whose continuation then changes nothing and
    shows nothing: the error dialog is shown for a rejected request only. *)
Theorem provider_failure_is_silent messages_create req w :
  let response := send_alert messages_create req in
  (responseStatus response = 200 <->
     exists sid, messages_create (req_message req) twilioPhone (req_to req) = inl sid)
  /\ (responseStatus response = 500 <->
        exists error, messages_create (req_message req) twilioPhone (req_to req) = inr error)
  /\ (forall lat lon,
         send_alert messages_create (mkRequest (req_to req) (req_message req) lat lon)
         = response)
  /\ exec (triggerAlert_settled (fetchOutcome response)) w = w
  /\ (forall msg, exec (triggerAlert_settled (Rejected msg)) w <> w).
Proof.
  cbn zeta. unfold send_alert. cbn.
  destruct (messages_create (req_message req) twilioPhone (req_to req)) as [sid|error];
    cbn; repeat split; try reflexivity; try discriminate.
  all: try (intros _; eexists; reflexivity).
  all: try (intros (x & Hx); discriminate).
  all: intros msg H; apply (f_equal effects) in H; cbn in H;
    apply (f_equal (@List.length Effect)) in H; rewrite List.length_app in H; cbn in H; lia.
Qed.

(** * The switch *)

Lemma world_appRun Math_atan2 clock alertsEnabled events c :
  world (appRun Math_atan2 clock alertsEnabled events c)
  = run Math_atan2 clock alertsEnabled (delivered events) (world c).
Proof.
  revert c. induction events as [|a events IH]; intros c; [reflexivity|].
  change (appRun Math_atan2 clock alertsEnabled (a :: events) c)
    with (appRun Math_atan2 clock alertsEnabled events
            (appHandle Math_atan2 clock alertsEnabled c a)).
  rewrite IH. destruct a; reflexivity.
Qed.

(** C6: the switch does not reach the handlers.  [triggerAlert] only logs
    when the [alertsEnabled] of its closure is false, but the handlers that
    receive the samples are those of the first render, whose [alertsEnabled]
    is the initial [true]: whatever the user does with the switch, the
    component handles the delivered events as if the switch had never been
    touched.  So, with the switch turned off after mounting, the first
    episode is still dispatched and consumes the cooldown, where a handler
    that saw the switch would only have written a console line. *)
Theorem switched_off_alerts_are_still_dispatched :
  (forall Math_atan2 clock events c,
      world (appRun Math_atan2 clock alertsEnabled_initial events c)
      = run Math_atan2 clock alertsEnabled_initial (delivered events) (world c))
  /\ (let c := appRun atan2_axes episodeClock alertsEnabled_initial
                 (SwitchToggled :: map Delivered firstEpisode) mount in
      alertsEnabled_state c = false
      /\ effects (world c)
         = [ConsoleLogSending combinedMessage54; AlertAccident combinedMessage54;
            FetchSendAlert combinedMessage54 (Some 28.5%float) (Some 77.25%float)]
      /\ dispatched (effects (world c))
         = [FetchSendAlert combinedMessage54 (Some 28.5%float) (Some 77.25%float)]
      /\ lastAlertTimestamp (world c) = T0 + 700)
  /\ (let w := run atan2_axes episodeClock false firstEpisode fresh in
      effects w = [ConsoleLogSuppressed Combined coordinatesOnly]
      /\ lastAlertTimestamp w = 0).
Proof.
  split; [intros; apply world_appRun|].
  split; vm_compute; repeat split; reflexivity.
Qed.

(** * A failure reported by the backend *)

(** C7: the failure of the delivery channel is not shown.  The alert of the
    first episode is dispatched; the provider refuses the message, so the
    backend answers with status 500 and the error text; that answer resolves
    the request of the app, which never looks at it: the continuation of
    [triggerAlert] leaves the component as it is, without the error dialog.
    [lastAlertTimestamp] keeps the value set when the gate was passed.  The
    dialog is shown when the request itself is rejected. *)
Theorem backend_failure_is_not_surfaced :
  let refuse := fun (_ : option Message) (_ : string) (_ : option string) =>
                  inr "A 'From' phone number is required."%string : string + string in
  let w := run atan2_axes episodeClock alertsEnabled_initial firstEpisode fresh in
  let request := FetchSendAlert combinedMessage54 (Some 28.5%float) (Some 77.25%float) in
  let req := mkRequest (Some alertRecipient) (Some combinedMessage54)
               (Some 28.5%float) (Some 77.25%float) in
  let response := send_alert refuse req in
  let settle := fun outcome =>
    exec (handle atan2_axes episodeClock alertsEnabled_initial (FetchSettled outcome)) w in
  dispatched (effects w) = [request]
  /\ requestOf request = Some req
  /\ response = ResponseFailure "A 'From' phone number is required."
  /\ fetchOutcome response = Resolved 500
  /\ settle (fetchOutcome response) = w
  /\ effects (settle (fetchOutcome response))
     = [ConsoleLogSending combinedMessage54; AlertAccident combinedMessage54; request]
  /\ lastAlertTimestamp (settle (fetchOutcome response)) = T0 + 700
  /\ effects (settle (Rejected (Some "Network request failed"%string)))
     = effects w ++ [AlertSmsError "Network request failed"].
Proof. vm_compute. repeat split; reflexivity. Qed.

(** ** The further properties at concrete inputs *)

Lemma at_most_one_alert_per_event_witness :
  let w := run atan2_axes episodeClock true (firstEpisode ++ secondEpisode) fresh in
  (List.length (compoundAlerts (effects w))
   <= List.length (compoundAlerts (effects fresh))
      + List.length (firstEpisode ++ secondEpisode))%nat
  /\ List.length (compoundAlerts (effects w)) = 2%nat.
Proof.
  intros w. split; [|by_evaluation].
  exact (proj1 (proj2 (at_most_one_alert_per_event atan2_axes episodeClock true)
                  (firstEpisode ++ secondEpisode) fresh)).
Defined.

(** The second jolt of the first episode finds an active speed drop and
    leaves none: an alert was raised. *)
Lemma detection_leaves_by_expiry_or_alert_witness :
  let w := run atan2_axes episodeClock true (firstn 3 firstEpisode) fresh in
  let w' := exec (handle atan2_axes episodeClock true (AccelerometerUpdate jolt)) w in
  (isSpeedDropActive (episodeClock (ticks w)) w = true /\ speedDropDetected w' = None)
  /\ List.length (compoundAlerts (effects w')) = S (List.length (compoundAlerts (effects w))).
Proof.
  intros w w'.
  assert (H1 : isSpeedDropActive (episodeClock (ticks w)) w = true) by by_evaluation.
  assert (H2 : speedDropDetected w' = None) by by_evaluation.
  split; [split; assumption|].
  pose proof (detection_leaves_by_expiry_or_alert atan2_axes episodeClock true
                (AccelerometerUpdate jolt) w) as C.
  cbv zeta in C. destruct C as (_ & _ & _ & C & _).
  exact (C H1 H2).
Defined.

Lemma no_alert_without_all_sensors_witness :
  let events := [AccelerometerUpdate jolt; AccelerometerUpdate jolt] in
  let w' := run atan2_axes episodeClock true events fresh in
  (Forall (fun e => isLocationChange e = false) events /\ speedDropDetected fresh = None)
  /\ highTiltDetected w' = Some (mkHighTilt (T0 + 500) 90)
  /\ compoundAlerts (effects w') = compoundAlerts (effects fresh).
Proof.
  intros events w'.
  assert (H1 : Forall (fun e => isLocationChange e = false) events)
    by (repeat constructor).
  assert (H2 : speedDropDetected fresh = None) by reflexivity.
  split; [split; assumption|]. split; [by_evaluation|].
  destruct (proj1 (no_alert_without_all_sensors atan2_axes episodeClock true)
              events fresh H1 H2) as (_ & C & _).
  exact C.
Defined.

Lemma streams_keep_to_their_state_witness :
  let w := run atan2_axes episodeClock true (firstn 2 firstEpisode) fresh in
  let e := AccelerometerUpdate jolt in
  let w' := exec (handle atan2_axes episodeClock true e) w in
  isLocationChange e = false
  /\ lastSpeed w = Some 18%float
  /\ lastSpeed w' = lastSpeed w
  /\ lastLocationTimestamp w' = lastLocationTimestamp w.
Proof.
  intros w e w'.
  assert (H1 : isLocationChange e = false) by reflexivity.
  split; [exact H1|]. split; [by_evaluation|].
  pose proof (streams_keep_to_their_state atan2_axes episodeClock true e w) as C.
  cbv zeta in C. destruct C as (C & _). destruct (C H1) as (C1 & C2 & _).
  split; assumption.
Defined.

Lemma alerts_sent_are_over_thresholds_witness :
  let w := run atan2_axes episodeClock true firstEpisode fresh in
  In (FetchSendAlert combinedMessage54 (Some 28.5%float) (Some 77.25%float)) (effects w)
  /\ exists v g t link,
       combinedMessage54 = MsgCombined (Some v) (Some g) (Some t) link
       /\ ge v SPEED_DROP_THRESHOLD_KMH = true
       /\ ge g ACCEL_MAGNITUDE_THRESHOLD_G = true
       /\ ge t TILT_DANGER_THRESHOLD_DEG = true.
Proof.
  intros w.
  assert (H1 : In (FetchSendAlert combinedMessage54 (Some 28.5%float) (Some 77.25%float))
                 (effects w)).
  { vm_compute. right. right. left. reflexivity. }
  split; [exact H1|].
  pose proof (alerts_sent_are_over_thresholds atan2_axes episodeClock true firstEpisode) as C.
  cbv zeta in C. destruct C as (_ & C).
  exact (C _ _ _ H1).
Defined.

(** The first episode on a clock that starts at 0: the alert fires within
    10000 ms of the initial [lastAlertTimestamp] and is suppressed. *)
Lemma closed_gate_dispatches_nothing_witness :
  let clock := clockOf [0; 500; 500; 600; 600; 700; 700; 700; 700] in
  let w' := run atan2_axes clock true firstEpisode fresh in
  (forall k, (0 <= k)%nat -> clock k - 0 < ALERT_COOLDOWN_MS)
  /\ effects w' = [ConsoleLogSuppressed Combined coordinatesOnly]
  /\ lastAlertTimestamp w' = 0
  /\ dispatched (effects w') = dispatched (effects fresh).
Proof.
  intros clock w'.
  assert (H1 : forall k, (0 <= k)%nat -> clock k - 0 < ALERT_COOLDOWN_MS).
  { intros k _. unfold clock, clockOf.
    assert (Hk : (k < 9)%nat \/ (9 <= k)%nat) by lia.
    destruct Hk as [Hk|Hk].
    - do 9 (destruct k as [|k]; [by_evaluation|]). lia.
    - rewrite nth_overflow by (cbn; lia). by_evaluation. }
  assert (H2 : (0 <= ticks fresh)%nat) by (cbn; lia).
  assert (H3 : lastAlertTimestamp fresh = 0) by reflexivity.
  split; [exact H1|]. split; [by_evaluation|].
  exact (closed_gate_dispatches_nothing atan2_axes clock true 0%nat 0 firstEpisode fresh
           H1 H2 H3).
Defined.

Lemma device_motion_as_accelerometer_witness :
  let motion := mkMotion (Some jolt) (Some (mkVec3 0 0 1)) in
  accelerationIncludingGravity motion = Some jolt
  /\ exec (handleDeviceMotion atan2_axes episodeClock true motion) fresh
     = exec (handleAccelerometer atan2_axes episodeClock true jolt) fresh.
Proof.
  intros motion.
  assert (H1 : accelerationIncludingGravity motion = Some jolt) by reflexivity.
  split; [exact H1|].
  exact (proj1 (device_motion_as_accelerometer atan2_axes episodeClock true motion fresh)
           jolt H1).
Defined.

Lemma first_location_sample_only_records_witness :
  let w' := exec (handleLocationChange episodeClock true (sampleAt 20 T0)) fresh in
  (lastSpeed fresh = None \/ lastLocationTimestamp fresh = None)
  /\ speedDropDetected w' = speedDropDetected fresh
  /\ effects w' = effects fresh
  /\ lastSpeed w' = Some (speedKmhOf (sampleAt 20 T0)).
Proof.
  intros w'.
  assert (H1 : lastSpeed fresh = None \/ lastLocationTimestamp fresh = None)
    by (left; reflexivity).
  split; [exact H1|].
  pose proof (proj1 (first_location_sample_only_records atan2_axes episodeClock true)
                (sampleAt 20 T0) fresh H1) as C.
  cbv zeta in C. destruct C as (C1 & _ & _ & C4 & _ & C6 & _).
  repeat split; assumption.
Defined.

(** 72 km/h, then a sample without speed 500 ms later. *)
Lemma missing_speed_is_standstill_witness :
  let clock := clockOf [T0; T0 + 500; T0 + 500] in
  let w := exec (handleLocationChange clock true (sampleAt 20 T0)) fresh in
  let loc := mkLocation (mkCoords 28.5 77.25 None) (T0 + 500) in
  let w' := exec (handleLocationChange clock true loc) w in
  (coords_speed (coords loc) = None
   /\ lastSpeed w = Some 72%float
   /\ lastLocationTimestamp w = Some T0
   /\ clock (ticks w) - T0 <= 1000
   /\ ge (72 - 0)%float SPEED_DROP_THRESHOLD_KMH = true
   /\ gt 72%float 5%float = true)
  /\ speedDropDetected w' = Some (mkSpeedDrop (T0 + 500) 72).
Proof.
  intros clock w loc w'.
  assert (H0 : coords_speed (coords loc) = None) by reflexivity.
  assert (H1 : lastSpeed w = Some 72%float) by by_evaluation.
  assert (H2 : lastLocationTimestamp w = Some T0) by by_evaluation.
  assert (H3 : clock (ticks w) - T0 <= 1000) by by_evaluation.
  assert (H4 : ge (72 - 0)%float SPEED_DROP_THRESHOLD_KMH = true) by by_evaluation.
  assert (H5 : gt 72%float 5%float = true) by by_evaluation.
  split; [repeat split; assumption|].
  pose proof (missing_speed_is_standstill clock true loc w 72%float T0
                (or_introl H0) H1 H2 H3 H4 H5) as C.
  cbv zeta in C. destruct C as (_ & C).
  unfold w'. rewrite C. by_evaluation.
Defined.

(** A fix on the equator after one at 28.5 degrees north. *)
Lemma coordinates_need_truthy_fix_witness :
  let w := run atan2_axes episodeClock true (firstn 2 firstEpisode) fresh in
  let loc := mkLocation (mkCoords 0 77.25 (Some 5%float)) (T0 + 600) in
  let w' := exec (handleLocationChange episodeClock true loc) w in
  currentLatitude (display w') = Some 0%float
  /\ lastKnownCoordinates w' = Some (mkCoordinates 28.5 77.25).
Proof.
  intros w loc w'.
  pose proof (coordinates_need_truthy_fix episodeClock true loc w) as C.
  cbv zeta in C. destruct C as (C1 & _ & _ & C4).
  split; [exact C1|].
  unfold w'. rewrite C4. by_evaluation.
Defined.

Lemma momentum_line_follows_latest_sample_witness :
  let clock := clockOf [T0; T0 + 500; T0 + 500; T0 + 1500] in
  let w := exec (handleLocationChange clock true (sampleAt 20 T0)) fresh in
  let w' := exec (handleLocationChange clock true (sampleAt 5 (T0 + 500))) w in
  let w'' := exec (handleLocationChange clock true (sampleAt 5 (T0 + 1500))) w' in
  (lastSpeed w = Some 72%float /\ lastLocationTimestamp w = Some T0)
  /\ momentumChangeDetected (display w') = true
  /\ momentumLine w'
     = Some (Some (VEHICLE_MASS_KG * (54 / KMH_PER_METRE_PER_SECOND))%float)
  /\ momentumLine w'' = None.
Proof.
  intros clock w w' w''.
  assert (H1 : lastSpeed w = Some 72%float) by by_evaluation.
  assert (H2 : lastLocationTimestamp w = Some T0) by by_evaluation.
  assert (H3 : lastSpeed w' = Some 18%float) by by_evaluation.
  assert (H4 : lastLocationTimestamp w' = Some (T0 + 500)) by by_evaluation.
  pose proof (momentum_line_follows_latest_sample clock true (sampleAt 5 (T0 + 500)) w
                72%float T0 H1 H2) as C.
  pose proof (momentum_line_follows_latest_sample clock true (sampleAt 5 (T0 + 1500)) w'
                18%float (T0 + 500) H3 H4) as C'.
  cbv zeta in C, C'. destruct C as (C1 & _ & C3). destruct C' as (_ & C2' & _).
  split; [split; assumption|]. split; [|split].
  - unfold w'. rewrite C1. by_evaluation.
  - unfold w'. rewrite C3 by by_evaluation. by_evaluation.
  - unfold w''. apply C2'. by_evaluation.
Defined.

(** An Android phone whose user refuses the location permission. *)
Lemma sensorSetup_subscriptions_witness :
  let h := mkHost android false denied undetermined granted in
  isPermissionGranted (locationPermission h) = false
  /\ sensorSetup h
     = [PermissionDialog
          "Location permission is required to monitor speed and get coordinates."]
  /\ existsb (isAddListener AccelerometerSensor) (sensorSetup h) = false.
Proof.
  intros h.
  assert (H1 : isPermissionGranted (locationPermission h) = false) by reflexivity.
  pose proof (sensorSetup_subscriptions h) as C.
  cbv zeta in C. destruct C as (_ & _ & C3 & _ & C5 & _).
  split; [exact H1|]. split; [exact (C5 H1) | exact C3].
Defined.

(** An Android phone whose user refuses the accelerometer: the location
    samples of the first episode arrive, the jolts do not. *)
Lemma no_alert_when_a_sensor_is_missing_witness :
  let h := mkHost android false granted undetermined denied in
  let events := firstn 2 firstEpisode in
  let w := run atan2_axes episodeClock true events fresh in
  Forall (fun e => delivers (sensorSetup h) e = true) events
  /\ speedDropDetected w = Some (mkSpeedDrop (T0 + 500) 54)
  /\ compoundAlerts (effects w) = []
  /\ dispatched (effects w) = [].
Proof.
  intros h events w.
  assert (H1 : Forall (fun e => delivers (sensorSetup h) e = true) events)
    by (repeat constructor).
  split; [exact H1|]. split; [by_evaluation|].
  exact (no_alert_when_a_sensor_is_missing atan2_axes episodeClock true h events H1
           (or_intror (conj eq_refl eq_refl))).
Defined.

(** The provider refuses the sender's number, which is empty in the source. *)
Lemma provider_failure_is_silent_witness :
  let refuse := fun (_ : option Message) (_ : string) (_ : option string) =>
                  inr "A 'From' phone number is required."%string : string + string in
  let req := mkRequest (Some alertRecipient) (Some combinedMessage54)
               (Some 28.5%float) (Some 77.25%float) in
  let w := run atan2_axes episodeClock true firstEpisode fresh in
  requestOf (FetchSendAlert combinedMessage54 (Some 28.5%float) (Some 77.25%float)) = Some req
  /\ responseStatus (send_alert refuse req) = 500
  /\ exec (triggerAlert_settled (fetchOutcome (send_alert refuse req))) w = w.
Proof.
  intros refuse req w.
  pose proof (provider_failure_is_silent refuse req w) as C.
  cbv zeta in C. destruct C as (_ & C2 & _ & C4 & _).
  split; [reflexivity|]. split; [|exact C4].
  apply C2. eexists. reflexivity.
Defined.
